(** * duplicate-finder-ai: the duplicate detection, classification and audit
      log of the repository, embedded in Rocq and checked against its
      specification.

    Layout: the definitions come first, one module per source file
    ([FileUtils], [Logger], [DuplicateDetector] for
    organized/document/duplicate_detector.py, [FileClassifier] for
    organized/document/model.py, [ContentDetector] for duplicate_detector.py),
    then the quantities the specification speaks of; the lemmas and the
    theorems C1 to C10 follow. *)

From Stdlib Require Import ZArith List String Ascii Bool Lia QArith Permutation
  Sorted.
Import ListNotations.

Set Implicit Arguments.
Local Open Scope string_scope.
Local Open Scope list_scope.
Local Open Scope Z_scope.

(* ================================================================== *)
(** ** Python values the code relies on *)

(** A Python [dict] with [str] keys.  Iteration order is insertion order and
    several results of the code are lists produced by iterating a dict, so the
    model is an association list with unique keys: [set] overwrites in place
    and puts a new key last. *)
Module PyDict.

Definition dict (V : Type) : Type := list (string * V).

Fixpoint get {V} (d : dict V) (k : string) : option V :=
  match d with
  | [] => None
  | (k', v) :: d' => if String.eqb k' k then Some v else get d' k
  end.

Fixpoint set {V} (d : dict V) (k : string) (v : V) : dict V :=
  match d with
  | [] => [(k, v)]
  | (k', v') :: d' =>
      if String.eqb k' k then (k', v) :: d' else (k', v') :: set d' k v
  end.

Definition contains {V} (d : dict V) (k : string) : bool :=
  match get d k with Some _ => true | None => false end.

Definition keys {V} (d : dict V) : list string := map fst d.
Definition values {V} (d : dict V) : list V := map snd d.
Definition items {V} (d : dict V) : list (string * V) := d.

End PyDict.

(** The exceptions the modelled code can meet. *)
Inductive exn : Type :=
| FileNotFoundError (path : string)
| PermissionError (path : string)
| AttributeError (name : string)
| ValueError (msg : string)
| IndexError
| KeyError (key : string)
| ZeroDivisionError
| UnicodeDecodeError
| RecursionError.

(** [str(e)] *)
Definition exn_str (e : exn) : string :=
  match e with
  | FileNotFoundError p =>
      ("[Errno 2] No such file or directory: '" ++ p ++ "'")%string
  | PermissionError p => ("[Errno 13] Permission denied: '" ++ p ++ "'")%string
  | AttributeError n =>
      ("module 'hashlib' has no attribute '" ++ n ++ "'")%string
  | ValueError m => m
  | IndexError => "list index out of range"
  | KeyError k => ("'" ++ k ++ "'")%string
  | ZeroDivisionError => "division by zero"
  | UnicodeDecodeError => "'utf-8' codec can't decode byte"
  | RecursionError => "maximum recursion depth exceeded"
  end.

(** The result of a call that only reads: a value or a raised exception. *)
Inductive result (A : Type) : Type :=
| Ok (a : A)
| Raise (e : exn).
Arguments Ok {A} a.
Arguments Raise {A} e.

Definition rbind {A B} (r : result A) (k : A -> result B) : result B :=
  match r with
  | Ok a => k a
  | Raise e => Raise e
  end.

Fixpoint rmap {A B} (f : A -> result B) (l : list A) : result (list B) :=
  match l with
  | [] => Ok []
  | a :: l' =>
      rbind (f a) (fun b => rbind (rmap f l') (fun bs => Ok (b :: bs)))
  end.

(** [sorted(l, key=key, reverse=reverse)].  Python evaluates the key once per
    element, in order, then sorts stably; with [reverse=True] the order of
    equal elements is still the original one.  The model is a stable
    insertion sort of the decorated list. *)
Module PySorted.

Definition before (reverse : bool) (k1 k2 : Z) : bool :=
  if reverse then k2 <=? k1 else k1 <=? k2.

Fixpoint insert {A} (reverse : bool) (x : Z * A) (l : list (Z * A)) : list (Z * A) :=
  match l with
  | [] => [x]
  | y :: l' =>
      if before reverse (fst x) (fst y) then x :: y :: l'
      else y :: insert reverse x l'
  end.

(** Inserting from the right end keeps equal keys in their original order. *)
Fixpoint sort {A} (reverse : bool) (l : list (Z * A)) : list (Z * A) :=
  match l with
  | [] => []
  | x :: l' => insert reverse x (sort reverse l')
  end.

Definition sorted {A} (key : A -> result Z) (reverse : bool) (l : list A)
  : result (list A) :=
  rbind (rmap (fun x => rbind (key x) (fun k => Ok (k, x))) l)
        (fun decorated => Ok (map snd (sort reverse decorated))).

End PySorted.

(* ================================================================== *)
(** ** The world the code runs in: a file system and the audit database *)

(** A regular file.  [f_mime] is what libmagic detects from the content;
    [f_readable] and [f_deletable] stand for the permissions that make
    [open] and [os.remove] fail. *)
Record file : Type := mkFile {
  f_content : string;
  f_mtime : Z;
  f_ctime : Z;
  f_mime : string;
  f_readable : bool;
  f_deletable : bool
}.

(** The file system: full paths of regular files, in the order a directory
    walk lists them.  Every path is a file of its own: symbolic links, and
    two spellings of one path, are not represented. *)
Definition filesystem : Type := list (string * file).

Fixpoint lookup (fs : filesystem) (p : string) : option file :=
  match fs with
  | [] => None
  | (q, f) :: fs' => if String.eqb q p then Some f else lookup fs' p
  end.

Definition exists_file (fs : filesystem) (p : string) : bool :=
  match lookup fs p with Some _ => true | None => false end.

(** A row of table [operations] (logger.py, _init_db). *)
Record operation : Type := mkOperation {
  op_id : Z;
  op_timestamp : Z;
  operation_type : string;
  source_path : string;
  destination_path : option string;
  status : string;
  details : string
}.

(** A row of table [file_metadata], one field per column; column
    [file_path] is UNIQUE. *)
Record metadata_row : Type := mkMetadata {
  md_id : Z;
  md_file_path : string;
  md_file_hash : string;
  md_file_type : string;
  md_file_size : Z;
  md_last_modified : Z;
  md_created_at : Z
}.

(** The SQLite database: the two tables, the AUTOINCREMENT counters and the
    reading of CURRENT_TIMESTAMP. *)
Record database : Type := mkDatabase {
  operations : list operation;
  file_metadata : list metadata_row;
  operations_seq : Z;
  file_metadata_seq : Z;
  current_timestamp : Z
}.

Record world : Type := mkWorld {
  w_fs : filesystem;
  w_db : database
}.

(** A call with effects: it ends by returning or by raising, and in both
    cases the effects made so far stay. *)
Inductive outcome (A : Type) : Type :=
| Returns (a : A) (w : world)
| Raises (e : exn) (w : world).
Arguments Returns {A} a w.
Arguments Raises {A} e w.

Definition M (A : Type) : Type := world -> outcome A.

Definition ret {A} (a : A) : M A := fun w => Returns a w.
Definition raise {A} (e : exn) : M A := fun w => Raises e w.

Definition bind {A B} (m : M A) (k : A -> M B) : M B :=
  fun w =>
    match m w with
    | Returns a w' => k a w'
    | Raises e w' => Raises e w'
    end.

(** [try: body  except Exception as e: handler(e)] *)
Definition try_except {A} (body : M A) (handler : exn -> M A) : M A :=
  fun w =>
    match body w with
    | Returns a w' => Returns a w'
    | Raises e w' => handler e w'
    end.

(** A read-only call made from effectful code. *)
Definition lift {A} (r : filesystem -> result A) : M A :=
  fun w =>
    match r (w_fs w) with
    | Ok a => Returns a w
    | Raise e => Raises e w
    end.

Declare Scope py_scope.
Delimit Scope py_scope with py.
Notation "x <- m ;; k" := (bind m (fun x => k))
  (at level 100, m at next level, right associativity) : py_scope.
Notation "m ;;; k" := (bind m (fun _ => k))
  (at level 100, right associativity) : py_scope.

(** [for x in l: body x], threading the loop's accumulator. *)
Fixpoint for_each {A S} (l : list A) (body : S -> A -> M S) (s : S) : M S :=
  match l with
  | [] => ret s
  | x :: l' => bind (body s x) (for_each l' body)
  end.

Definition final_world {A} (o : outcome A) : world :=
  match o with
  | Returns _ w => w
  | Raises _ w => w
  end.

(* ================================================================== *)
(** ** hashlib.md5 (RFC 1321), the default [hash_type] of the code *)

Module MD5.

Definition mask32 : Z := 0xFFFFFFFF.
Definition add32 (a b : Z) : Z := Z.land (a + b) mask32.
Definition not32 (a : Z) : Z := Z.lxor a mask32.
Definition rotl32 (x c : Z) : Z :=
  Z.lor (Z.land (Z.shiftl x c) mask32) (Z.shiftr x (32 - c)).

Definition K : list Z :=
  [ 0xd76aa478; 0xe8c7b756; 0x242070db; 0xc1bdceee;
    0xf57c0faf; 0x4787c62a; 0xa8304613; 0xfd469501;
    0x698098d8; 0x8b44f7af; 0xffff5bb1; 0x895cd7be;
    0x6b901122; 0xfd987193; 0xa679438e; 0x49b40821;
    0xf61e2562; 0xc040b340; 0x265e5a51; 0xe9b6c7aa;
    0xd62f105d; 0x02441453; 0xd8a1e681; 0xe7d3fbc8;
    0x21e1cde6; 0xc33707d6; 0xf4d50d87; 0x455a14ed;
    0xa9e3e905; 0xfcefa3f8; 0x676f02d9; 0x8d2a4c8a;
    0xfffa3942; 0x8771f681; 0x6d9d6122; 0xfde5380c;
    0xa4beea44; 0x4bdecfa9; 0xf6bb4b60; 0xbebfbc70;
    0x289b7ec6; 0xeaa127fa; 0xd4ef3085; 0x04881d05;
    0xd9d4d039; 0xe6db99e5; 0x1fa27cf8; 0xc4ac5665;
    0xf4292244; 0x432aff97; 0xab9423a7; 0xfc93a039;
    0x655b59c3; 0x8f0ccc92; 0xffeff47d; 0x85845dd1;
    0x6fa87e4f; 0xfe2ce6e0; 0xa3014314; 0x4e0811a1;
    0xf7537e82; 0xbd3af235; 0x2ad7d2bb; 0xeb86d391 ].

Definition S : list Z :=
  [ 7; 12; 17; 22; 7; 12; 17; 22; 7; 12; 17; 22; 7; 12; 17; 22;
    5; 9; 14; 20; 5; 9; 14; 20; 5; 9; 14; 20; 5; 9; 14; 20;
    4; 11; 16; 23; 4; 11; 16; 23; 4; 11; 16; 23; 4; 11; 16; 23;
    6; 10; 15; 21; 6; 10; 15; 21; 6; 10; 15; 21; 6; 10; 15; 21 ].

Definition bytes_of (s : string) : list Z :=
  map (fun c => Z.of_nat (nat_of_ascii c)) (list_ascii_of_string s).

(** [n] bytes of [x], least significant first. *)
Fixpoint le_bytes (n : nat) (x : Z) : list Z :=
  match n with
  | O => []
  | Datatypes.S n' => Z.land x 0xFF :: le_bytes n' (Z.shiftr x 8)
  end.

Fixpoint le_word (bs : list Z) : Z :=
  match bs with
  | [] => 0
  | b :: bs' => Z.lor b (Z.shiftl (le_word bs') 8)
  end.

(** The message followed by 0x80, zeros up to 56 modulo 64, and the length in
    bits on 64 bits. *)
Definition pad (msg : list Z) : list Z :=
  let len := Z.of_nat (List.length msg) in
  let zeros := Z.to_nat ((55 - len) mod 64) in
  msg ++ [0x80] ++ repeat 0 zeros ++ le_bytes 8 (Z.land (8 * len) 0xFFFFFFFFFFFFFFFF).

Fixpoint words (n : nat) (bs : list Z) : list Z :=
  match n with
  | O => []
  | Datatypes.S n' => le_word (firstn 4 bs) :: words n' (skipn 4 bs)
  end.

Definition round (m : list Z) (st : Z * Z * Z * Z) (i : nat) : Z * Z * Z * Z :=
  let '(a, b, c, d) := st in
  let zi := Z.of_nat i in
  let '(f, g) :=
    if zi <? 16 then (Z.lor (Z.land b c) (Z.land (not32 b) d), zi)
    else if zi <? 32 then
      (Z.lor (Z.land d b) (Z.land (not32 d) c), (5 * zi + 1) mod 16)
    else if zi <? 48 then (Z.lxor b (Z.lxor c d), (3 * zi + 5) mod 16)
    else (Z.lxor c (Z.lor b (not32 d)), (7 * zi) mod 16) in
  let f' := add32 (add32 (add32 f a) (nth i K 0)) (nth (Z.to_nat g) m 0) in
  (d, add32 b (rotl32 f' (nth i S 0)), b, c).

Definition block (st : Z * Z * Z * Z) (m : list Z) : Z * Z * Z * Z :=
  let '(a0, b0, c0, d0) := st in
  let '(a, b, c, d) := fold_left (round m) (seq 0 64) st in
  (add32 a0 a, add32 b0 b, add32 c0 c, add32 d0 d).

Fixpoint blocks (n : nat) (bs : list Z) (st : Z * Z * Z * Z) : Z * Z * Z * Z :=
  match n with
  | O => st
  | Datatypes.S n' => blocks n' (skipn 64 bs) (block st (words 16 (firstn 64 bs)))
  end.

Definition digest (s : string) : list Z :=
  let bs := pad (bytes_of s) in
  let '(a, b, c, d) :=
    blocks (List.length bs / 64) bs (0x67452301, 0xefcdab89, 0x98badcfe, 0x10325476) in
  le_bytes 4 a ++ le_bytes 4 b ++ le_bytes 4 c ++ le_bytes 4 d.

Definition hex_digit (n : Z) : ascii :=
  nth (Z.to_nat n) (list_ascii_of_string "0123456789abcdef") "0"%char.

Definition hexdigest (s : string) : string :=
  string_of_list_ascii
    (flat_map (fun b => [hex_digit (Z.shiftr b 4); hex_digit (Z.land b 0xF)])
              (digest s)).

End MD5.

(* ================================================================== *)
(** ** os and os.path, as far as the code calls them *)

Module Os.

(** [os.stat]: needs the file to exist, not to be readable. *)
Definition stat (fs : filesystem) (p : string) : result file :=
  match lookup fs p with
  | Some f => Ok f
  | None => Raise (FileNotFoundError p)
  end.

Definition st_size (f : file) : Z := Z.of_nat (String.length (f_content f)).

Definition getmtime (fs : filesystem) (p : string) : result Z :=
  rbind (stat fs p) (fun f => Ok (f_mtime f)).

Definition getsize (fs : filesystem) (p : string) : result Z :=
  rbind (stat fs p) (fun f => Ok (st_size f)).

(** [open(p, 'rb').read()] *)
Definition read_bytes (fs : filesystem) (p : string) : result string :=
  match lookup fs p with
  | None => Raise (FileNotFoundError p)
  | Some f => if f_readable f then Ok (f_content f) else Raise (PermissionError p)
  end.

Definition unlink (fs : filesystem) (p : string) : filesystem :=
  filter (fun e => negb (String.eqb (fst e) p)) fs.

(** [os.remove(p)] *)
Definition remove (p : string) : M unit :=
  fun w =>
    match lookup (w_fs w) p with
    | None => Raises (FileNotFoundError p) w
    | Some f =>
        if f_deletable f then Returns tt (mkWorld (unlink (w_fs w) p) (w_db w))
        else Raises (PermissionError p) w
    end.

(** [s.rfind(c)]: the index of the last [c] in [s], or -1. *)
Fixpoint rfind_from (c : ascii) (s : string) (i : Z) : Z :=
  match s with
  | EmptyString => -1
  | String a s' =>
      let r := rfind_from c s' (i + 1) in
      if 0 <=? r then r else if Ascii.eqb a c then i else -1
  end.

Definition rfind (c : ascii) (s : string) : Z := rfind_from c s 0.

(** The loop of genericpath._splitext that skips the leading dots of the file
    name: [true] as soon as a character other than a dot stands before the
    last dot. *)
Fixpoint has_non_dot (s : string) : bool :=
  match s with
  | EmptyString => false
  | String a s' => if Ascii.eqb a "."%char then has_non_dot s' else true
  end.

(** [os.path.splitext(p)] on POSIX (separator "/", no alternative
    separator). *)
Definition splitext (p : string) : string * string :=
  let sepIndex := rfind "/"%char p in
  let dotIndex := rfind "."%char p in
  if sepIndex <? dotIndex then
    let filenameIndex := Z.to_nat (sepIndex + 1) in
    if has_non_dot (substring filenameIndex (Z.to_nat dotIndex - filenameIndex) p)
    then (substring 0 (Z.to_nat dotIndex) p,
          substring (Z.to_nat dotIndex) (String.length p - Z.to_nat dotIndex) p)
    else (p, "")
  else (p, "").

End Os.

(** [str.lower] and [str.startswith] on the ASCII range. *)
Module PyStr.

(** [str.lower] on a string of ASCII characters: the letters A to Z are
    lowered and every other byte is left as it is.  Python lowers the
    capital letters outside ASCII as well, which this model does not. *)
Definition lower_char (c : ascii) : ascii :=
  let n := nat_of_ascii c in
  if ((65 <=? n) && (n <=? 90))%nat then ascii_of_nat (n + 32) else c.

Fixpoint lower (s : string) : string :=
  match s with
  | EmptyString => EmptyString
  | String c s' => String (lower_char c) (lower s')
  end.

Definition startswith (s pre : string) : bool := String.prefix pre s.

Fixpoint endswith_char (s : string) (c : ascii) : bool :=
  match s with
  | EmptyString => false
  | String a EmptyString => Ascii.eqb a c
  | String _ s' => endswith_char s' c
  end.

End PyStr.

(* ================================================================== *)
(** ** utils/file_utils.py *)

Module FileUtils.

(** [hashlib]: from the name of an algorithm to the hexadecimal digest of
    the bytes fed to it; [None] when the module has no such attribute. *)
Definition hashlib_t : Type := string -> option (string -> string).

(** The code feeds the file to [update] in chunks of 4096 bytes; the digest
    is the one of their concatenation, the content. *)
Definition calculate_file_hash (hashlib : hashlib_t) (fs : filesystem)
    (file_path hash_type : string) : result string :=
  match hashlib hash_type with
  | None => Raise (AttributeError hash_type)
  | Some hash_func =>
      rbind (Os.read_bytes fs file_path) (fun content => Ok (hash_func content))
  end.

(** [magic.from_file(file_path, mime=True)] reads the file. *)
Definition get_file_type (fs : filesystem) (file_path : string) : result string :=
  match lookup fs file_path with
  | None => Raise (FileNotFoundError file_path)
  | Some f => if f_readable f then Ok (f_mime f) else Raise (PermissionError file_path)
  end.

Record metadata : Type := mkMeta {
  size : Z;
  created : Z;
  modified : Z;
  type : string
}.

Definition get_file_metadata (fs : filesystem) (file_path : string) : result metadata :=
  rbind (Os.stat fs file_path) (fun stat =>
  rbind (get_file_type fs file_path) (fun ty =>
  Ok (mkMeta (Os.st_size stat) (f_ctime stat) (f_mtime stat) ty))).

(** [list_files(directory)] with [recursive=True]: os.walk joins every root
    under [directory] with the names of its files, so the result is the
    paths of the file system below [directory], in walk order. *)
Definition list_files (fs : filesystem) (directory : string) : list string :=
  let root :=
    if PyStr.endswith_char directory "/"%char then directory
    else (directory ++ "/")%string in
  filter (fun p => PyStr.startswith p root) (map fst fs).

Definition get_file_extension (file_path : string) : string :=
  PyStr.lower (snd (Os.splitext file_path)).

Definition is_binary_file (fs : filesystem) (file_path : string) : result bool :=
  rbind (get_file_type fs file_path) (fun mime =>
  Ok (negb (PyStr.startswith mime "text/"))).

End FileUtils.

(* ================================================================== *)
(** ** utils/logger.py *)

Module Logger.

(** SQLite is taken to be available: the INSERTs below do not fail.  The
    text log written through [logging] is not part of the model. *)

(** INSERT INTO operations (...) VALUES (...): the id and the timestamp are
    the defaults of the table. *)
Definition insert_operation (db : database) (operation_type source_path : string)
    (destination_path : option string) (status details : string) : database :=
  let id := operations_seq db + 1 in
  mkDatabase
    (operations db ++
       [mkOperation id (current_timestamp db) operation_type source_path
                    destination_path status details])
    (file_metadata db) id (file_metadata_seq db) (current_timestamp db).

Definition log_operation (operation_type source_path : string)
    (destination_path : option string) (status details : string) : M unit :=
  fun w =>
    Returns tt
      (mkWorld (w_fs w)
         (insert_operation (w_db w) operation_type source_path destination_path
                           status details)).

(** INSERT OR REPLACE INTO file_metadata: the row that holds the same
    UNIQUE [file_path] is deleted, then the new row is inserted under a
    fresh id. *)
Definition insert_or_replace_metadata (db : database)
    (file_path file_hash file_type : string)
    (file_size last_modified created_at : Z) : database :=
  let id := file_metadata_seq db + 1 in
  mkDatabase
    (operations db)
    (filter (fun r => negb (String.eqb (md_file_path r) file_path)) (file_metadata db)
       ++ [mkMetadata id file_path file_hash file_type file_size last_modified
                      created_at])
    (operations_seq db) id (current_timestamp db).

Definition log_file_metadata (file_path file_hash file_type : string)
    (file_size last_modified created_at : Z) : M unit :=
  fun w =>
    Returns tt
      (mkWorld (w_fs w)
         (insert_or_replace_metadata (w_db w) file_path file_hash file_type
                                     file_size last_modified created_at)).

(** Modelled from the spec: the read of the latest snapshot of a path, for
    which logger.py has no function (it only writes the table):
    SELECT * FROM file_metadata WHERE file_path = ?. *)
Definition select_metadata (db : database) (file_path : string) : list metadata_row :=
  filter (fun r => String.eqb (md_file_path r) file_path) (file_metadata db).

(** The database after [_init_db] on a new directory. *)
Definition init_db (now : Z) : database := mkDatabase [] [] 0 0 now.

(** [get_operation_history(limit)]:
    SELECT * FROM operations ORDER BY timestamp DESC LIMIT ?, each row
    turned into a dictionary of its columns.  SQL leaves the order of rows of
    equal timestamp open; here it is the order of insertion.  In SQLite a
    negative LIMIT is no limit. *)
Definition get_operation_history (db : database) (limit : Z) : list operation :=
  let rows :=
    map snd (PySorted.sort true (map (fun o => (op_timestamp o, o)) (operations db))) in
  if limit <? 0 then rows else firstn (Z.to_nat limit) rows.

(** The WHERE clause of [generate_report]: a bound is added only when the
    argument is given. *)
Definition in_window (start_date end_date : option Z) (o : operation) : bool :=
  match start_date with Some s => s <=? op_timestamp o | None => true end
  && match end_date with Some e => op_timestamp o <=? e | None => true end.

(** One more row for the group ([t], [s]) of GROUP BY operation_type,
    status. *)
Fixpoint count_group (t s : string) (groups : list (string * string * Z))
  : list (string * string * Z) :=
  match groups with
  | [] => [(t, s, 1)]
  | (t', s', c) :: groups' =>
      if String.eqb t' t && String.eqb s' s then (t', s', c + 1) :: groups'
      else (t', s', c) :: count_group t s groups'
  end.

(** SELECT operation_type, status, COUNT( * ) FROM operations WHERE ...
    GROUP BY operation_type, status.  SQL leaves the order of the groups
    open; here it is the order of their first rows. *)
Definition select_counts (db : database) (start_date end_date : option Z)
  : list (string * string * Z) :=
  fold_left (fun groups o => count_group (operation_type o) (status o) groups)
            (filter (in_window start_date end_date) (operations db)) [].

Record report : Type := mkReport {
  total_operations : Z;
  operations_by_type : PyDict.dict (PyDict.dict Z);
  success_rate : Q
}.

(** [d[k]] *)
Definition getitem {V} (d : PyDict.dict V) (k : string) : result V :=
  match PyDict.get d k with
  | Some v => Ok v
  | None => Raise (KeyError k)
  end.

(** [a / b] on integers. *)
Definition truediv (a b : Z) : result Q :=
  if b =? 0 then Raise ZeroDivisionError else Ok (inject_Z a / inject_Z b)%Q.

(** The body of the loop over the rows of the query. *)
Definition report_row (by_type : PyDict.dict (PyDict.dict Z))
    (row : string * string * Z) : result (PyDict.dict (PyDict.dict Z)) :=
  let '(op_type, status, count) := row in
  let by_type :=
    if PyDict.contains by_type op_type then by_type
    else PyDict.set by_type op_type [("success", 0); ("failure", 0)] in
  rbind (getitem by_type op_type) (fun counts =>
  Ok (PyDict.set by_type op_type (PyDict.set counts status count))).

Fixpoint report_rows (by_type : PyDict.dict (PyDict.dict Z))
    (rows : list (string * string * Z)) : result (PyDict.dict (PyDict.dict Z)) :=
  match rows with
  | [] => Ok by_type
  | row :: rows' => rbind (report_row by_type row) (fun d => report_rows d rows')
  end.

Fixpoint sum_success (ops : list (PyDict.dict Z)) : result Z :=
  match ops with
  | [] => Ok 0
  | op :: ops' =>
      rbind (getitem op "success") (fun n =>
      rbind (sum_success ops') (fun m => Ok (n + m)))
  end.

Definition generate_report (db : database) (start_date end_date : option Z)
  : result report :=
  let results := select_counts db start_date end_date in
  let total_operations := fold_right Z.add 0 (map snd results) in
  rbind (report_rows [] results) (fun by_type =>
  rbind (sum_success (PyDict.values by_type)) (fun total_success =>
  if 0 <? total_operations then
    rbind (truediv total_success total_operations) (fun ratio =>
    Ok (mkReport total_operations by_type (ratio * 100)%Q))
  else Ok (mkReport total_operations by_type 0%Q))).

End Logger.

(* ================================================================== *)
(** ** organized/document/duplicate_detector.py *)

Module DuplicateDetector.

Local Open Scope py_scope.

(** [hash_map[file_hash].append(file_path)] on a [defaultdict(list)]. *)
Definition append_to (hash_map : PyDict.dict (list string)) (file_hash file_path : string)
  : PyDict.dict (list string) :=
  match PyDict.get hash_map file_hash with
  | Some paths => PyDict.set hash_map file_hash (paths ++ [file_path])
  | None => PyDict.set hash_map file_hash [file_path]
  end.

Definition log_hash_failure (file_path : string) (e : exn) : M unit :=
  Logger.log_operation "hash_calculation" file_path None "failure" (exn_str e).

(** The body of the loop of [find_duplicates].  The path is appended before
    the metadata is read, so an exception raised after the append leaves it
    in the map. *)
Definition hash_one (hashlib : FileUtils.hashlib_t) (hash_type : string)
    (hash_map : PyDict.dict (list string)) (file_path : string)
  : M (PyDict.dict (list string)) :=
  fun w =>
    match FileUtils.calculate_file_hash hashlib (w_fs w) file_path hash_type with
    | Raise e => (log_hash_failure file_path e ;;; ret hash_map) w
    | Ok file_hash =>
        let hash_map := append_to hash_map file_hash file_path in
        try_except
          (metadata <- lift (fun fs => FileUtils.get_file_metadata fs file_path) ;;
           Logger.log_file_metadata file_path file_hash
             (FileUtils.type metadata) (FileUtils.size metadata)
             (FileUtils.modified metadata) (FileUtils.created metadata) ;;;
           ret hash_map)
          (fun e => log_hash_failure file_path e ;;; ret hash_map)
          w
    end.

Definition find_duplicates (hashlib : FileUtils.hashlib_t)
    (directory hash_type : string) : M (PyDict.dict (list string)) :=
  fun w =>
    let files := FileUtils.list_files (w_fs w) directory in
    (hash_map <- for_each files (hash_one hashlib hash_type) [] ;;
     ret (filter (fun kv => (1 <? List.length (snd kv))%nat) (PyDict.items hash_map))) w.

Definition find_similar_files (directory : string) (similarity_threshold : Q)
  : list (string * string * Q) := [].

(** The [if]/[elif] chain on [keep_strategy]. *)
Definition sort_by_strategy (fs : filesystem) (keep_strategy : string)
    (file_paths : list string) : result (list string) :=
  if String.eqb keep_strategy "newest" then
    PySorted.sorted (Os.getmtime fs) true file_paths
  else if String.eqb keep_strategy "oldest" then
    PySorted.sorted (Os.getmtime fs) false file_paths
  else if String.eqb keep_strategy "largest" then
    PySorted.sorted (Os.getsize fs) true file_paths
  else if String.eqb keep_strategy "smallest" then
    PySorted.sorted (Os.getsize fs) false file_paths
  else Raise (ValueError ("Unknown keep strategy: " ++ keep_strategy)%string).

(** The body of the loop over [sorted_files[1:]]. *)
Definition remove_one (keep_file : string) (removed_files : list string)
    (file_to_remove : string) : M (list string) :=
  try_except
    (Os.remove file_to_remove ;;;
     Logger.log_operation "duplicate_removal" file_to_remove None "success"
       ("Kept file: " ++ keep_file)%string ;;;
     ret (removed_files ++ [file_to_remove]))
    (fun e =>
       Logger.log_operation "duplicate_removal" file_to_remove None "failure"
         (exn_str e) ;;;
       ret removed_files).

(** The body of the loop over [duplicates.items()]. *)
Definition remove_group (keep_strategy : string) (removed_files : list string)
    (item : string * list string) : M (list string) :=
  let file_paths := snd item in
  if (List.length file_paths <=? 1)%nat then ret removed_files
  else
    sorted_files <- lift (fun fs => sort_by_strategy fs keep_strategy file_paths) ;;
    match sorted_files with
    | [] => raise IndexError
    | keep_file :: rest => for_each rest (remove_one keep_file) removed_files
    end.

Definition remove_duplicates (duplicates : PyDict.dict (list string))
    (keep_strategy : string) : M (list string) :=
  for_each (PyDict.items duplicates) (remove_group keep_strategy) [].

(** The statistics [analyze_duplicates] returns. *)
Record stats : Type := mkStats {
  total_duplicate_groups : Z;
  total_duplicate_files : Z;
  potential_space_saved : Z;
  duplicate_types : PyDict.dict Z
}.

(** [files[0]] *)
Definition first (files : list string) : result string :=
  match files with
  | [] => Raise IndexError
  | f :: _ => Ok f
  end.

Definition len (files : list string) : Z := Z.of_nat (List.length files).

(** [sum(os.path.getsize(files[0]) * (len(files) - 1) for files in ...)] *)
Fixpoint sum_space (fs : filesystem) (groups : list (list string)) : result Z :=
  match groups with
  | [] => Ok 0
  | files :: groups' =>
      rbind (first files) (fun f =>
      rbind (Os.getsize fs f) (fun sz =>
      rbind (sum_space fs groups') (fun rest => Ok (sz * (len files - 1) + rest))))
  end.

(** [type_counts[file_type] += n] on a [defaultdict(int)]. *)
Definition add_count (type_counts : PyDict.dict Z) (file_type : string) (n : Z)
  : PyDict.dict Z :=
  match PyDict.get type_counts file_type with
  | Some c => PyDict.set type_counts file_type (c + n)
  | None => PyDict.set type_counts file_type (0 + n)
  end.

Fixpoint count_types (fs : filesystem) (groups : list (list string))
    (type_counts : PyDict.dict Z) : result (PyDict.dict Z) :=
  match groups with
  | [] => Ok type_counts
  | files :: groups' =>
      rbind (first files) (fun f =>
      rbind (FileUtils.get_file_type fs f) (fun file_type =>
      count_types fs groups' (add_count type_counts file_type (len files - 1))))
  end.

Definition _get_duplicate_types (fs : filesystem)
    (duplicates : PyDict.dict (list string)) : result (PyDict.dict Z) :=
  count_types fs (PyDict.values duplicates) [].

Definition analyze_duplicates (fs : filesystem)
    (duplicates : PyDict.dict (list string)) : result stats :=
  let total_duplicates :=
    fold_right Z.add 0 (map (fun files => len files - 1) (PyDict.values duplicates)) in
  rbind (sum_space fs (PyDict.values duplicates)) (fun total_space =>
  rbind (_get_duplicate_types fs duplicates) (fun types =>
  Ok (mkStats (len (PyDict.keys duplicates)) total_duplicates total_space types))).

End DuplicateDetector.

(* ================================================================== *)
(** ** organized/document/model.py *)

Module FileClassifier.

Local Open Scope py_scope.

(** What [_init_classifiers] leaves in the object: the image extractor and
    model, [None] when loading them failed.  A loaded model is represented
    by whether opening the image and running the model on a content goes
    through. *)
Record classifier : Type := mkClassifier {
  image_extractor : option (string -> bool);
  image_model : option (string -> bool)
}.

(** The dictionary [classify_file] returns. *)
Record classification : Type := mkClassification {
  cl_file_path : string;
  cl_file_type : string;
  category : string;
  confidence : Q
}.

(** [classification.update({'category': c, 'confidence': x})] *)
Definition update (cl : classification) (cx : string * Q) : classification :=
  mkClassification (cl_file_path cl) (cl_file_type cl) (fst cx) (snd cx).

Definition mem (x : string) (l : list string) : bool :=
  existsb (String.eqb x) l.

Definition _get_category_from_extension (extension : string) : string :=
  let extension := PyStr.lower extension in
  if mem extension [".jpg"; ".jpeg"; ".png"; ".gif"; ".bmp"; ".tiff"] then "image"
  else if mem extension [".pdf"; ".doc"; ".docx"; ".txt"; ".rtf"] then "document"
  else if mem extension [".mp4"; ".avi"; ".mov"; ".wmv"; ".flv"] then "video"
  else if mem extension [".mp3"; ".wav"; ".ogg"; ".flac"] then "audio"
  else if mem extension [".py"; ".java"; ".cpp"; ".js"; ".html"; ".css"] then "code"
  else if mem extension [".zip"; ".rar"; ".7z"; ".tar"; ".gz"] then "archive"
  else "other".

Section Classifier.

(** [bytes.decode('utf-8')], strict: [None] on bytes that are not UTF-8. *)
Variable utf8_decode : string -> option string.

Variable self : classifier.

(** [open(file_path, 'r', encoding='utf-8').read()] *)
Definition read_text (fs : filesystem) (file_path : string) : result string :=
  rbind (Os.read_bytes fs file_path) (fun bytes =>
  match utf8_decode bytes with
  | Some content => Ok content
  | None => Raise UnicodeDecodeError
  end).

Definition _classify_text_file (file_path : string) : M (string * Q) :=
  try_except
    (_ <- lift (fun fs => read_text fs file_path) ;;
     ret ("document", 8 # 10)%Q)
    (fun e =>
       Logger.log_operation "text_classification" file_path None "failure"
         (exn_str e) ;;;
       ret ("unknown", 0%Q)).

(** [Image.open], the extractor and the model, one after the other. *)
Definition run_image_model (extractor model : string -> bool) (fs : filesystem)
    (file_path : string) : result unit :=
  rbind (Os.read_bytes fs file_path) (fun bytes =>
  if extractor bytes && model bytes then Ok tt
  else Raise (ValueError "cannot identify image file")).

Definition _classify_image_file (file_path : string) : M (string * Q) :=
  match image_extractor self, image_model self with
  | Some extractor, Some model =>
      try_except
        (lift (fun fs => run_image_model extractor model fs file_path) ;;;
         ret ("image", 9 # 10)%Q)
        (fun e =>
           Logger.log_operation "image_classification" file_path None "failure"
             (exn_str e) ;;;
           ret ("image", 5 # 10)%Q)
  | _, _ => ret ("image", 5 # 10)%Q
  end.

Definition classify_file (file_path : string) : M classification :=
  file_type <- lift (fun fs => FileUtils.get_file_type fs file_path) ;;
  let classification := mkClassification file_path file_type "unknown" 0%Q in
  try_except
    (if PyStr.startswith file_type "text/" then
       r <- _classify_text_file file_path ;; ret (update classification r)
     else if PyStr.startswith file_type "image/" then
       r <- _classify_image_file file_path ;; ret (update classification r)
     else
       let ext := FileUtils.get_file_extension file_path in
       ret (mkClassification file_path file_type
              (_get_category_from_extension ext) 1%Q))
    (fun e =>
       Logger.log_operation "file_classification" file_path None "failure"
         (exn_str e) ;;;
       ret classification).

End Classifier.

End FileClassifier.

(* ================================================================== *)
(** ** duplicate_detector.py *)

Module ContentDetector.

(** What [compute_embeddings] can hand to [find_duplicates]: a [str] (the
    hash of a binary file) or an array (the embedding of a text). *)
Inductive embedding (ndarray : Type) : Type :=
| Str (h : string)
| Array (v : ndarray).
Arguments Str {ndarray} h.
Arguments Array {ndarray} v.

Section Detector.

(** numpy arrays and sklearn's [cosine_similarity] of two of them. *)
Variable ndarray : Type.
Variable cosine_similarity : ndarray -> ndarray -> Q.

(** [hashlib.sha256], [mimetypes.guess_type(...)[0]] and
    [bytes.decode('utf-8', errors='ignore')]. *)
Variable sha256 : string -> string.
Variable guess_type : string -> option string.
Variable utf8_decode_ignore : string -> string.

Definition compute_hash (fs : filesystem) (file_path : string) : result string :=
  rbind (Os.read_bytes fs file_path) (fun bytes => Ok (sha256 bytes)).

Definition is_text_file (file_path : string) : bool :=
  match guess_type file_path with
  | Some mime => PyStr.startswith mime "text"
  | None => false
  end.

(** [compute_embeddings] calls itself on the text it has read; [depth] is
    what is left of the interpreter's recursion limit.  The exception of the
    inner call is raised inside the [try] of the outer one. *)
Fixpoint compute_embeddings (depth : nat) (fs : filesystem) (file_path : string)
  : result (option (embedding ndarray)) :=
  match depth with
  | O => Raise RecursionError
  | S depth' =>
      if is_text_file file_path then
        match
          rbind (Os.read_bytes fs file_path) (fun bytes =>
          compute_embeddings depth' fs (utf8_decode_ignore bytes))
        with
        | Ok r => Ok r
        | Raise _ => Ok None
        end
      else rbind (compute_hash fs file_path) (fun h => Ok (Some (Str h)))
  end.

(** [open(file, 'r', encoding='utf-8').read()], where decoding is strict. *)
Variable utf8_decode : string -> option string.

Definition read_text (fs : filesystem) (file_path : string) : result string :=
  rbind (Os.read_bytes fs file_path) (fun bytes =>
  match utf8_decode bytes with
  | Some text => Ok text
  | None => Raise UnicodeDecodeError
  end).

(** [embedding.reshape(1, -1)]: an attribute of arrays only; [None] and
    [str] have no [reshape]. *)
Definition reshape (emb : option (embedding ndarray)) : result ndarray :=
  match emb with
  | Some (Array v) => Ok v
  | Some (Str _) => Raise (AttributeError "reshape")
  | None => Raise (AttributeError "reshape")
  end.

(** [compute_similarity]: the whole body is in a [try] whose handler prints
    and returns [0.0].  The two texts read are handed to
    [compute_embeddings], which takes them as paths. *)
Definition compute_similarity (depth : nat) (fs : filesystem)
    (file1 file2 : string) : Q :=
  match
    rbind (read_text fs file1) (fun text1 =>
    rbind (read_text fs file2) (fun text2 =>
    rbind (compute_embeddings depth fs text1) (fun embedding1 =>
    rbind (compute_embeddings depth fs text2) (fun embedding2 =>
    rbind (reshape embedding1) (fun v1 =>
    rbind (reshape embedding2) (fun v2 =>
    Ok (cosine_similarity v1 v2)))))))
  with
  | Ok similarity => similarity
  | Raise _ => 0%Q
  end.

(** The first loop of [find_duplicates], over any way of computing the
    signature of a file. *)
Fixpoint collect (compute : string -> result (option (embedding ndarray)))
    (file_paths : list string) (file_embeddings : PyDict.dict (embedding ndarray))
  : result (PyDict.dict (embedding ndarray)) :=
  match file_paths with
  | [] => Ok file_embeddings
  | file_path :: rest =>
      rbind (compute file_path) (fun emb =>
      match emb with
      | Some e => collect compute rest (PyDict.set file_embeddings file_path e)
      | None => collect compute rest file_embeddings
      end)
  end.

(** The body of the two nested loops: the pairs that [i], [j] adds to
    [duplicates]. *)
Definition compare (similarity_threshold : Q)
    (file_embeddings : PyDict.dict (embedding ndarray))
    (file_list : list string) (i j : nat) : result (list (string * string)) :=
  let file1 := nth i file_list "" in
  let file2 := nth j file_list "" in
  rbind (Logger.getitem file_embeddings file1) (fun emb1 =>
  rbind (Logger.getitem file_embeddings file2) (fun emb2 =>
  match emb1, emb2 with
  | Str h1, Str h2 => if String.eqb h1 h2 then Ok [(file1, file2)] else Ok []
  | Array v1, Array v2 =>
      if Qle_bool similarity_threshold (cosine_similarity v1 v2)
      then Ok [(file1, file2)] else Ok []
  | _, _ => Ok []
  end)).

Definition range (a b : nat) : list nat := seq a (b - a).

Definition find_duplicates_with
    (compute : string -> result (option (embedding ndarray)))
    (file_paths : list string) (similarity_threshold : Q)
  : result (list (string * string)) :=
  rbind (collect compute file_paths []) (fun file_embeddings =>
  let file_list := PyDict.keys file_embeddings in
  let n := List.length file_list in
  rbind (rmap (fun i =>
           rbind (rmap (compare similarity_threshold file_embeddings file_list i)
                       (range (i + 1) n))
                 (fun found => Ok (List.concat found)))
           (range 0 n))
        (fun found => Ok (List.concat found))).

Definition find_duplicates (depth : nat) (fs : filesystem)
    (file_paths : list string) (similarity_threshold : Q)
  : result (list (string * string)) :=
  find_duplicates_with (compute_embeddings depth fs) file_paths similarity_threshold.

End Detector.

End ContentDetector.

(* ================================================================== *)
(** * Specification-side definitions

    What the claims speak of and the code does not name: the extension
    table of the specification, the quantities the theorems compare the
    code with, and the concrete worlds of the scenarios. *)

(** The extension table of the specification (section 6). *)
Definition extension_table : list (string * string) :=
  map (fun e => (e, "image")) [".jpg"; ".jpeg"; ".png"; ".gif"; ".bmp"; ".tiff"]
  ++ map (fun e => (e, "document")) [".pdf"; ".doc"; ".docx"; ".txt"; ".rtf"]
  ++ map (fun e => (e, "video")) [".mp4"; ".avi"; ".mov"; ".wmv"; ".flv"]
  ++ map (fun e => (e, "audio")) [".mp3"; ".wav"; ".ogg"; ".flac"]
  ++ map (fun e => (e, "code")) [".py"; ".java"; ".cpp"; ".js"; ".html"; ".css"]
  ++ map (fun e => (e, "archive")) [".zip"; ".rar"; ".7z"; ".tar"; ".gz"].

(** A text file with a known extension: a Python source whose MIME type
    libmagic reports as text/x-python. *)
Definition python_source_world : world :=
  mkWorld [("src/main.py", mkFile "print(1)" 10 10 "text/x-python" true true)]
          (Logger.init_db 0).

(** The readable text file of the example of C4, alone in its directory. *)
Definition notes_fs : filesystem :=
  [("notes.txt", mkFile "hello world" 1 1 "text/plain" true true)].

(** [mimetypes.guess_type] on the names used in the examples. *)
Definition guess_by_suffix (name : string) : option string :=
  if String.eqb (FileUtils.get_file_extension name) ".txt" then Some "text/plain"
  else None.

Module ReportFacts.

Definition is_success (o : operation) : bool := String.eqb (status o) "success".

(** The sum of the counts of the groups whose type and status satisfy [P]. *)
Definition wsum (P : string -> string -> bool) (groups : list (string * string * Z)) : Z :=
  fold_right Z.add 0
    (map (fun g => if P (fst (fst g)) (snd (fst g)) then snd g else 0) groups).

(** [counts['success']], 0 when the key is missing. *)
Definition succ_of (counts : PyDict.dict Z) : Z :=
  match PyDict.get counts "success" with Some n => n | None => 0 end.

Definition succ_at (d : PyDict.dict (PyDict.dict Z)) (t : string) : Z :=
  match PyDict.get d t with Some counts => succ_of counts | None => 0 end.

Definition total_succ (d : PyDict.dict (PyDict.dict Z)) : Z :=
  fold_right Z.add 0 (map succ_of (PyDict.values d)).

Definition well_formed (d : PyDict.dict (PyDict.dict Z)) : Prop :=
  Forall (fun counts => PyDict.contains counts "success" = true) (PyDict.values d).

End ReportFacts.

Import ReportFacts.

(** A database with one successful and one failed operation. *)
Definition two_operations : database :=
  Logger.insert_operation
    (Logger.insert_operation (Logger.init_db 0)
       "duplicate_removal" "d/a" None "success" "Kept file: d/b")
    "duplicate_removal" "d/c" None "failure" "[Errno 13] Permission denied: 'd/c'".

Module GroupingFacts.

(** [file_path] is hashed without an exception, to [k]. *)
Definition has_hash (hashlib : FileUtils.hashlib_t) (fs : filesystem)
    (hash_type k file_path : string) : bool :=
  match FileUtils.calculate_file_hash hashlib fs file_path hash_type with
  | Ok h => String.eqb h k
  | Raise _ => false
  end.

(** What the loop of [find_duplicates] does to the map, effects aside. *)
Definition group_step (hashlib : FileUtils.hashlib_t) (fs : filesystem)
    (hash_type : string) (hash_map : PyDict.dict (list string)) (file_path : string)
  : PyDict.dict (list string) :=
  match FileUtils.calculate_file_hash hashlib fs file_path hash_type with
  | Ok h => DuplicateDetector.append_to hash_map h file_path
  | Raise _ => hash_map
  end.

(** The map holds, under each hash, the paths of [done] with that hash, in
    order, and no empty group. *)
Definition groups_of (hashlib : FileUtils.hashlib_t) (fs : filesystem)
    (hash_type : string) (done : list string)
    (hash_map : PyDict.dict (list string)) : Prop :=
  NoDup (PyDict.keys hash_map)
  /\ forall k,
       PyDict.get hash_map k
       = match filter (has_hash hashlib fs hash_type k) done with
         | [] => None
         | paths => Some paths
         end.

End GroupingFacts.

Import GroupingFacts.

(** [hashlib] with its attribute md5. *)
Definition hashlib_md5 : FileUtils.hashlib_t :=
  fun name => if String.eqb name "md5" then Some MD5.hexdigest else None.

Module AnalysisFacts.

Definition sum_Z (l : list Z) : Z := fold_right Z.add 0 l.

(** The size of the first member of a group, the representative
    [analyze_duplicates] takes. *)
Definition representative_size (fs : filesystem) (files : list string) : Z :=
  match files with
  | f :: _ => match lookup fs f with Some x => Os.st_size x | None => 0 end
  | [] => 0
  end.

(** The MIME type of the content of the first member, when that file
    exists and can be read. *)
Definition representative_type (fs : filesystem) (files : list string) : option string :=
  match files with
  | f :: _ =>
      match lookup fs f with
      | Some x => if f_readable x then Some (f_mime x) else None
      | None => None
      end
  | [] => None
  end.

Definition has_type (fs : filesystem) (ty : string) (files : list string) : bool :=
  match representative_type fs files with
  | Some ty' => String.eqb ty' ty
  | None => false
  end.

(** Members beyond the first, summed over the groups. *)
Definition extra_members (groups : list (list string)) : Z :=
  sum_Z (map (fun files => DuplicateDetector.len files - 1) groups).

Definition count_at (type_counts : PyDict.dict Z) (ty : string) : Z :=
  match PyDict.get type_counts ty with Some c => c | None => 0 end.

(** The first member of the group exists and can be read. *)
Definition inspectable (fs : filesystem) (files : list string) : Prop :=
  exists f rest x,
    files = f :: rest /\ lookup fs f = Some x /\ f_readable x = true.

End AnalysisFacts.

Import AnalysisFacts.

Module RetentionFacts.

(** The four strategies [remove_duplicates] knows. *)
Definition valid_strategy (keep_strategy : string) : Prop :=
  In keep_strategy ["newest"; "oldest"; "largest"; "smallest"].

(** Whether the strategy sorts with [reverse=True]. *)
Definition reversed (keep_strategy : string) : bool :=
  String.eqb keep_strategy "newest" || String.eqb keep_strategy "largest".

(** The number the strategy compares: modification time or size. *)
Definition key_of (keep_strategy : string) (f : file) : Z :=
  if String.eqb keep_strategy "newest" || String.eqb keep_strategy "oldest"
  then f_mtime f else Os.st_size f.

Definition strategy_key (fs : filesystem) (keep_strategy : string) (p : string) : Z :=
  match lookup fs p with
  | Some f => key_of keep_strategy f
  | None => 0
  end.

(** [k1] wins over [k2]: later or larger when reversed, earlier or smaller
    otherwise. *)
Definition better (reverse : bool) (k1 k2 : Z) : Prop :=
  if reverse then k2 < k1 else k1 < k2.

Definition not_worse (reverse : bool) (k1 k2 : Z) : Prop :=
  if reverse then k2 <= k1 else k1 <= k2.

(** [x] is the extreme element of [l], and the first one among equals. *)
Definition first_extreme {A} (reverse : bool) (key : A -> Z) (l : list A) (x : A) : Prop :=
  exists before after,
    l = before ++ x :: after
    /\ Forall (fun y => better reverse (key x) (key y)) before
    /\ Forall (fun y => not_worse reverse (key x) (key y)) after.

Definition decorate {A} (key : A -> Z) (l : list A) : list (Z * A) :=
  map (fun x => (key x, x)) l.

End RetentionFacts.

Import RetentionFacts.

Module RemovalFacts.

(** [os.remove] would go through. *)
Definition deletable (fs : filesystem) (p : string) : bool :=
  match lookup fs p with
  | Some f => f_deletable f
  | None => false
  end.

Definition removal_status (fs : filesystem) (p : string) : string :=
  if deletable fs p then "success" else "failure".

(** The members [remove_duplicates] tries to remove from a group: none for
    a group of fewer than two, else all but the head of the sorted group. *)
Definition candidates (fs : filesystem) (keep_strategy : string)
    (group : list string) : list string :=
  if (List.length group <=? 1)%nat then []
  else
    match DuplicateDetector.sort_by_strategy fs keep_strategy group with
    | Ok (_ :: rest) => rest
    | _ => []
    end.

Definition all_candidates (fs : filesystem) (keep_strategy : string)
    (duplicates : PyDict.dict (list string)) : list string :=
  flat_map (fun item => candidates fs keep_strategy (snd item)) duplicates.

(** A row written by the removal loop. *)
Definition removal_entry (o : operation) : Prop :=
  operation_type o = "duplicate_removal"
  /\ destination_path o = None
  /\ (status o = "success" \/ status o = "failure").

Definition members (duplicates : PyDict.dict (list string)) : list string :=
  List.concat (PyDict.values duplicates).

(** [q] is one of the paths [tried] and its deletion goes through. *)
Definition removed_by (fs : filesystem) (tried : list string) (q : string) : bool :=
  existsb (String.eqb q) tried && deletable fs q.

(** What a row of the log says of a removal: the path and the status. *)
Definition logged (o : operation) : string * string := (source_path o, status o).

End RemovalFacts.

Import RemovalFacts.

(** Two groups of copies; d/a cannot be deleted. *)
Definition locked_copy_world : world :=
  mkWorld [("d/a", mkFile "hello" 1 1 "text/plain" true false);
           ("d/b", mkFile "hello" 2 2 "text/plain" true true);
           ("d/c", mkFile "hello" 3 3 "text/plain" true true);
           ("e/x", mkFile "world" 4 4 "text/plain" true true);
           ("e/y", mkFile "world" 5 5 "text/plain" true true)]
          (Logger.init_db 0).

Definition locked_copy_groups : PyDict.dict (list string) :=
  [("5d41402abc4b2a76b9719d911017c592", ["d/a"; "d/b"; "d/c"]);
   ("7d793037a0760186574b0282f2f435e7", ["e/x"; "e/y"])].

(** One file, listed twice in its group. *)
Definition single_file_world : world :=
  mkWorld [("d/a", mkFile "hello" 1 1 "text/plain" true true)] (Logger.init_db 0).

Module SimilarityFacts.

(** When two signatures make a duplicate pair: two hashes that are equal,
    or two vectors whose cosine similarity reaches the threshold; a hash and
    a vector never do. *)
Definition matches {ndarray} (cosine_similarity : ndarray -> ndarray -> Q)
    (similarity_threshold : Q) (e1 e2 : ContentDetector.embedding ndarray) : Prop :=
  match e1, e2 with
  | ContentDetector.Str h1, ContentDetector.Str h2 => h1 = h2
  | ContentDetector.Array v1, ContentDetector.Array v2 =>
      (similarity_threshold <= cosine_similarity v1 v2)%Q
  | _, _ => False
  end.

Definition matchesb {ndarray} (cosine_similarity : ndarray -> ndarray -> Q)
    (similarity_threshold : Q) (e1 e2 : ContentDetector.embedding ndarray) : bool :=
  match e1, e2 with
  | ContentDetector.Str h1, ContentDetector.Str h2 => String.eqb h1 h2
  | ContentDetector.Array v1, ContentDetector.Array v2 =>
      Qle_bool similarity_threshold (cosine_similarity v1 v2)
  | _, _ => false
  end.

(** What the turn [i], [j] of the nested loops appends. *)
Definition pairs_at {ndarray} (cosine_similarity : ndarray -> ndarray -> Q)
    (similarity_threshold : Q)
    (file_embeddings : PyDict.dict (ContentDetector.embedding ndarray))
    (file_list : list string) (i j : nat) : list (string * string) :=
  match PyDict.get file_embeddings (nth i file_list ""),
        PyDict.get file_embeddings (nth j file_list "") with
  | Some e1, Some e2 =>
      if matchesb cosine_similarity similarity_threshold e1 e2
      then [(nth i file_list "", nth j file_list "")] else []
  | _, _ => []
  end.

(** Signatures for the examples: vectors are lists of integers and their
    similarity is taken to be 1 for equal vectors and 0 otherwise. *)
Definition toy_similarity (v1 v2 : list Z) : Q :=
  if list_eq_dec Z.eq_dec v1 v2 then 1%Q else 0%Q.

Definition toy_signature (file_path : string)
  : result (option (ContentDetector.embedding (list Z))) :=
  if String.eqb file_path "a.bin" then Ok (Some (ContentDetector.Str "h1"))
  else if String.eqb file_path "b.bin" then Ok (Some (ContentDetector.Str "h1"))
  else if String.eqb file_path "c.bin" then Ok (Some (ContentDetector.Str "h2"))
  else if String.eqb file_path "d.txt" then Ok (Some (ContentDetector.Array [1; 2]))
  else if String.eqb file_path "e.txt" then Ok (Some (ContentDetector.Array [1; 2]))
  else Ok None.

End SimilarityFacts.

Import SimilarityFacts.

(* ================================================================== *)
(** ** Further quantities, for the properties beyond C1 to C10 *)

Module HashingFacts.

(** What one turn of the loop of [find_duplicates] does to the database. *)
Definition hash_db_step (hashlib : FileUtils.hashlib_t) (hash_type : string)
    (fs : filesystem) (db : database) (file_path : string) : database :=
  match FileUtils.calculate_file_hash hashlib fs file_path hash_type with
  | Raise e =>
      Logger.insert_operation db "hash_calculation" file_path None "failure"
        (exn_str e)
  | Ok h =>
      match FileUtils.get_file_metadata fs file_path with
      | Ok m =>
          Logger.insert_or_replace_metadata db file_path h (FileUtils.type m)
            (FileUtils.size m) (FileUtils.modified m) (FileUtils.created m)
      | Raise e =>
          Logger.insert_operation db "hash_calculation" file_path None "failure"
            (exn_str e)
      end
  end.

(** Hashing [file_path] raises. *)
Definition hash_fails (hashlib : FileUtils.hashlib_t) (hash_type : string)
    (fs : filesystem) (file_path : string) : bool :=
  match FileUtils.calculate_file_hash hashlib fs file_path hash_type with
  | Raise _ => true
  | Ok _ => false
  end.

(** Type, source and status of a row of the log. *)
Definition logged_as (o : operation) : string * string * string :=
  (operation_type o, source_path o, status o).

(** The values of a snapshot, its row id aside. *)
Definition snapshot (r : metadata_row) : string * string * string * Z * Z * Z :=
  (md_file_path r, md_file_hash r, md_file_type r, md_file_size r,
   md_last_modified r, md_created_at r).

End HashingFacts.

Import HashingFacts.

Module ClassifyFacts.

(** The categories [classify_file] can return. *)
Definition categories : list string :=
  ["document"; "image"; "video"; "audio"; "code"; "archive"; "other"; "unknown"].

(** Category and confidence that [classify_file] gives to a file of detected
    type [file_type], and the failure it logs on the way, if any: the type
    of the row and its details. *)
Definition classify_outcome (utf8_decode : string -> option string)
    (self : FileClassifier.classifier) (fs : filesystem)
    (file_path file_type : string) : (string * Q) * option (string * string) :=
  if PyStr.startswith file_type "text/" then
    match FileClassifier.read_text utf8_decode fs file_path with
    | Ok _ => (("document", (8 # 10)%Q), None)
    | Raise e => (("unknown", 0%Q), Some ("text_classification", exn_str e))
    end
  else if PyStr.startswith file_type "image/" then
    match FileClassifier.image_extractor self, FileClassifier.image_model self with
    | Some extractor, Some model =>
        match FileClassifier.run_image_model extractor model fs file_path with
        | Ok _ => (("image", (9 # 10)%Q), None)
        | Raise e => (("image", (5 # 10)%Q), Some ("image_classification", exn_str e))
        end
    | _, _ => (("image", (5 # 10)%Q), None)
    end
  else
    ((FileClassifier._get_category_from_extension
        (FileUtils.get_file_extension file_path), 1%Q), None).

(** The world after the failure, if any, has been logged. *)
Definition after_logging (w : world) (file_path : string)
    (failure : option (string * string)) : world :=
  match failure with
  | None => w
  | Some (operation_type, details) =>
      mkWorld (w_fs w)
        (Logger.insert_operation (w_db w) operation_type file_path None
           "failure" details)
  end.

(** A text that is not UTF-8, for the examples: the codec refuses the byte
    255. *)
Definition ascii_only (bytes : string) : option string :=
  if existsb (fun c => Ascii.eqb c (ascii_of_nat 255)) (list_ascii_of_string bytes)
  then None else Some bytes.

End ClassifyFacts.

Import ClassifyFacts.

Module BreakdownFacts.

(** [by_type[t][s]], [None] when a key is missing. *)
Definition breakdown (by_type : PyDict.dict (PyDict.dict Z)) (t s : string)
  : option Z :=
  match PyDict.get by_type t with
  | Some counts => PyDict.get counts s
  | None => None
  end.

(** The count of the group ([t], [s]) among the rows of the query. *)
Fixpoint find_row (rows : list (string * string * Z)) (t s : string) : option Z :=
  match rows with
  | [] => None
  | (t', s', c) :: rows' =>
      if String.eqb t' t && String.eqb s' s then Some c else find_row rows' t s
  end.

Definition has_type_row (rows : list (string * string * Z)) (t : string) : bool :=
  existsb (fun g => String.eqb (fst (fst g)) t) rows.

(** The dictionary a type starts with. *)
Definition initial_counts : PyDict.dict Z := [("success", 0); ("failure", 0)].

(** The operations of the window of type [t] and status [s]. *)
Definition matching (t s : string) (o : operation) : bool :=
  String.eqb (operation_type o) t && String.eqb (status o) s.

Definition count_matching (ops : list operation) (t s : string) : Z :=
  Z.of_nat (List.length (filter (matching t s) ops)).

Definition of_type (t : string) (o : operation) : bool :=
  String.eqb (operation_type o) t.

End BreakdownFacts.

Import BreakdownFacts.


Module PairingFacts.

(** What the two nested loops of the content detector's [find_duplicates]
    append, turn after turn, for a dictionary of signatures. *)
Definition scanned {ndarray} (cosine_similarity : ndarray -> ndarray -> Q)
    (similarity_threshold : Q)
    (file_embeddings : PyDict.dict (ContentDetector.embedding ndarray))
  : list (string * string) :=
  let file_list := PyDict.keys file_embeddings in
  let n := List.length file_list in
  List.concat
    (map (fun i =>
            List.concat
              (map (pairs_at cosine_similarity similarity_threshold
                             file_embeddings file_list i)
                   (ContentDetector.range (i + 1) n)))
         (ContentDetector.range 0 n)).

(** A small tree for the examples: two copies of a photo, a third binary
    file, a text file and a binary file that cannot be read. *)
Definition photos_fs : filesystem :=
  [("a.jpg", mkFile "photo" 1 1 "image/jpeg" true true);
   ("notes.txt", mkFile "hello world" 2 2 "text/plain" true true);
   ("b.jpg", mkFile "photo" 3 3 "image/jpeg" true true);
   ("c.bin", mkFile "other" 4 4 "application/octet-stream" true true);
   ("locked.bin", mkFile "secret" 5 5 "application/octet-stream" false true)].



End PairingFacts.

Import PairingFacts.

Module TableFacts.

(** The constraints of the schema of [_init_db]: the AUTOINCREMENT keys of
    both tables grow along the table and stay below the counter, and
    [file_path] is UNIQUE in [file_metadata]. *)
Definition keyed (db : database) : Prop :=
  StronglySorted Z.lt (map op_id (operations db))
  /\ Forall (fun o => op_id o <= operations_seq db) (operations db)
  /\ StronglySorted Z.lt (map md_id (file_metadata db))
  /\ Forall (fun r => md_id r <= file_metadata_seq db) (file_metadata db)
  /\ NoDup (map md_file_path (file_metadata db)).

(** From [db] to [db'] the log has only grown, by rows put at its end, and
    the constraints of the schema were kept. *)
Definition grows (db db' : database) : Prop :=
  (exists new, operations db' = operations db ++ new)
  /\ (keyed db -> keyed db').

(** From [fs] to [fs'] no file has appeared and no file has changed: a
    file of [fs'] is the same file of [fs], and paths that were distinct
    still are. *)
Definition shrinks (fs fs' : filesystem) : Prop :=
  (forall p f, lookup fs' p = Some f -> lookup fs p = Some f)
  /\ (forall p, In p (map fst fs') -> In p (map fst fs))
  /\ (NoDup (map fst fs) -> NoDup (map fst fs')).

(** What a call may do to the world: delete files and add to the log. *)
Definition evolves (w w' : world) : Prop :=
  shrinks (w_fs w) (w_fs w') /\ grows (w_db w) (w_db w').

(** A call that, however it ends, leaves a world related by [R] to the one
    it was started in. *)
Definition preserves (R : world -> world -> Prop) {A} (m : M A) : Prop :=
  forall w, R w (final_world (m w)).

End TableFacts.

Import TableFacts.

Module ExtensionFacts.

(** [c in s] *)
Fixpoint occurs (c : ascii) (s : string) : bool :=
  match s with
  | EmptyString => false
  | String a s' => Ascii.eqb a c || occurs c s'
  end.

(** [s[n:]] *)
Definition drop (n : nat) (s : string) : string :=
  substring n (String.length s - n) s.

(** Every character of [s] is an ASCII character: on such a string
    [str.lower] changes the letters A to Z and nothing else. *)
Fixpoint is_ascii (s : string) : bool :=
  match s with
  | EmptyString => true
  | String a s' => (nat_of_ascii a <? 128)%nat && is_ascii s'
  end.

End ExtensionFacts.

Import ExtensionFacts.
(* ================================================================== *)
(** * Lemmas and theorems *)

(** ** hashlib.md5: the model agrees with the reference digests *)

Example md5_empty : MD5.hexdigest "" = "d41d8cd98f00b204e9800998ecf8427e".
Proof. vm_compute. reflexivity. Qed.
Example md5_hello : MD5.hexdigest "hello" = "5d41402abc4b2a76b9719d911017c592".
Proof. vm_compute. reflexivity. Qed.
Example md5_world : MD5.hexdigest "world" = "7d793037a0760186574b0282f2f435e7".
Proof. vm_compute. reflexivity. Qed.
Example md5_two_blocks :
  MD5.hexdigest
    "aaaaaaaaaaaaaaaaaaaaaaaaaaaaaaaaaaaaaaaaaaaaaaaaaaaaaaaaaaaaaaaaaaaaaa"
  = "0f5c6c4e740bfcc08c3c26ccb2673d46".
Proof. vm_compute. reflexivity. Qed.

(* ================================================================== *)
(** ** Python dictionaries *)

Section DictFacts.

Variable V : Type.
Implicit Types (d : PyDict.dict V) (k : string) (v : V).

Lemma dict_get_set_eq d k v : PyDict.get (PyDict.set d k v) k = Some v.
Proof.
  induction d as [|[k' v'] d IH]; simpl.
  - now rewrite String.eqb_refl.
  - destruct (String.eqb k' k) eqn:E; simpl; rewrite E; auto.
Qed.

Lemma dict_get_set_ne d k k' v :
  k <> k' -> PyDict.get (PyDict.set d k v) k' = PyDict.get d k'.
Proof.
  intros Hne. induction d as [|[k0 v0] d IH]; simpl.
  - destruct (String.eqb k k') eqn:E; auto.
    apply String.eqb_eq in E. contradiction.
  - destruct (String.eqb k0 k) eqn:E; simpl.
    + apply String.eqb_eq in E. subst k0.
      destruct (String.eqb k k') eqn:E'; auto.
      apply String.eqb_eq in E'. contradiction.
    + now rewrite IH.
Qed.

Lemma dict_get_In d k v : PyDict.get d k = Some v -> In (k, v) d.
Proof.
  induction d as [|[k' v'] d IH]; simpl; [discriminate|].
  destruct (String.eqb k' k) eqn:E.
  - apply String.eqb_eq in E. intros [= ->]. subst. now left.
  - auto.
Qed.

Lemma dict_get_None d k : PyDict.get d k = None <-> ~ In k (PyDict.keys d).
Proof.
  induction d as [|[k' v'] d IH]; simpl.
  - tauto.
  - destruct (String.eqb k' k) eqn:E.
    + apply String.eqb_eq in E. split; [discriminate | intros H; exfalso; auto].
    + apply String.eqb_neq in E. rewrite IH. tauto.
Qed.

Lemma dict_In_get d k v :
  NoDup (PyDict.keys d) -> In (k, v) d -> PyDict.get d k = Some v.
Proof.
  induction d as [|[k' v'] d IH]; simpl; [tauto|].
  intros Hnd [H | H].
  - injection H as -> ->. now rewrite String.eqb_refl.
  - inversion Hnd as [|? ? Hnotin Hnd']; subst.
    destruct (String.eqb k' k) eqn:E.
    + apply String.eqb_eq in E. subst k'. exfalso. apply Hnotin.
      change k with (fst (k, v)). now apply in_map.
    + auto.
Qed.

Lemma dict_keys_set d k v :
  PyDict.keys (PyDict.set d k v)
  = if PyDict.contains d k then PyDict.keys d else PyDict.keys d ++ [k].
Proof.
  unfold PyDict.contains.
  induction d as [|[k' v'] d IH]; simpl; auto.
  destruct (String.eqb k' k) eqn:E; simpl; auto.
  rewrite IH. now destruct (PyDict.get d k).
Qed.

Lemma dict_keys_set_NoDup d k v :
  NoDup (PyDict.keys d) -> NoDup (PyDict.keys (PyDict.set d k v)).
Proof.
  intros Hnd. rewrite dict_keys_set. unfold PyDict.contains.
  destruct (PyDict.get d k) eqn:E; auto.
  apply dict_get_None in E.
  apply NoDup_app; [assumption | repeat constructor; simpl; tauto |].
  intros x Hx [<- | []]. contradiction.
Qed.

End DictFacts.

(* ================================================================== *)
(** ** utils/logger.py: the metadata snapshots *)

Lemma filter_eqb_negb_eqb (rows : list metadata_row) (p : string) :
  filter (fun r => String.eqb (md_file_path r) p)
         (filter (fun r => negb (String.eqb (md_file_path r) p)) rows) = [].
Proof.
  induction rows as [|r rows IH]; simpl; auto.
  destruct (String.eqb (md_file_path r) p) eqn:E; simpl; auto.
  now rewrite E.
Qed.

Lemma filter_eqb_negb_other (rows : list metadata_row) (p q : string) :
  q <> p ->
  filter (fun r => String.eqb (md_file_path r) q)
         (filter (fun r => negb (String.eqb (md_file_path r) p)) rows)
  = filter (fun r => String.eqb (md_file_path r) q) rows.
Proof.
  intros Hne. induction rows as [|r rows IH]; simpl; auto.
  destruct (String.eqb (md_file_path r) p) eqn:E; simpl.
  - apply String.eqb_eq in E.
    destruct (String.eqb (md_file_path r) q) eqn:E'; auto.
    apply String.eqb_eq in E'. congruence.
  - now rewrite IH.
Qed.

(** C8.  [log_file_metadata] is an upsert on the file path: whatever the
    table held before, reading the rows of the path back gives one row, with
    exactly the hash, type, size and timestamps just written, and the rows
    of every other path are as they were.  Writing a second snapshot for the
    path therefore replaces the first. *)
Theorem log_file_metadata_upsert :
  forall (w : world) (file_path file_hash file_type : string)
         (file_size last_modified created_at : Z),
  exists w',
    Logger.log_file_metadata file_path file_hash file_type file_size
                             last_modified created_at w = Returns tt w'
    /\ Logger.select_metadata (w_db w') file_path
       = [mkMetadata (file_metadata_seq (w_db w) + 1) file_path file_hash
                     file_type file_size last_modified created_at]
    /\ (forall other, other <> file_path ->
          Logger.select_metadata (w_db w') other
          = Logger.select_metadata (w_db w) other)
    /\ (forall file_hash' file_type' file_size' last_modified' created_at',
        exists w'',
          Logger.log_file_metadata file_path file_hash' file_type' file_size'
                                   last_modified' created_at' w' = Returns tt w''
          /\ map (fun r => (md_file_hash r, md_file_type r, md_file_size r,
                            md_last_modified r, md_created_at r))
                 (Logger.select_metadata (w_db w'') file_path)
             = [(file_hash', file_type', file_size', last_modified', created_at')]).
Proof.
  intros. eexists. split; [reflexivity|].
  unfold Logger.select_metadata; simpl.
  repeat split.
  - rewrite filter_app, filter_eqb_negb_eqb. simpl.
    now rewrite String.eqb_refl.
  - intros other Hne. rewrite filter_app, filter_eqb_negb_other by assumption.
    simpl. destruct (String.eqb file_path other) eqn:E.
    + apply String.eqb_eq in E. congruence.
    + now rewrite app_nil_r.
  - intros. eexists. split; [reflexivity|]. simpl.
    rewrite filter_app, filter_eqb_negb_eqb. simpl.
    now rewrite String.eqb_refl.
Qed.

(* ================================================================== *)
(** ** organized/document/model.py: classification *)

Lemma lower_char_idempotent (c : ascii) :
  PyStr.lower_char (PyStr.lower_char c) = PyStr.lower_char c.
Proof.
  destruct c as [[] [] [] [] [] [] [] []]; reflexivity.
Qed.

Lemma lower_idempotent (s : string) : PyStr.lower (PyStr.lower s) = PyStr.lower s.
Proof.
  induction s as [|c s IH]; simpl; auto.
  now rewrite lower_char_idempotent, IH.
Qed.

Lemma category_case_insensitive (extension : string) :
  FileClassifier._get_category_from_extension (PyStr.lower extension)
  = FileClassifier._get_category_from_extension extension.
Proof.
  unfold FileClassifier._get_category_from_extension.
  now rewrite lower_idempotent.
Qed.

Lemma category_of_table (extension cat : string) :
  In (PyStr.lower extension, cat) extension_table ->
  FileClassifier._get_category_from_extension extension = cat.
Proof.
  unfold FileClassifier._get_category_from_extension, extension_table.
  simpl. intros H.
  repeat (destruct H as [H | H];
          [injection H as <- <-; reflexivity |]).
  destruct H.
Qed.

(** C3, as stated, fails: the extension ".py" is in the table under "code",
    yet the file is classified by its content, as a document with
    confidence 0.8. *)
Lemma classify_extension_first_counterexample :
  ~ (forall cl w',
       In (FileUtils.get_file_extension "src/main.py", "code") extension_table ->
       FileClassifier.classify_file (fun s => Some s)
         (FileClassifier.mkClassifier None None) "src/main.py"
         python_source_world = Returns cl w' ->
       FileClassifier.category cl = "code"
       /\ (FileClassifier.confidence cl == 1)%Q).
Proof.
  intros H.
  specialize (H (FileClassifier.mkClassification "src/main.py" "text/x-python"
                   "document" (8 # 10))
                python_source_world).
  destruct H as [H _].
  - vm_compute. tauto.
  - reflexivity.
  - discriminate H.
Qed.

Section ClassifierFacts.

Variable utf8_decode : string -> option string.
Variable self : FileClassifier.classifier.

(** C3, amended.  [classify_file] looks at the detected MIME type first.
    When it is neither text/... nor image/..., the call returns the category
    of the lower-cased extension with confidence 1, reads no content and
    logs nothing; for an extension of the table, in any case of letters,
    that category is the table's; in particular readme.PDF, detected as
    application/pdf, is a document with confidence 1.  When the type is
    text/... or image/..., the file is classified by the content path
    whatever its extension, also one of the table: a text is a document
    with confidence 0.8 when it can be read as UTF-8, and unknown with
    confidence 0 and a failure logged when it cannot; an image is an image,
    with confidence 0.9 when the extractor and the model are loaded and run
    on it, with confidence 0.5 and a failure logged when they raise, and
    with confidence 0.5 when they are not loaded. *)
Theorem classify_file_by_extension :
  forall (w : world) (file_path file_type : string),
    FileUtils.get_file_type (w_fs w) file_path = Ok file_type ->
    (PyStr.startswith file_type "text/" = false ->
     PyStr.startswith file_type "image/" = false ->
     exists cl,
       FileClassifier.classify_file utf8_decode self file_path w = Returns cl w
       /\ FileClassifier.category cl
          = FileClassifier._get_category_from_extension
              (snd (Os.splitext file_path))
       /\ FileClassifier.confidence cl = 1%Q
       /\ (forall cat,
             In (PyStr.lower (snd (Os.splitext file_path)), cat) extension_table ->
             FileClassifier.category cl = cat)
       /\ (file_path = "readme.PDF" -> file_type = "application/pdf" ->
           FileClassifier.category cl = "document"))
    /\ (PyStr.startswith file_type "text/" = true ->
        (forall content,
            FileClassifier.read_text utf8_decode (w_fs w) file_path = Ok content ->
            FileClassifier.classify_file utf8_decode self file_path w
            = Returns (FileClassifier.mkClassification file_path file_type
                         "document" (8 # 10)) w)
        /\ (forall e,
              FileClassifier.read_text utf8_decode (w_fs w) file_path = Raise e ->
              FileClassifier.classify_file utf8_decode self file_path w
              = Returns (FileClassifier.mkClassification file_path file_type
                           "unknown" 0)
                  (mkWorld (w_fs w)
                     (Logger.insert_operation (w_db w) "text_classification"
                        file_path None "failure" (exn_str e)))))
    /\ (PyStr.startswith file_type "text/" = false ->
        PyStr.startswith file_type "image/" = true ->
        (forall extractor model,
            FileClassifier.image_extractor self = Some extractor ->
            FileClassifier.image_model self = Some model ->
            (FileClassifier.run_image_model extractor model (w_fs w) file_path
             = Ok tt ->
             FileClassifier.classify_file utf8_decode self file_path w
             = Returns (FileClassifier.mkClassification file_path file_type
                          "image" (9 # 10)) w)
            /\ (forall e,
                  FileClassifier.run_image_model extractor model (w_fs w)
                    file_path = Raise e ->
                  FileClassifier.classify_file utf8_decode self file_path w
                  = Returns (FileClassifier.mkClassification file_path file_type
                               "image" (5 # 10))
                      (mkWorld (w_fs w)
                         (Logger.insert_operation (w_db w)
                            "image_classification" file_path None "failure"
                            (exn_str e)))))
        /\ (FileClassifier.image_extractor self = None
            \/ FileClassifier.image_model self = None ->
            FileClassifier.classify_file utf8_decode self file_path w
            = Returns (FileClassifier.mkClassification file_path file_type
                         "image" (5 # 10)) w)).
Proof.
  intros w file_path file_type Hty. split; [|split].
  - intros Htext Himage.
    unfold FileClassifier.classify_file, bind, lift, try_except.
    rewrite Hty, Htext, Himage. unfold ret, FileUtils.get_file_extension.
    eexists. split; [reflexivity|]. simpl.
    rewrite category_case_insensitive.
    repeat split.
    + intros cat Hin. now apply category_of_table.
    + intros -> _. reflexivity.
  - intros Htext.
    unfold FileClassifier.classify_file, bind, lift, try_except.
    rewrite Hty, Htext.
    unfold FileClassifier._classify_text_file, try_except, bind, lift.
    split.
    + intros content ->. reflexivity.
    + intros e ->. reflexivity.
  - intros Htext Himage.
    unfold FileClassifier.classify_file, bind, lift, try_except.
    rewrite Hty, Htext, Himage.
    unfold FileClassifier._classify_image_file. split.
    + intros extractor model -> ->. unfold try_except, bind, lift. split.
      * intros ->. reflexivity.
      * intros e ->. reflexivity.
    + intros [-> | Hmodel]; [reflexivity|]. rewrite Hmodel.
      destruct (FileClassifier.image_extractor self); reflexivity.
Qed.

End ClassifierFacts.

(** The two scenarios of C3 on concrete file systems: readme.PDF goes by
    its extension, the Python source by its content. *)
Lemma classify_file_by_extension_witness :
  (exists cl,
      FileClassifier.classify_file (fun s => Some s)
        (FileClassifier.mkClassifier None None) "readme.PDF"
        (mkWorld [("readme.PDF", mkFile "%PDF-1.4" 5 5 "application/pdf" true true)]
                 (Logger.init_db 0))
      = Returns cl
          (mkWorld [("readme.PDF", mkFile "%PDF-1.4" 5 5 "application/pdf" true true)]
                   (Logger.init_db 0))
      /\ FileClassifier.category cl = "document"
      /\ FileClassifier.confidence cl = 1%Q)
  /\ FileClassifier.classify_file (fun s => Some s)
       (FileClassifier.mkClassifier None None) "src/main.py" python_source_world
     = Returns (FileClassifier.mkClassification "src/main.py" "text/x-python"
                  "document" (8 # 10)) python_source_world.
Proof.
  split.
  - destruct (classify_file_by_extension (fun s => Some s)
                (FileClassifier.mkClassifier None None)
                (mkWorld [("readme.PDF",
                           mkFile "%PDF-1.4" 5 5 "application/pdf" true true)]
                         (Logger.init_db 0))
                "readme.PDF" (file_type := "application/pdf") eq_refl)
      as (Hext & _ & _).
    destruct (Hext eq_refl eq_refl) as (cl & Hrun & _ & Hconf & _ & Hpdf).
    exists cl. split; [exact Hrun|]. split; [|exact Hconf].
    apply Hpdf; reflexivity.
  - destruct (classify_file_by_extension (fun s => Some s)
                (FileClassifier.mkClassifier None None)
                python_source_world
                "src/main.py" (file_type := "text/x-python") eq_refl)
      as (_ & Htext & _).
    destruct (Htext eq_refl) as [Hdoc _].
    apply (Hdoc "print(1)"). reflexivity.
Defined.

(* ================================================================== *)
(** ** duplicate_detector.py: signatures *)

Section SignatureFacts.

Variable ndarray : Type.
Variable sha256 : string -> string.
Variable guess_type : string -> option string.
Variable utf8_decode_ignore : string -> string.

Local Abbreviation compute_embeddings :=
  (ContentDetector.compute_embeddings ndarray sha256 guess_type
     utf8_decode_ignore) (only parsing).
Local Abbreviation is_text_file :=
  (ContentDetector.is_text_file guess_type) (only parsing).

Lemma compute_embeddings_never_array (depth : nat) (fs : filesystem) :
  forall file_path v, compute_embeddings depth fs file_path
                      <> Ok (Some (ContentDetector.Array v)).
Proof.
  induction depth as [|depth IH]; intros file_path v; simpl; [discriminate|].
  destruct (ContentDetector.is_text_file guess_type file_path).
  - destruct (Os.read_bytes fs file_path) as [bytes|e]; simpl; [|discriminate].
    specialize (IH (utf8_decode_ignore bytes) v).
    destruct (ContentDetector.compute_embeddings ndarray sha256 guess_type
                utf8_decode_ignore depth fs (utf8_decode_ignore bytes));
      congruence.
  - unfold ContentDetector.compute_hash.
    destruct (Os.read_bytes fs file_path); simpl; discriminate.
Qed.

(** A binary file gets its SHA-256 digest as signature. *)
Lemma compute_embeddings_binary (depth : nat) (fs : filesystem)
    (file_path bytes : string) :
  is_text_file file_path = false ->
  Os.read_bytes fs file_path = Ok bytes ->
  compute_embeddings (S depth) fs file_path
  = Ok (Some (ContentDetector.Str (sha256 bytes))).
Proof.
  intros Hbin Hread. simpl. rewrite Hbin.
  unfold ContentDetector.compute_hash. now rewrite Hread.
Qed.

(** A text file that cannot be read gets no signature. *)
Lemma compute_embeddings_unreadable_text (depth : nat) (fs : filesystem)
    (file_path : string) (e : exn) :
  is_text_file file_path = true ->
  Os.read_bytes fs file_path = Raise e ->
  compute_embeddings (S depth) fs file_path = Ok None.
Proof.
  intros Htext Hread. simpl. now rewrite Htext, Hread.
Qed.

(** A binary file that cannot be read raises out of [compute_embeddings]. *)
Lemma compute_embeddings_unreadable_binary (depth : nat) (fs : filesystem)
    (file_path : string) (e : exn) :
  is_text_file file_path = false ->
  Os.read_bytes fs file_path = Raise e ->
  compute_embeddings (S depth) fs file_path = Raise e.
Proof.
  intros Hbin Hread. simpl. rewrite Hbin.
  unfold ContentDetector.compute_hash. now rewrite Hread.
Qed.

(** [compute_embeddings] returns on a text-like file whatever happens, and on
    another file exactly when the file can be read. *)
Lemma compute_embeddings_returns depth fs file_path :
  (exists r, compute_embeddings (S depth) fs file_path = Ok r)
  <-> (is_text_file file_path = false ->
       exists bytes, Os.read_bytes fs file_path = Ok bytes).
Proof.
  cbn [ContentDetector.compute_embeddings].
  destruct (ContentDetector.is_text_file guess_type file_path) eqn:Htext.
  - split; [discriminate|]. intros _.
    destruct (rbind (Os.read_bytes fs file_path) _); eexists; reflexivity.
  - unfold ContentDetector.compute_hash.
    destruct (Os.read_bytes fs file_path) as [bytes | e]; cbn [rbind].
    + split; intros _; eexists; reflexivity.
    + split.
      * intros [r Hr]. discriminate.
      * intros H. destruct (H eq_refl) as [bytes Hb]. discriminate.
Qed.

(** C4 (the code departs from it).  No call of [compute_embeddings] returns
    a vector: on a file that is text-like the function calls itself on the
    text it has read, as if the text were a path.  When that text is not the
    name of a text-like file and names no file, the inner call raises, the
    outer [except] catches it and the readable text file ends with no
    signature at all. *)
Theorem compute_embeddings_text_file_no_vector :
  forall (depth : nat) (fs : filesystem) (file_path : string),
    (forall v, compute_embeddings depth fs file_path
               <> Ok (Some (ContentDetector.Array v)))
    /\ (forall content,
          is_text_file file_path = true ->
          Os.read_bytes fs file_path = Ok content ->
          is_text_file (utf8_decode_ignore content) = false ->
          lookup fs (utf8_decode_ignore content) = None ->
          compute_embeddings (S (S depth)) fs file_path = Ok None).
Proof.
  intros depth fs file_path. split.
  - apply compute_embeddings_never_array.
  - intros content Htext Hread Hinner Hmissing.
      cbn [ContentDetector.compute_embeddings].
    rewrite Htext, Hread. cbn [rbind]. rewrite Hinner.
    unfold ContentDetector.compute_hash, Os.read_bytes.
    now rewrite Hmissing.
Qed.

End SignatureFacts.

(** The failing input of C4: a readable text file of eleven bytes gets no
    signature.  The digest function is never called on it; MD5 stands in
    for SHA-256. *)
Lemma compute_embeddings_text_file_no_vector_witness :
  ContentDetector.compute_embeddings (list Z) MD5.hexdigest guess_by_suffix
    (fun s => s) 1000 notes_fs "notes.txt"
  = Ok None.
Proof.
  apply (proj2 (@compute_embeddings_text_file_no_vector (list Z) MD5.hexdigest
                  guess_by_suffix (fun s => s) 998 notes_fs "notes.txt")
               "hello world");
    reflexivity.
Defined.

(* ================================================================== *)
(** ** utils/logger.py: the report *)

Lemma wsum_count_group P t s groups :
  wsum P (Logger.count_group t s groups)
  = wsum P groups + (if P t s then 1 else 0).
Proof.
  unfold wsum.
  induction groups as [|[[t' s'] c] groups IH]; simpl.
  - lia.
  - destruct (String.eqb t' t && String.eqb s' s) eqn:E; simpl.
    + apply andb_true_iff in E. destruct E as [Et Es].
      apply String.eqb_eq in Et, Es. subst. destruct (P t s); lia.
    + rewrite IH. lia.
Qed.

Lemma wsum_fold_count P (ops : list operation) groups :
  wsum P (fold_left (fun g o => Logger.count_group (operation_type o) (status o) g)
                    ops groups)
  = wsum P groups
    + Z.of_nat (List.length
                  (filter (fun o => P (operation_type o) (status o)) ops)).
Proof.
  revert groups. induction ops as [|o ops IH]; intros groups; simpl.
  - lia.
  - rewrite IH, wsum_count_group.
    destruct (P (operation_type o) (status o)); simpl List.length; lia.
Qed.

Lemma count_group_keys t s groups :
  map fst (Logger.count_group t s groups) = map fst groups
  \/ (~ In (t, s) (map fst groups)
      /\ map fst (Logger.count_group t s groups) = map fst groups ++ [(t, s)]).
Proof.
  induction groups as [|[[t' s'] c] groups IH]; simpl.
  - right. tauto.
  - destruct (String.eqb t' t && String.eqb s' s) eqn:E; simpl.
    + now left.
    + destruct IH as [IH | [Hnotin IH]]; rewrite IH; [now left|].
      right. split; [|reflexivity].
      intros [H | H]; [|contradiction].
      injection H as -> ->. now rewrite !String.eqb_refl in E.
Qed.

Lemma count_group_NoDup t s groups :
  NoDup (map fst groups) -> NoDup (map fst (Logger.count_group t s groups)).
Proof.
  intros Hnd. destruct (count_group_keys t s groups) as [-> | [Hnotin ->]]; auto.
  apply NoDup_app; [assumption | repeat constructor; simpl; tauto |].
  intros x Hx [<- | []]. contradiction.
Qed.

Lemma select_counts_NoDup db start_date end_date :
  NoDup (map fst (Logger.select_counts db start_date end_date)).
Proof.
  unfold Logger.select_counts.
  generalize (filter (Logger.in_window start_date end_date) (operations db)).
  assert (Hnil : NoDup (map fst (@nil (string * string * Z)))) by constructor.
  revert Hnil. generalize (@nil (string * string * Z)).
  intros groups Hnd ops. revert groups Hnd.
  induction ops as [|o ops IH]; intros groups Hnd; simpl; auto.
  apply IH. now apply count_group_NoDup.
Qed.

Lemma total_succ_set d k counts :
  total_succ (PyDict.set d k counts) = total_succ d - succ_at d k + succ_of counts.
Proof.
  unfold total_succ, succ_at.
  induction d as [|[k' c'] d IH]; simpl.
  - lia.
  - destruct (String.eqb k' k) eqn:E; simpl.
    + lia.
    + rewrite IH. lia.
Qed.

Lemma well_formed_set d k counts :
  well_formed d -> PyDict.contains counts "success" = true ->
  well_formed (PyDict.set d k counts).
Proof.
  unfold well_formed. intros Hd Hc.
  induction d as [|[k' c'] d IH]; simpl.
  - repeat constructor. assumption.
  - inversion Hd; subst.
    destruct (String.eqb k' k); simpl; constructor; auto.
Qed.

Lemma well_formed_get d k counts :
  well_formed d -> PyDict.get d k = Some counts ->
  PyDict.contains counts "success" = true.
Proof.
  unfold well_formed. intros Hd Hget.
  apply dict_get_In in Hget.
  rewrite Forall_forall in Hd. apply Hd.
  unfold PyDict.values. change counts with (snd (k, counts)). now apply in_map.
Qed.

Lemma sum_success_ok d :
  well_formed d -> Logger.sum_success (PyDict.values d) = Ok (total_succ d).
Proof.
  unfold well_formed, total_succ.
  induction (PyDict.values d) as [|counts l IH]; intros Hwf; simpl; auto.
  inversion Hwf as [|? ? Hc Hl]; subst.
  unfold Logger.getitem, succ_of. unfold PyDict.contains in Hc.
  destruct (PyDict.get counts "success"); [|discriminate].
  simpl. now rewrite IH.
Qed.

Lemma succ_of_set counts s c :
  succ_of (PyDict.set counts s c)
  = if String.eqb s "success" then c else succ_of counts.
Proof.
  unfold succ_of. destruct (String.eqb s "success") eqn:E.
  - apply String.eqb_eq in E. subst. now rewrite dict_get_set_eq.
  - apply String.eqb_neq in E. now rewrite dict_get_set_ne.
Qed.

Lemma contains_set_success (counts : PyDict.dict Z) s c :
  PyDict.contains counts "success" = true ->
  PyDict.contains (PyDict.set counts s c) "success" = true.
Proof.
  unfold PyDict.contains.
  destruct (String.eqb s "success") eqn:E.
  - apply String.eqb_eq in E. subst. now rewrite dict_get_set_eq.
  - apply String.eqb_neq in E. now rewrite dict_get_set_ne.
Qed.

(** One row of the query: the loop body neither raises nor loses a count. *)
Lemma report_row_spec d t s c :
  well_formed d ->
  exists d',
    Logger.report_row d (t, s, c) = Ok d'
    /\ well_formed d'
    /\ succ_at d' t = (if String.eqb s "success" then c else succ_at d t)
    /\ (forall t', t' <> t -> succ_at d' t' = succ_at d t')
    /\ total_succ d' = total_succ d - succ_at d t + succ_at d' t.
Proof.
  intros Hwf. unfold Logger.report_row.
  set (d1 := if PyDict.contains d t then d
             else PyDict.set d t [("success", 0); ("failure", 0)]
        : PyDict.dict (PyDict.dict Z)).
  assert (Hwf1 : well_formed d1).
  { subst d1. destruct (PyDict.contains d t); auto.
    now apply well_formed_set. }
  assert (Hat1 : forall t', succ_at d1 t' = succ_at d t').
  { intros t'. subst d1. unfold PyDict.contains.
    destruct (PyDict.get d t) eqn:G; auto.
    unfold succ_at. destruct (String.eqb_spec t t') as [<- | Hne].
    - now rewrite dict_get_set_eq, G.
    - now rewrite dict_get_set_ne. }
  assert (Htot1 : total_succ d1 = total_succ d).
  { subst d1. unfold PyDict.contains.
    destruct (PyDict.get d t) eqn:G; auto.
    rewrite total_succ_set. unfold succ_at. rewrite G.
    unfold succ_of. simpl. lia. }
  assert (Hget1 : exists counts, PyDict.get d1 t = Some counts).
  { subst d1. unfold PyDict.contains.
    destruct (PyDict.get d t) eqn:G; eauto.
    rewrite dict_get_set_eq. eauto. }
  destruct Hget1 as [counts Hget1].
  unfold Logger.getitem. rewrite Hget1. simpl.
  eexists. split; [reflexivity|].
  assert (Hat : succ_at (PyDict.set d1 t (PyDict.set counts s c)) t
                = if String.eqb s "success" then c else succ_at d t).
  { unfold succ_at at 1. rewrite dict_get_set_eq, succ_of_set.
    destruct (String.eqb s "success"); auto.
    rewrite <- Hat1. unfold succ_at. now rewrite Hget1. }
  repeat split.
  - apply well_formed_set; auto. apply contains_set_success.
    eapply well_formed_get; eauto.
  - exact Hat.
  - intros t' Hne. unfold succ_at at 1. rewrite dict_get_set_ne by congruence.
    apply Hat1.
  - rewrite total_succ_set, Htot1, Hat1.
    unfold succ_at at 3. now rewrite dict_get_set_eq.
Qed.

Lemma report_rows_spec rows :
  forall d,
    well_formed d ->
    NoDup (map fst rows) ->
    (forall t c, In (t, "success", c) rows -> succ_at d t = 0) ->
    exists d',
      Logger.report_rows d rows = Ok d'
      /\ well_formed d'
      /\ total_succ d'
         = total_succ d + wsum (fun _ s => String.eqb s "success") rows.
Proof.
  induction rows as [|[[t s] c] rows IH]; intros d Hwf Hnd Hzero.
  - exists d. unfold wsum. simpl. repeat split; auto. lia.
  - destruct (report_row_spec t s c Hwf) as (d1 & Hrow & Hwf1 & Hat & Hother & Htot).
    cbn [Logger.report_rows]. rewrite Hrow. cbn [rbind].
    inversion Hnd as [|? ? Hnotin Hnd']; subst.
    destruct (IH d1 Hwf1 Hnd') as (d' & Hrows & Hwf' & Htot').
    + intros t2 c2 Hin.
      destruct (String.eqb_spec t2 t) as [-> | Hne].
      * rewrite Hat. destruct (String.eqb_spec s "success") as [-> | Hs].
        -- exfalso. apply Hnotin.
           change (t, "success") with (fst (t, "success", c2)). now apply in_map.
        -- apply (Hzero t c2). now right.
      * rewrite Hother by assumption. apply (Hzero t2 c2). now right.
    + exists d'. repeat split; auto.
      rewrite Htot', Htot, Hat. unfold wsum. simpl.
      destruct (String.eqb_spec s "success") as [-> | Hs].
      * rewrite (Hzero t c) by now left. lia.
      * lia.
Qed.

Lemma sum_counts_wsum (rows : list (string * string * Z)) :
  fold_right Z.add 0 (map snd rows) = wsum (fun _ _ => true) rows.
Proof.
  unfold wsum. induction rows as [|r rows IH]; simpl; congruence.
Qed.

(** C9, as stated, fails: with one success among two operations the rate
    returned is 50, not the quotient 1/2. *)
Lemma generate_report_rate_counterexample :
  ~ (forall r,
       Logger.generate_report two_operations None None = Ok r ->
       (Logger.success_rate r == 1 # 2)%Q).
Proof.
  intros H.
  specialize (H (Logger.mkReport 2
                   [("duplicate_removal", [("success", 1); ("failure", 1)])]
                   (inject_Z 1 / inject_Z 2 * 100)%Q) eq_refl).
  vm_compute in H. discriminate H.
Qed.

(** C9, amended.  [generate_report] never raises, whatever the table holds
    and whatever the window: it returns the number of operations in the
    window, and as success rate the percentage of them whose status is
    "success", that is successes divided by total times 100, and 0 when the
    window holds no operation. *)
Theorem generate_report_success_rate :
  forall (db : database) (start_date end_date : option Z),
    let ops := filter (Logger.in_window start_date end_date) (operations db) in
    let total := Z.of_nat (List.length ops) in
    let successes := Z.of_nat (List.length (filter is_success ops)) in
    exists r,
      Logger.generate_report db start_date end_date = Ok r
      /\ Logger.total_operations r = total
      /\ (Logger.success_rate r
          == if total =? 0 then 0
             else inject_Z successes / inject_Z total * 100)%Q
      /\ (ops = [] -> Logger.success_rate r = 0%Q).
Proof.
  intros db start_date end_date ops total successes.
  unfold Logger.generate_report.
  set (results := Logger.select_counts db start_date end_date).
  assert (Htotal : fold_right Z.add 0 (map snd results) = total).
  { rewrite sum_counts_wsum. subst results. unfold Logger.select_counts.
    rewrite wsum_fold_count. unfold wsum. simpl.
    fold ops. subst total. f_equal. f_equal.
    clear. induction ops as [|o ops IH]; simpl; congruence. }
  destruct (@report_rows_spec results [])
    as (by_type & Hrows & Hwf & Hsucc).
  { constructor. }
  { apply select_counts_NoDup. }
  { intros t c _. reflexivity. }
  rewrite Hrows. cbn [rbind]. rewrite (sum_success_ok Hwf). cbn [rbind].
  assert (Hsuccesses : total_succ by_type = successes).
  { rewrite Hsucc. subst results. unfold Logger.select_counts.
    rewrite wsum_fold_count. unfold total_succ, wsum. simpl.
    fold ops. reflexivity. }
  rewrite Htotal, Hsuccesses.
  destruct (0 <? total) eqn:Hpos.
  - apply Z.ltb_lt in Hpos. unfold Logger.truediv.
    destruct (total =? 0) eqn:Hz; [apply Z.eqb_eq in Hz; lia|].
    cbn [rbind]. eexists. split; [reflexivity|]. cbn.
    repeat split; try reflexivity.
    intros Hnil. subst total. rewrite Hnil in Hpos. simpl in Hpos. lia.
  - apply Z.ltb_ge in Hpos.
    assert (Hzero : total = 0) by (subst total; lia).
    eexists. split; [reflexivity|]. cbn. rewrite Hzero.
    repeat split; reflexivity.
Qed.

(* ================================================================== *)
(** ** organized/document/duplicate_detector.py: exact duplicates *)

Section FindDuplicatesFacts.

Variable hashlib : FileUtils.hashlib_t.
Variable hash_type : string.

(** The loop body always returns, leaves the files alone and updates the
    map as [group_step] says. *)
Lemma hash_one_spec hash_map file_path w :
  exists w',
    DuplicateDetector.hash_one hashlib hash_type hash_map file_path w
    = Returns (group_step hashlib (w_fs w) hash_type hash_map file_path) w'
    /\ w_fs w' = w_fs w.
Proof.
  unfold DuplicateDetector.hash_one, group_step.
  destruct (FileUtils.calculate_file_hash hashlib (w_fs w) file_path hash_type)
    as [h | e].
  - unfold try_except, bind, lift.
    destruct (FileUtils.get_file_metadata (w_fs w) file_path) as [m | e].
    + eexists. split; reflexivity.
    + eexists. split; reflexivity.
  - eexists. split; reflexivity.
Qed.

Lemma hash_loop_spec files :
  forall hash_map w,
  exists w',
    for_each files (DuplicateDetector.hash_one hashlib hash_type) hash_map w
    = Returns (fold_left (group_step hashlib (w_fs w) hash_type) files hash_map) w'
    /\ w_fs w' = w_fs w.
Proof.
  induction files as [|p files IH]; intros hash_map w; simpl.
  - eexists. split; reflexivity.
  - unfold bind.
    destruct (hash_one_spec hash_map p w) as (w1 & -> & Hfs1).
    destruct (IH (group_step hashlib (w_fs w) hash_type hash_map p) w1)
      as (w2 & Hrun & Hfs2).
    rewrite Hfs1 in Hrun. rewrite Hrun. exists w2. split; congruence.
Qed.

Lemma group_step_groups fs done hash_map p :
  groups_of hashlib fs hash_type done hash_map ->
  groups_of hashlib fs hash_type (done ++ [p])
            (group_step hashlib fs hash_type hash_map p).
Proof.
  intros [Hnd Hget]. unfold group_step.
  destruct (FileUtils.calculate_file_hash hashlib fs p hash_type) as [h | e] eqn:Hh.
  - assert (Hp : forall k, has_hash hashlib fs hash_type k p = String.eqb h k).
    { intros k. unfold has_hash. now rewrite Hh. }
    unfold DuplicateDetector.append_to. split.
    + destruct (PyDict.get hash_map h); now apply dict_keys_set_NoDup.
    + intros k. rewrite filter_app. simpl. rewrite Hp.
      destruct (String.eqb_spec h k) as [<- | Hne].
      * rewrite (Hget h).
        destruct (filter (has_hash hashlib fs hash_type h) done);
          now rewrite dict_get_set_eq.
      * rewrite app_nil_r, <- Hget.
        destruct (PyDict.get hash_map h); now rewrite dict_get_set_ne.
  - split; auto. intros k. rewrite filter_app. simpl.
    unfold has_hash at 2. rewrite Hh. now rewrite app_nil_r.
Qed.

Lemma fold_group_step_groups fs files :
  forall done hash_map,
    groups_of hashlib fs hash_type done hash_map ->
    groups_of hashlib fs hash_type (done ++ files)
              (fold_left (group_step hashlib fs hash_type) files hash_map).
Proof.
  induction files as [|p files IH]; intros done hash_map H; simpl.
  - now rewrite app_nil_r.
  - replace (done ++ p :: files) with ((done ++ [p]) ++ files)
      by now rewrite <- app_assoc.
    apply IH. now apply group_step_groups.
Qed.

Lemma NoDup_map_fst_filter {A B} (f : A * B -> bool) (l : list (A * B)) :
  NoDup (map fst l) -> NoDup (map fst (filter f l)).
Proof.
  induction l as [|x l IH]; simpl; auto.
  intros Hnd. inversion Hnd as [|? ? Hnotin Hnd']; subst.
  destruct (f x); simpl; auto.
  constructor; auto.
  intros Hin. apply Hnotin. apply in_map_iff in Hin.
  destruct Hin as (y & Hy & Hin). apply filter_In in Hin.
  apply in_map_iff. exists y. tauto.
Qed.

End FindDuplicatesFacts.

(** C1.  [find_duplicates] always returns, without touching the files.  Its
    result has one entry per hash; the entry of a hash holds, in the order of
    the listing, exactly the listed paths that were hashed to it, and an
    entry is present exactly when at least two paths share the hash (a path
    whose hashing raised is in no group).  For three files holding "hello",
    "hello" and "world", hashed with MD5, the result is the single group of
    the two "hello" files under the digest of "hello". *)
Theorem find_duplicates_groups :
  forall (hashlib : FileUtils.hashlib_t) (directory hash_type : string) (w : world),
    let files := FileUtils.list_files (w_fs w) directory in
    exists groups w',
      DuplicateDetector.find_duplicates hashlib directory hash_type w
      = Returns groups w'
      /\ w_fs w' = w_fs w
      /\ NoDup (PyDict.keys groups)
      /\ (forall k paths,
            In (k, paths) groups
            <-> paths = filter (has_hash hashlib (w_fs w) hash_type k) files
                /\ (2 <= List.length paths)%nat)
      /\ (forall p1 p2 p3 f1 f2 f3,
            files = [p1; p2; p3] ->
            lookup (w_fs w) p1 = Some f1 ->
            lookup (w_fs w) p2 = Some f2 ->
            lookup (w_fs w) p3 = Some f3 ->
            f_readable f1 = true -> f_readable f2 = true -> f_readable f3 = true ->
            f_content f1 = "hello" -> f_content f2 = "hello" ->
            f_content f3 = "world" ->
            hashlib hash_type = Some MD5.hexdigest ->
            groups = [(MD5.hexdigest "hello", [p1; p2])]).
Proof.
  intros hashlib directory hash_type w files.
  unfold DuplicateDetector.find_duplicates. fold files. unfold bind.
  destruct (hash_loop_spec hashlib hash_type files [] w) as (w' & Hrun & Hfs).
  rewrite Hrun. unfold ret. eexists. exists w'. split; [reflexivity|].
  split; [exact Hfs|].
  assert (Hgroups : groups_of hashlib (w_fs w) hash_type files
            (fold_left (group_step hashlib (w_fs w) hash_type) files [])).
  { apply (@fold_group_step_groups hashlib hash_type (w_fs w) files [] []).
    split; [constructor | reflexivity]. }
  destruct Hgroups as [Hnd Hget]. unfold PyDict.items.
  split; [|split].
  - unfold PyDict.keys. now apply NoDup_map_fst_filter.
  - intros k paths. rewrite filter_In. simpl. rewrite Nat.ltb_lt. split.
    + intros [Hin Hlen]. apply dict_In_get in Hin; [|exact Hnd].
      rewrite Hget in Hin.
      destruct (filter (has_hash hashlib (w_fs w) hash_type k) files) eqn:Hf;
        [discriminate|].
      injection Hin as <-. split; [reflexivity | lia].
    + intros [-> Hlen]. split; [|lia]. apply dict_get_In. rewrite Hget.
      destruct (filter (has_hash hashlib (w_fs w) hash_type k) files);
        [simpl in Hlen; lia | reflexivity].
  - intros p1 p2 p3 f1 f2 f3 -> L1 L2 L3 R1 R2 R3 C1 C2 C3 Hmd5.
    unfold group_step, FileUtils.calculate_file_hash, Os.read_bytes.
    cbn [fold_left]. rewrite Hmd5, L1, L2, L3, R1, R2, R3, C1, C2, C3.
    cbn [rbind]. rewrite md5_hello, md5_world. reflexivity.
Qed.

(** The scenario of C1 on a concrete directory. *)
Lemma find_duplicates_groups_witness :
  exists w',
    DuplicateDetector.find_duplicates hashlib_md5 "d" "md5"
      (mkWorld [("d/a", mkFile "hello" 1 1 "text/plain" true true);
                ("d/b", mkFile "hello" 2 2 "text/plain" true true);
                ("d/c", mkFile "world" 3 3 "text/plain" true true)]
               (Logger.init_db 0))
    = Returns [("5d41402abc4b2a76b9719d911017c592", ["d/a"; "d/b"])] w'.
Proof.
  destruct (find_duplicates_groups hashlib_md5 "d" "md5"
              (mkWorld [("d/a", mkFile "hello" 1 1 "text/plain" true true);
                        ("d/b", mkFile "hello" 2 2 "text/plain" true true);
                        ("d/c", mkFile "world" 3 3 "text/plain" true true)]
                       (Logger.init_db 0)))
    as (groups & w' & Hrun & _ & _ & _ & Hscenario).
  exists w'. rewrite Hrun. f_equal.
  rewrite (Hscenario "d/a" "d/b" "d/c" _ _ _ eq_refl eq_refl eq_refl eq_refl
             eq_refl eq_refl eq_refl eq_refl eq_refl eq_refl eq_refl).
  now rewrite md5_hello.
Defined.

(* ================================================================== *)
(** ** organized/document/duplicate_detector.py: statistics *)

Lemma sum_values_set (d : PyDict.dict Z) k v :
  sum_Z (PyDict.values (PyDict.set d k v)) = sum_Z (PyDict.values d) - count_at d k + v.
Proof.
  unfold sum_Z, count_at.
  induction d as [|[k' v'] d IH]; simpl.
  - lia.
  - destruct (String.eqb k' k) eqn:E; simpl.
    + lia.
    + rewrite IH. lia.
Qed.

Lemma add_count_at type_counts ty n ty' :
  count_at (DuplicateDetector.add_count type_counts ty n) ty'
  = count_at type_counts ty' + (if String.eqb ty ty' then n else 0).
Proof.
  unfold DuplicateDetector.add_count, count_at.
  destruct (String.eqb_spec ty ty') as [<- | Hne].
  - destruct (PyDict.get type_counts ty); now rewrite dict_get_set_eq.
  - destruct (PyDict.get type_counts ty); rewrite dict_get_set_ne by assumption; lia.
Qed.

Lemma add_count_contains type_counts ty n ty' :
  PyDict.contains (DuplicateDetector.add_count type_counts ty n) ty'
  = PyDict.contains type_counts ty' || String.eqb ty ty'.
Proof.
  unfold DuplicateDetector.add_count, PyDict.contains.
  destruct (String.eqb_spec ty ty') as [<- | Hne].
  - destruct (PyDict.get type_counts ty); now rewrite dict_get_set_eq.
  - destruct (PyDict.get type_counts ty); rewrite dict_get_set_ne by assumption;
      now rewrite orb_false_r.
Qed.

Lemma add_count_sum type_counts ty n :
  sum_Z (PyDict.values (DuplicateDetector.add_count type_counts ty n))
  = sum_Z (PyDict.values type_counts) + n.
Proof.
  unfold DuplicateDetector.add_count.
  destruct (PyDict.get type_counts ty) eqn:G; rewrite sum_values_set;
    unfold count_at; rewrite G; lia.
Qed.

(** C7, as stated, fails: [analyze_duplicates] does not return on every
    mapping.  When the first member of a group is no longer there, as d/a
    here, [os.path.getsize] raises and the call raises with it. *)
Lemma analyze_duplicates_missing_member_counterexample :
  ~ (exists st,
       DuplicateDetector.analyze_duplicates
         [("d/b", mkFile "hello" 2 2 "text/plain" true true)]
         [("h1", ["d/a"; "d/b"])]
       = Ok st).
Proof. intros [st Hrun]. vm_compute in Hrun. discriminate Hrun. Qed.

Section AnalyzeFacts.

Variable fs : filesystem.

Lemma sum_space_spec groups :
  Forall (inspectable fs) groups ->
  DuplicateDetector.sum_space fs groups
  = Ok (sum_Z (map (fun files =>
                      representative_size fs files
                      * (DuplicateDetector.len files - 1)) groups)).
Proof.
  induction 1 as [|files groups (f & rest & x & -> & Hf & _) _ IH]; simpl; auto.
  unfold Os.getsize, Os.stat. rewrite Hf. simpl. now rewrite IH.
Qed.

Lemma sum_space_nonneg groups :
  Forall (inspectable fs) groups ->
  0 <= sum_Z (map (fun files =>
                     representative_size fs files
                     * (DuplicateDetector.len files - 1)) groups).
Proof.
  induction 1 as [|files groups (f & rest & x & -> & Hf & _) _ IH];
    cbn [map sum_Z fold_right representative_size]; [lia|].
  rewrite Hf. unfold Os.st_size, DuplicateDetector.len.
  cbn [List.length]. rewrite Nat2Z.inj_succ.
  apply Z.add_nonneg_nonneg; [|exact IH].
  apply Z.mul_nonneg_nonneg; lia.
Qed.

Lemma count_types_spec groups :
  Forall (inspectable fs) groups ->
  forall type_counts,
  exists types,
    DuplicateDetector.count_types fs groups type_counts = Ok types
    /\ (forall ty,
          count_at types ty
          = count_at type_counts ty
            + extra_members (filter (has_type fs ty) groups))
    /\ (forall ty,
          PyDict.contains types ty
          = PyDict.contains type_counts ty || existsb (has_type fs ty) groups)
    /\ sum_Z (PyDict.values types)
       = sum_Z (PyDict.values type_counts) + extra_members groups.
Proof.
  induction 1 as [|files groups (f & rest & x & -> & Hf & Hr) _ IH];
    intros type_counts.
  - exists type_counts. simpl. unfold extra_members. simpl.
    repeat split; intros; try lia. now rewrite orb_false_r.
  - cbn [DuplicateDetector.count_types DuplicateDetector.first rbind].
    unfold FileUtils.get_file_type at 1. rewrite Hf, Hr. cbn [rbind].
    destruct (IH (DuplicateDetector.add_count type_counts (f_mime x)
                    (DuplicateDetector.len (f :: rest) - 1)))
      as (types & Hrun & Hcount & Hkeys & Hsum).
    exists types. split; [exact Hrun|].
    assert (Hty : forall ty, has_type fs ty (f :: rest) = String.eqb (f_mime x) ty).
    { intros ty. unfold has_type, representative_type.
      now rewrite Hf, Hr. }
    repeat split.
    + intros ty. rewrite Hcount, add_count_at. cbn [filter]. rewrite Hty.
      destruct (String.eqb (f_mime x) ty); unfold extra_members; simpl; lia.
    + intros ty. rewrite Hkeys, add_count_contains. cbn [existsb]. rewrite Hty.
      now rewrite orb_assoc.
    + rewrite Hsum, add_count_sum. unfold extra_members. simpl. lia.
Qed.

(** C7, amended.  On a mapping whose groups each have a first member that
    exists and can be read, [analyze_duplicates] returns: the number of groups;
    as number of duplicate files the sum of (group size - 1); as space that
    can be reclaimed the sum of (group size - 1) times the size of the first
    member, which is never negative; and per detected type of the first
    member of a group (the proxy of the copy that stays) the sum of
    (group size - 1) over the groups of that type, these counts adding up
    to the number of duplicate files. *)
Theorem analyze_duplicates_stats :
  forall duplicates : PyDict.dict (list string),
    Forall (inspectable fs) (PyDict.values duplicates) ->
    exists st,
      DuplicateDetector.analyze_duplicates fs duplicates = Ok st
      /\ DuplicateDetector.total_duplicate_groups st
         = Z.of_nat (List.length duplicates)
      /\ DuplicateDetector.total_duplicate_files st
         = extra_members (PyDict.values duplicates)
      /\ DuplicateDetector.potential_space_saved st
         = sum_Z (map (fun files =>
                         (DuplicateDetector.len files - 1)
                         * representative_size fs files)
                      (PyDict.values duplicates))
      /\ 0 <= DuplicateDetector.potential_space_saved st
      /\ (forall ty,
            PyDict.get (DuplicateDetector.duplicate_types st) ty
            = if existsb (has_type fs ty) (PyDict.values duplicates)
              then Some (extra_members
                           (filter (has_type fs ty) (PyDict.values duplicates)))
              else None)
      /\ sum_Z (PyDict.values (DuplicateDetector.duplicate_types st))
         = DuplicateDetector.total_duplicate_files st.
Proof.
  intros duplicates Hok.
  unfold DuplicateDetector.analyze_duplicates,
    DuplicateDetector._get_duplicate_types.
  rewrite (sum_space_spec Hok). cbn [rbind].
  destruct (count_types_spec Hok []) as (types & -> & Hcount & Hkeys & Hsum).
  cbn [rbind]. eexists. split; [reflexivity|]. simpl.
  repeat split.
  - unfold DuplicateDetector.len, PyDict.keys. now rewrite length_map.
  - f_equal. apply map_ext. intros files. lia.
  - now apply sum_space_nonneg.
  - intros ty. specialize (Hcount ty). specialize (Hkeys ty).
    unfold count_at, PyDict.contains in *. simpl in *.
    destruct (PyDict.get types ty);
      destruct (existsb (has_type fs ty) (PyDict.values duplicates));
      try discriminate; auto.
    f_equal. lia.
  - rewrite Hsum. simpl. reflexivity.
Qed.

End AnalyzeFacts.

(** C7 on two groups: three copies of a five-byte text and two copies of an
    eight-byte PDF. *)
Lemma analyze_duplicates_stats_witness :
  exists st,
    DuplicateDetector.analyze_duplicates
      [("d/a", mkFile "hello" 1 1 "text/plain" true true);
       ("d/b", mkFile "hello" 2 2 "text/plain" true true);
       ("d/c", mkFile "hello" 3 3 "text/plain" true true);
       ("d/x.pdf", mkFile "%PDF-1.4" 4 4 "application/pdf" true true);
       ("d/y.pdf", mkFile "%PDF-1.4" 5 5 "application/pdf" true true)]
      [("h1", ["d/a"; "d/b"; "d/c"]); ("h2", ["d/x.pdf"; "d/y.pdf"])]
    = Ok st
    /\ DuplicateDetector.total_duplicate_groups st = 2
    /\ DuplicateDetector.total_duplicate_files st = 3
    /\ DuplicateDetector.potential_space_saved st = 18
    /\ PyDict.get (DuplicateDetector.duplicate_types st) "text/plain" = Some 2
    /\ PyDict.get (DuplicateDetector.duplicate_types st) "application/pdf"
       = Some 1
    /\ PyDict.get (DuplicateDetector.duplicate_types st) "image/png" = None.
Proof.
  destruct (@analyze_duplicates_stats
              [("d/a", mkFile "hello" 1 1 "text/plain" true true);
               ("d/b", mkFile "hello" 2 2 "text/plain" true true);
               ("d/c", mkFile "hello" 3 3 "text/plain" true true);
               ("d/x.pdf", mkFile "%PDF-1.4" 4 4 "application/pdf" true true);
               ("d/y.pdf", mkFile "%PDF-1.4" 5 5 "application/pdf" true true)]
              [("h1", ["d/a"; "d/b"; "d/c"]); ("h2", ["d/x.pdf"; "d/y.pdf"])])
    as (st & Hrun & Hgroups & Hfiles & Hspace & _ & Htypes & _).
  - repeat constructor; repeat eexists; reflexivity.
  - exists st. rewrite Hgroups, Hfiles, Hspace, !Htypes.
    repeat split. exact Hrun.
Defined.

(* ================================================================== *)
(** ** sorted: permutation, head and stability *)

Section SortedFacts.

Variable A : Type.
Variable reverse : bool.
Implicit Types (l : list (Z * A)) (x y : Z * A).

Lemma insert_perm x l : Permutation (PySorted.insert reverse x l) (x :: l).
Proof.
  induction l as [|y l IH]; simpl; auto.
  destruct (PySorted.before reverse (fst x) (fst y)); auto.
  rewrite IH. apply perm_swap.
Qed.

Lemma sort_perm l : Permutation (PySorted.sort reverse l) l.
Proof.
  induction l as [|x l IH]; simpl; auto.
  rewrite insert_perm. now constructor.
Qed.

Lemma before_true k1 k2 :
  PySorted.before reverse k1 k2 = true -> not_worse reverse k1 k2.
Proof.
  unfold PySorted.before, not_worse. destruct reverse; apply Z.leb_le.
Qed.

Lemma before_false k1 k2 :
  PySorted.before reverse k1 k2 = false -> better reverse k2 k1.
Proof.
  unfold PySorted.before, better. destruct reverse; apply Z.leb_gt.
Qed.

Lemma not_worse_trans k1 k2 k3 :
  not_worse reverse k1 k2 -> not_worse reverse k2 k3 -> not_worse reverse k1 k3.
Proof. unfold not_worse. destruct reverse; lia. Qed.

Lemma better_not_worse k1 k2 : better reverse k1 k2 -> not_worse reverse k1 k2.
Proof. unfold better, not_worse. destruct reverse; lia. Qed.

Lemma not_worse_refl k : not_worse reverse k k.
Proof. unfold not_worse. destruct reverse; lia. Qed.

(** The head of the sorted list is the first extreme element of the input. *)
Lemma sort_head l x rest :
  PySorted.sort reverse l = x :: rest -> first_extreme reverse fst l x.
Proof.
  revert x rest. induction l as [|a l IH]; intros x rest; simpl; [discriminate|].
  destruct (PySorted.sort reverse l) as [|y sorted] eqn:Hsorted; simpl.
  - intros [= <- <-].
    assert (l = []) as ->.
    { apply Permutation_nil. rewrite <- Hsorted. apply sort_perm. }
    exists [], []. repeat split; constructor.
  - destruct (IH y sorted eq_refl) as (before & after & -> & Hbefore & Hafter).
    destruct (PySorted.before reverse (fst a) (fst y)) eqn:Hcmp.
    + intros [= <- <-]. apply before_true in Hcmp.
      exists [], (before ++ y :: after). repeat split; [constructor|].
      apply Forall_app. split.
      * eapply Forall_impl; [|exact Hbefore]. intros z Hz. simpl in Hz.
        eapply not_worse_trans; [exact Hcmp|]. now apply better_not_worse.
      * constructor; [exact Hcmp|].
        eapply Forall_impl; [|exact Hafter]. intros z Hz. simpl in Hz.
        eapply not_worse_trans; eauto.
    + intros [= <- <-]. apply before_false in Hcmp.
      exists (a :: before), after. repeat split; auto.
Qed.

End SortedFacts.

Section SortedByKey.

Variable A : Type.
Variable key : A -> result Z.
Variable kf : A -> Z.

Lemma rmap_decorate (l : list A) :
  (forall x, In x l -> key x = Ok (kf x)) ->
  rmap (fun x => rbind (key x) (fun k => Ok (k, x))) l = Ok (decorate kf l).
Proof.
  induction l as [|a l IH]; intros Hkey; simpl; auto.
  rewrite (Hkey a) by now left. simpl.
  rewrite IH by (intros; apply Hkey; now right). reflexivity.
Qed.

Lemma first_extreme_decorate reverse (l : list A) (x : Z * A) :
  first_extreme reverse fst (decorate kf l) x ->
  fst x = kf (snd x) /\ first_extreme reverse kf l (snd x).
Proof.
  intros (before & after & Heq & Hbefore & Hafter).
  unfold decorate in Heq.
  apply map_eq_app in Heq. destruct Heq as (l1 & l2' & -> & <- & Heq).
  apply map_eq_cons in Heq. destruct Heq as (a & l2 & -> & <- & <-).
  simpl. split; [reflexivity|].
  exists l1, l2. repeat split.
  - rewrite Forall_map in Hbefore. exact Hbefore.
  - rewrite Forall_map in Hafter. exact Hafter.
Qed.

(** [sorted] on a list whose keys can all be read: it returns a permutation
    of the list, headed by its first extreme element. *)
Lemma sorted_spec reverse (l : list A) :
  (forall x, In x l -> key x = Ok (kf x)) ->
  exists sorted_l,
    PySorted.sorted key reverse l = Ok sorted_l
    /\ Permutation sorted_l l
    /\ (forall x rest, sorted_l = x :: rest -> first_extreme reverse kf l x).
Proof.
  intros Hkey. unfold PySorted.sorted. rewrite (rmap_decorate l Hkey). simpl.
  eexists. split; [reflexivity|]. split.
  - rewrite (sort_perm reverse (decorate kf l)). unfold decorate.
    rewrite map_map. simpl. now rewrite map_id.
  - intros x rest Heq.
    destruct (PySorted.sort reverse (decorate kf l)) as [|y sorted] eqn:Hs;
      [discriminate|].
    simpl in Heq. injection Heq as <- <-.
    apply sort_head in Hs. now apply first_extreme_decorate in Hs.
Qed.

(** A key that cannot be read makes [sorted] raise. *)
Lemma sorted_raises reverse (l : list A) (x : A) (e : exn) :
  In x l -> key x = Raise e ->
  exists e', PySorted.sorted key reverse l = Raise e'.
Proof.
  intros Hin Hx. unfold PySorted.sorted.
  assert (H : exists e', rmap (fun x => rbind (key x) (fun k => Ok (k, x))) l
                         = Raise e').
  { induction l as [|a l IH]; [contradiction|]. simpl.
    destruct (key a) as [k|e0] eqn:Ha; simpl; [|eauto].
    destruct Hin as [-> | Hin]; [congruence|].
    destruct (IH Hin) as [e' ->]. simpl. eauto. }
  destruct H as [e' ->]. simpl. eauto.
Qed.

End SortedByKey.

(* ================================================================== *)
(** ** organized/document/duplicate_detector.py: which copy stays *)

Lemma lookup_unlink fs p q :
  lookup (Os.unlink fs p) q = if String.eqb p q then None else lookup fs q.
Proof.
  unfold Os.unlink. induction fs as [|[r f] fs IH]; simpl.
  - now destruct (String.eqb p q).
  - destruct (String.eqb_spec r p) as [-> | Hrp]; simpl.
    + rewrite IH. destruct (String.eqb_spec p q); auto.
    + rewrite IH. destruct (String.eqb_spec r q) as [-> | Hrq]; auto.
      destruct (String.eqb_spec p q); congruence.
Qed.

Lemma valid_strategy_cases keep_strategy :
  valid_strategy keep_strategy ->
  keep_strategy = "newest" \/ keep_strategy = "oldest"
  \/ keep_strategy = "largest" \/ keep_strategy = "smallest".
Proof. unfold valid_strategy. simpl. intuition auto. Qed.

(** For a strategy the code knows, the chain of tests amounts to one stable
    sort on the key of the strategy. *)
Lemma sort_by_strategy_valid fs keep_strategy file_paths :
  valid_strategy keep_strategy ->
  DuplicateDetector.sort_by_strategy fs keep_strategy file_paths
  = PySorted.sorted
      (fun p => rbind (Os.stat fs p) (fun f => Ok (key_of keep_strategy f)))
      (reversed keep_strategy) file_paths.
Proof.
  intros H. apply valid_strategy_cases in H.
  destruct H as [-> | [-> | [-> | ->]]]; reflexivity.
Qed.

Lemma stat_key fs keep_strategy p :
  exists_file fs p = true ->
  rbind (Os.stat fs p) (fun f => Ok (key_of keep_strategy f))
  = Ok (strategy_key fs keep_strategy p).
Proof.
  unfold exists_file, Os.stat, strategy_key.
  destruct (lookup fs p); [reflexivity | discriminate].
Qed.

(** The sorted group is a permutation of the group and its head, the copy
    that stays, is the first extreme member. *)
Lemma sort_by_strategy_spec fs keep_strategy file_paths :
  valid_strategy keep_strategy ->
  (forall p, In p file_paths -> exists_file fs p = true) ->
  exists sorted_files,
    DuplicateDetector.sort_by_strategy fs keep_strategy file_paths = Ok sorted_files
    /\ Permutation sorted_files file_paths
    /\ (forall keep_file rest,
          sorted_files = keep_file :: rest ->
          first_extreme (reversed keep_strategy)
                        (strategy_key fs keep_strategy) file_paths keep_file).
Proof.
  intros Hvalid Hexists. rewrite sort_by_strategy_valid by assumption.
  apply sorted_spec. intros p Hp. apply stat_key. now apply Hexists.
Qed.

Lemma sort_by_strategy_ext fs fs' keep_strategy file_paths :
  (forall p, In p file_paths -> lookup fs' p = lookup fs p) ->
  DuplicateDetector.sort_by_strategy fs' keep_strategy file_paths
  = DuplicateDetector.sort_by_strategy fs keep_strategy file_paths.
Proof.
  intros Hsame.
  assert (Hkey : forall (key : file -> Z) reverse,
             PySorted.sorted (fun p => rbind (Os.stat fs' p) (fun f => Ok (key f)))
                             reverse file_paths
             = PySorted.sorted (fun p => rbind (Os.stat fs p) (fun f => Ok (key f)))
                               reverse file_paths).
  { intros key reverse. unfold PySorted.sorted. f_equal.
    induction file_paths as [|p l IH]; simpl; auto.
    unfold Os.stat at 1 3. rewrite Hsame by now left.
    rewrite IH by (intros; apply Hsame; now right). reflexivity. }
  unfold DuplicateDetector.sort_by_strategy, Os.getmtime, Os.getsize.
  now rewrite !Hkey.
Qed.

(** One turn of the removal loop: it never raises; a deletion that goes
    through is recorded as a success and added to the list, one that fails
    is recorded as a failure and changes neither the files nor the list. *)
Lemma remove_one_spec keep_file removed_files p w :
  (deletable (w_fs w) p = true
   /\ DuplicateDetector.remove_one keep_file removed_files p w
      = Returns (removed_files ++ [p])
          (mkWorld (Os.unlink (w_fs w) p)
             (Logger.insert_operation (w_db w) "duplicate_removal" p None
                "success" ("Kept file: " ++ keep_file)%string)))
  \/ (deletable (w_fs w) p = false
      /\ exists e,
           DuplicateDetector.remove_one keep_file removed_files p w
           = Returns removed_files
               (mkWorld (w_fs w)
                  (Logger.insert_operation (w_db w) "duplicate_removal" p None
                     "failure" (exn_str e)))).
Proof.
  unfold DuplicateDetector.remove_one, try_except, bind, Os.remove, deletable.
  destruct (lookup (w_fs w) p) as [f|].
  - destruct (f_deletable f).
    + left. split; reflexivity.
    + right. split; [reflexivity|]. eexists. reflexivity.
  - right. split; [reflexivity|]. eexists. reflexivity.
Qed.



(* ================================================================== *)
(** ** organized/document/duplicate_detector.py: the removal loops *)

Lemma existsb_eqb_In (q : string) (l : list string) :
  existsb (String.eqb q) l = true <-> In q l.
Proof.
  rewrite existsb_exists. split.
  - intros (x & Hx & E). apply String.eqb_eq in E. now subst.
  - intros H. exists q. split; [assumption | apply String.eqb_refl].
Qed.

Lemma existsb_eqb_not_In (q : string) (l : list string) :
  existsb (String.eqb q) l = false <-> ~ In q l.
Proof.
  rewrite <- existsb_eqb_In. destruct (existsb (String.eqb q) l); split;
    congruence.
Qed.

Lemma deletable_unlink fs p q :
  p <> q -> deletable (Os.unlink fs p) q = deletable fs q.
Proof.
  intros Hne. unfold deletable. rewrite lookup_unlink.
  destruct (String.eqb_spec p q); [contradiction | reflexivity].
Qed.

(** The loop over [sorted_files[1:]], whatever the files and the list: it
    never raises, writes one row per member in order, each a success or a
    failure, and extends the list by the paths of the successes; these are
    gone afterwards and no other file is touched. *)
Lemma remove_loop_general keep_file rest :
  forall removed_files w,
  exists removed' w' new,
    for_each rest (DuplicateDetector.remove_one keep_file) removed_files w
    = Returns removed' w'
    /\ operations (w_db w') = operations (w_db w) ++ new
    /\ map source_path new = rest
    /\ Forall removal_entry new
    /\ removed' = removed_files ++ map source_path (filter is_success new)
    /\ (forall q, ~ In q rest -> lookup (w_fs w') q = lookup (w_fs w) q)
    /\ (forall q, lookup (w_fs w) q = None -> lookup (w_fs w') q = None)
    /\ (forall q, In q (map source_path (filter is_success new)) ->
                  lookup (w_fs w') q = None)
    /\ (forall q, In q (map source_path (filter is_success new))
                  <-> In q rest /\ deletable (w_fs w) q = true).
Proof.
  induction rest as [|p rest IH]; intros removed_files w.
  - exists removed_files, w, []. simpl. unfold ret.
    repeat split; auto using app_nil_r; try tauto.
  - cbn [for_each]. unfold bind at 1.
    destruct (remove_one_spec keep_file removed_files p w)
      as [[Hdel Hrun] | [Hdel [e Hrun]]]; rewrite Hrun;
      match goal with
      | |- context [for_each rest _ ?r ?w1] =>
          destruct (IH r w1)
            as (removed' & w' & new & Hloop & Hops & Hsrc & Hent & Hrem
                & Hout & Hgone & Hsucc & Hiff)
      end;
      rewrite Hloop; simpl in Hops, Hout, Hgone, Hiff.
    + exists removed', w'.
      eexists (mkOperation _ _ "duplicate_removal" p None "success" _ :: new).
      split; [reflexivity|]. split.
      { rewrite Hops, <- app_assoc. reflexivity. }
      split; [simpl; now rewrite Hsrc|]. split.
      { constructor; [|assumption]. unfold removal_entry. simpl. auto. }
      split.
      { rewrite Hrem. simpl. now rewrite <- app_assoc. }
      split.
      { intros q Hq. rewrite Hout by (intros H; apply Hq; now right).
        rewrite lookup_unlink. destruct (String.eqb_spec p q); auto.
        subst. exfalso. apply Hq. now left. }
      split.
      { intros q Hq. apply Hgone. rewrite lookup_unlink, Hq.
        now destruct (String.eqb p q). }
      split.
      { intros q [<- | Hq]; [|now apply Hsucc].
        apply Hgone. rewrite lookup_unlink. now rewrite String.eqb_refl. }
      intros q. simpl. rewrite Hiff. split.
      * intros [<- | [Hq Hdq]]; [split; [now left | exact Hdel]|].
        assert (Hne : p <> q).
        { intros ->. unfold deletable in Hdq.
          rewrite lookup_unlink, String.eqb_refl in Hdq. discriminate. }
        rewrite deletable_unlink in Hdq by exact Hne. split; [now right | exact Hdq].
      * intros [[<- | Hq] Hdq]; [now left|].
        destruct (string_dec p q) as [<- | Hne]; [now left|].
        right. split; [exact Hq|]. now rewrite deletable_unlink.
    + exists removed', w'.
      eexists (mkOperation _ _ "duplicate_removal" p None "failure" _ :: new).
      split; [reflexivity|]. split.
      { rewrite Hops, <- app_assoc. reflexivity. }
      split; [simpl; now rewrite Hsrc|]. split.
      { constructor; [|assumption]. unfold removal_entry. simpl. auto. }
      split; [exact Hrem|]. split.
      { intros q Hq. apply Hout. intros H. apply Hq. now right. }
      split; [exact Hgone|]. split; [exact Hsucc|].
      intros q. simpl. rewrite Hiff. split.
      * intros [Hq Hdq]. split; [now right | exact Hdq].
      * intros [[<- | Hq] Hdq]; [congruence | auto].
Qed.

(** The same loop over distinct paths: a member is removed exactly when it
    can be deleted in the file system the loop starts from. *)
Lemma remove_loop_precise keep_file rest :
  NoDup rest ->
  forall removed_files w,
  exists w' new,
    for_each rest (DuplicateDetector.remove_one keep_file) removed_files w
    = Returns (removed_files ++ filter (deletable (w_fs w)) rest) w'
    /\ operations (w_db w') = operations (w_db w) ++ new
    /\ map logged new = map (fun p => (p, removal_status (w_fs w) p)) rest
    /\ Forall removal_entry new
    /\ (forall q, lookup (w_fs w') q
                  = if removed_by (w_fs w) rest q then None
                    else lookup (w_fs w) q).
Proof.
  induction 1 as [|p rest Hnotin Hnd IH]; intros removed_files w.
  - exists w, []. simpl. unfold ret. rewrite app_nil_r.
    repeat split; auto using app_nil_r.
  - cbn [for_each]. unfold bind at 1.
    destruct (remove_one_spec keep_file removed_files p w)
      as [[Hdel Hrun] | [Hdel [e Hrun]]]; rewrite Hrun;
      match goal with
      | |- context [for_each rest _ ?r ?w1] =>
          destruct (IH r w1) as (w' & new & Hloop & Hops & Hlog & Hent & Hfs)
      end;
      rewrite Hloop; simpl in Hops, Hlog, Hfs, Hloop |- *; rewrite Hdel.
    + assert (Hsame : forall q, In q rest ->
                deletable (Os.unlink (w_fs w) p) q = deletable (w_fs w) q).
      { intros q Hq. apply deletable_unlink. congruence. }
      exists w'.
      eexists (mkOperation _ _ "duplicate_removal" p None "success" _ :: new).
      split.
      { f_equal. rewrite <- app_assoc. simpl. do 2 f_equal.
        now apply filter_ext_in. }
      split; [rewrite Hops, <- app_assoc; reflexivity|].
      split.
      { simpl. unfold logged at 1, removal_status at 1. simpl. rewrite Hdel.
        f_equal. rewrite Hlog. apply map_ext_in. intros q Hq.
        unfold removal_status. now rewrite Hsame. }
      split.
      { constructor; [|assumption]. unfold removal_entry. simpl. auto. }
      intros q. rewrite Hfs. unfold removed_by. simpl.
      rewrite lookup_unlink. rewrite (String.eqb_sym q p).
      destruct (String.eqb_spec p q) as [<- | Hne].
      * simpl. rewrite Hdel. now destruct (existsb _ _ && _).
      * simpl. rewrite deletable_unlink by assumption. reflexivity.
    + exists w'.
      eexists (mkOperation _ _ "duplicate_removal" p None "failure" _ :: new).
      split; [reflexivity|].
      split; [rewrite Hops, <- app_assoc; reflexivity|].
      split.
      { simpl. unfold logged at 1, removal_status at 1. simpl. rewrite Hdel.
        now rewrite Hlog. }
      split.
      { constructor; [|assumption]. unfold removal_entry. simpl. auto. }
      intros q. rewrite Hfs. unfold removed_by. simpl.
      rewrite (String.eqb_sym q p).
      destruct (String.eqb_spec p q) as [<- | Hne]; simpl; auto.
      rewrite Hdel. now rewrite andb_false_r.
Qed.

Lemma rmap_decorate_inv {A} (key : A -> result Z) (l : list A) decorated :
  rmap (fun x => rbind (key x) (fun k => Ok (k, x))) l = Ok decorated ->
  map snd decorated = l.
Proof.
  revert decorated. induction l as [|a l IH]; intros decorated; simpl.
  - now intros [= <-].
  - destruct (key a) as [k|e]; simpl; [|discriminate].
    destruct (rmap _ l) as [d|e]; simpl; [|discriminate].
    intros [= <-]. simpl. now rewrite (IH d eq_refl).
Qed.

Lemma sorted_perm_ok {A} (key : A -> result Z) reverse (l sorted_l : list A) :
  PySorted.sorted key reverse l = Ok sorted_l -> Permutation sorted_l l.
Proof.
  unfold PySorted.sorted.
  destruct (rmap _ l) as [d|e] eqn:Hd; simpl; [|discriminate].
  intros [= <-]. apply rmap_decorate_inv in Hd. rewrite <- Hd.
  apply Permutation_map, sort_perm.
Qed.

Lemma sort_by_strategy_perm fs keep_strategy file_paths sorted_files :
  DuplicateDetector.sort_by_strategy fs keep_strategy file_paths = Ok sorted_files ->
  Permutation sorted_files file_paths.
Proof.
  unfold DuplicateDetector.sort_by_strategy.
  repeat match goal with
         | |- context [if ?b then _ else _] => destruct b
         end;
    try discriminate; apply sorted_perm_ok.
Qed.

Lemma candidates_incl fs keep_strategy group q :
  In q (candidates fs keep_strategy group) -> In q group.
Proof.
  unfold candidates. destruct (List.length group <=? 1)%nat; [contradiction|].
  destruct (DuplicateDetector.sort_by_strategy fs keep_strategy group)
    as [[|keep_file rest]|e] eqn:Hsort; try contradiction.
  intros Hq. apply sort_by_strategy_perm in Hsort.
  eapply Permutation_in; [exact Hsort | now right].
Qed.

Lemma candidates_ext fs fs' keep_strategy group :
  (forall p, In p group -> lookup fs' p = lookup fs p) ->
  candidates fs' keep_strategy group = candidates fs keep_strategy group.
Proof.
  intros Hsame. unfold candidates.
  now rewrite (@sort_by_strategy_ext fs fs' keep_strategy group Hsame).
Qed.

Lemma all_candidates_incl fs keep_strategy duplicates q :
  In q (all_candidates fs keep_strategy duplicates) -> In q (members duplicates).
Proof.
  unfold all_candidates, members, PyDict.values.
  rewrite in_flat_map, in_concat.
  intros ([h group] & Hin & Hq). simpl in Hq.
  exists group. split; [|eapply candidates_incl; eauto].
  change group with (snd (h, group)). now apply in_map.
Qed.

Lemma all_candidates_ext fs fs' keep_strategy duplicates :
  (forall p, In p (members duplicates) -> lookup fs' p = lookup fs p) ->
  all_candidates fs' keep_strategy duplicates
  = all_candidates fs keep_strategy duplicates.
Proof.
  unfold all_candidates, members, PyDict.values.
  induction duplicates as [|[h group] duplicates IH]; intros Hsame; simpl; auto.
  simpl in Hsame.
  rewrite (@candidates_ext fs fs' keep_strategy group)
    by (intros; apply Hsame; apply in_or_app; now left).
  rewrite IH by (intros; apply Hsame; apply in_or_app; now right).
  reflexivity.
Qed.

(** One group of distinct paths: either sorting raises, and nothing has
    happened, or the members after the head of the sorted group are tried
    one by one. *)
Lemma remove_group_spec keep_strategy removed_files file_hash group w :
  NoDup group ->
  (exists w' new,
     DuplicateDetector.remove_group keep_strategy removed_files (file_hash, group) w
     = Returns (removed_files
                ++ filter (deletable (w_fs w))
                          (candidates (w_fs w) keep_strategy group)) w'
     /\ operations (w_db w') = operations (w_db w) ++ new
     /\ map logged new
        = map (fun p => (p, removal_status (w_fs w) p))
              (candidates (w_fs w) keep_strategy group)
     /\ Forall removal_entry new
     /\ (forall q, lookup (w_fs w') q
                   = if removed_by (w_fs w)
                          (candidates (w_fs w) keep_strategy group) q
                     then None else lookup (w_fs w) q))
  \/ (exists e,
        DuplicateDetector.remove_group keep_strategy removed_files
          (file_hash, group) w = Raises e w
        /\ (2 <= List.length group)%nat
        /\ DuplicateDetector.sort_by_strategy (w_fs w) keep_strategy group
           = Raise e).
Proof.
  intros Hnd. unfold DuplicateDetector.remove_group, candidates. cbn [snd].
  destruct (List.length group <=? 1)%nat eqn:Hlen.
  - left. exists w, []. unfold ret. simpl. rewrite !app_nil_r.
    repeat split; auto.
  - apply Nat.leb_gt in Hlen. unfold bind, lift.
    destruct (DuplicateDetector.sort_by_strategy (w_fs w) keep_strategy group)
      as [[|keep_file rest]|e] eqn:Hsort.
    + apply sort_by_strategy_perm, Permutation_nil in Hsort. subst.
      simpl in Hlen. lia.
    + left. apply remove_loop_precise.
      apply sort_by_strategy_perm in Hsort.
      apply Permutation_sym in Hsort.
      pose proof (Permutation_NoDup Hsort Hnd) as H. now inversion H.
    + right. exists e. repeat split; auto.
Qed.

Lemma members_cons file_hash group duplicates :
  members ((file_hash, group) :: duplicates) = group ++ members duplicates.
Proof. reflexivity. Qed.

Lemma members_app d1 d2 : members (d1 ++ d2) = members d1 ++ members d2.
Proof.
  unfold members, PyDict.values. now rewrite map_app, concat_app.
Qed.

Lemma in_members file_hash group duplicates q :
  In (file_hash, group) duplicates -> In q group -> In q (members duplicates).
Proof.
  intros Hin Hq. unfold members, PyDict.values. apply in_concat.
  exists group. split; [|assumption].
  change group with (snd (file_hash, group)). now apply in_map.
Qed.

Lemma deletable_same fs fs' q :
  lookup fs' q = lookup fs q -> deletable fs' q = deletable fs q.
Proof. unfold deletable. now intros ->. Qed.

Lemma removed_by_app fs a b q :
  removed_by fs (a ++ b) q = removed_by fs a q || removed_by fs b q.
Proof.
  unfold removed_by. rewrite existsb_app.
  destruct (existsb _ a), (existsb _ b), (deletable fs q); reflexivity.
Qed.

Lemma removed_by_not_in fs tried q : ~ In q tried -> removed_by fs tried q = false.
Proof.
  intros H. unfold removed_by. apply existsb_eqb_not_In in H. now rewrite H.
Qed.

Lemma all_candidates_cons fs keep_strategy file_hash group duplicates :
  all_candidates fs keep_strategy ((file_hash, group) :: duplicates)
  = candidates fs keep_strategy group ++ all_candidates fs keep_strategy duplicates.
Proof. reflexivity. Qed.

(** The whole run over a mapping in which no path occurs twice.  The groups
    are processed in order until, possibly, the sorting of one of them
    raises; for the groups processed, every candidate is tried and logged,
    with the status its deletion has in the file system of the start, and
    the files removed are exactly the candidates that can be deleted. *)
Lemma remove_run_spec keep_strategy :
  forall duplicates removed_files w,
    NoDup (members duplicates) ->
    exists processed remaining w' new,
      duplicates = processed ++ remaining
      /\ operations (w_db w') = operations (w_db w) ++ new
      /\ map logged new
         = map (fun p => (p, removal_status (w_fs w) p))
               (all_candidates (w_fs w) keep_strategy processed)
      /\ Forall removal_entry new
      /\ (forall q, lookup (w_fs w') q
                    = if removed_by (w_fs w)
                           (all_candidates (w_fs w) keep_strategy processed) q
                      then None else lookup (w_fs w) q)
      /\ ((remaining = []
           /\ for_each duplicates (DuplicateDetector.remove_group keep_strategy)
                removed_files w
              = Returns (removed_files
                         ++ filter (deletable (w_fs w))
                              (all_candidates (w_fs w) keep_strategy processed))
                        w')
          \/ (exists e file_hash group rest,
                remaining = (file_hash, group) :: rest
                /\ for_each duplicates
                     (DuplicateDetector.remove_group keep_strategy)
                     removed_files w = Raises e w'
                /\ (2 <= List.length group)%nat
                /\ DuplicateDetector.sort_by_strategy (w_fs w) keep_strategy group
                   = Raise e)).
Proof.
  induction duplicates as [|[h g] ds IH]; intros removed_files w Hnd.
  - exists [], [], w, []. simpl. unfold ret. rewrite !app_nil_r.
    repeat split; auto.
  - rewrite members_cons in Hnd.
    pose proof (NoDup_app_remove_r _ _ Hnd) as Hg.
    pose proof (NoDup_app_remove_l _ _ Hnd) as Hds.
    assert (Hdisj : forall q, In q (members ds) -> ~ In q g).
    { intros q Hq Hqg. revert Hnd Hq Hqg. clear.
      induction g as [|a g IHg]; simpl; [tauto|].
      intros Hnd Hq [<- | Hqg].
      - inversion Hnd as [|? ? Hnotin _]; subst. apply Hnotin.
        apply in_or_app. now right.
      - inversion Hnd; subst. eauto. }
    cbn [for_each]. unfold bind.
    destruct (remove_group_spec keep_strategy removed_files h w Hg)
      as [(w1 & new1 & Hrun1 & Hops1 & Hlog1 & Hent1 & Hfs1)
         | (e & Hrun1 & Hlen & Hsort)].
    + rewrite Hrun1.
      destruct (IH (removed_files
                    ++ filter (deletable (w_fs w))
                              (candidates (w_fs w) keep_strategy g)) w1 Hds)
        as (processed & remaining & w' & new & Hsplit & Hops & Hlog & Hent
            & Hfs & Hout).
      assert (Hsame : forall q, In q (members ds) ->
                lookup (w_fs w1) q = lookup (w_fs w) q).
      { intros q Hq. rewrite Hfs1, removed_by_not_in; auto.
        intros Hc. apply (Hdisj q Hq). eapply candidates_incl; eauto. }
      assert (Hsub : forall q, In q (members processed) -> In q (members ds)).
      { intros q Hq. rewrite Hsplit, members_app. apply in_or_app. now left. }
      assert (Hcand : all_candidates (w_fs w1) keep_strategy processed
                      = all_candidates (w_fs w) keep_strategy processed).
      { apply all_candidates_ext. intros p Hp. apply Hsame. auto. }
      rewrite Hcand in *.
      set (c1 := candidates (w_fs w) keep_strategy g) in *.
      set (c2 := all_candidates (w_fs w) keep_strategy processed) in *.
      assert (Hc2 : forall q, In q c2 -> In q (members ds)).
      { intros q Hq. apply Hsub. eapply all_candidates_incl; eauto. }
      exists ((h, g) :: processed), remaining, w', (new1 ++ new).
      split; [simpl; now rewrite Hsplit|].
      split; [rewrite Hops, Hops1; now rewrite app_assoc|].
      split.
      { rewrite all_candidates_cons. fold c1 c2.
        rewrite !map_app, Hlog1, Hlog. f_equal.
        apply map_ext_in. intros q Hq. unfold removal_status.
        rewrite (deletable_same (w_fs w) (w_fs w1)); auto. }
      split; [apply Forall_app; now split|].
      split.
      { intros q. rewrite all_candidates_cons. fold c1 c2.
        rewrite Hfs, removed_by_app.
        destruct (in_dec string_dec q c2) as [Hin | Hnotin].
        - rewrite (@removed_by_not_in (w_fs w) c1 q)
            by (intros Hc; apply (Hdisj q (Hc2 q Hin));
                eapply candidates_incl; eauto).
          simpl. unfold removed_by.
          rewrite (deletable_same (w_fs w) (w_fs w1)) by auto.
          now rewrite Hsame by auto.
        - rewrite (@removed_by_not_in (w_fs w1) c2 q) by assumption.
          rewrite (@removed_by_not_in (w_fs w) c2 q) by assumption.
          rewrite orb_false_r. apply Hfs1. }
      destruct Hout as [[-> Hret] | (e & h' & g' & rest & -> & Hraise & Hlen & Hsort)].
      * left. split; [reflexivity|]. rewrite Hret. f_equal.
        rewrite all_candidates_cons. fold c1 c2.
        rewrite filter_app, <- app_assoc. do 2 f_equal.
        apply filter_ext_in. intros q Hq. apply deletable_same. auto.
      * right. exists e, h', g', rest.
        split; [reflexivity|]. split; [exact Hraise|]. split; [exact Hlen|].
        rewrite <- Hsort. symmetry. apply sort_by_strategy_ext.
        intros p Hp. apply Hsame. rewrite Hsplit, members_app.
        apply in_or_app. right. rewrite members_cons. apply in_or_app. now left.
    + rewrite Hrun1. exists [], ((h, g) :: ds), w, []. simpl.
      rewrite app_nil_r. repeat split; auto.
      right. exists e, h, g, ds. auto.
Qed.

(* ================================================================== *)
(** ** organized/document/duplicate_detector.py: remove_duplicates *)

(** A file that the removal loop leaves in place is the file it was. *)
Lemma remove_loop_keeps keep_file rest :
  forall removed_files w removed' w',
    for_each rest (DuplicateDetector.remove_one keep_file) removed_files w
    = Returns removed' w' ->
    forall q f, lookup (w_fs w') q = Some f -> lookup (w_fs w) q = Some f.
Proof.
  induction rest as [|p rest IH]; intros removed_files w removed' w' Hrun q f Hq.
  - simpl in Hrun. unfold ret in Hrun. injection Hrun as <- <-. exact Hq.
  - cbn [for_each] in Hrun. unfold bind in Hrun.
    destruct (remove_one_spec keep_file removed_files p w)
      as [[_ Hone] | [_ [e Hone]]]; rewrite Hone in Hrun;
      specialize (IH _ _ _ _ Hrun q f Hq); simpl in IH.
    + rewrite lookup_unlink in IH.
      destruct (String.eqb p q); [discriminate | exact IH].
    + exact IH.
Qed.

(** Sorting a group goes through only when all its members exist. *)
Lemma sort_ok_members fs keep_strategy group sorted_files :
  DuplicateDetector.sort_by_strategy fs keep_strategy group = Ok sorted_files ->
  forall p, In p group -> exists f, lookup fs p = Some f.
Proof.
  intros Hsort p Hp. destruct (lookup fs p) as [f|] eqn:Hf; [eauto|]. exfalso.
  assert (Hm : Os.getmtime fs p = Raise (FileNotFoundError p))
    by (unfold Os.getmtime, Os.stat; now rewrite Hf).
  assert (Hs : Os.getsize fs p = Raise (FileNotFoundError p))
    by (unfold Os.getsize, Os.stat; now rewrite Hf).
  unfold DuplicateDetector.sort_by_strategy in Hsort.
  destruct (String.eqb keep_strategy "newest").
  { destruct (@sorted_raises _ (Os.getmtime fs) true group p _ Hp Hm) as [e' He'].
    congruence. }
  destruct (String.eqb keep_strategy "oldest").
  { destruct (@sorted_raises _ (Os.getmtime fs) false group p _ Hp Hm) as [e' He'].
    congruence. }
  destruct (String.eqb keep_strategy "largest").
  { destruct (@sorted_raises _ (Os.getsize fs) true group p _ Hp Hs) as [e' He'].
    congruence. }
  destruct (String.eqb keep_strategy "smallest").
  { destruct (@sorted_raises _ (Os.getsize fs) false group p _ Hp Hs) as [e' He'].
    congruence. }
  discriminate.
Qed.

(** Sorting a group raises only for a strategy the code does not know or
    for a member that does not exist. *)
Lemma sort_raise_cause fs keep_strategy group e :
  DuplicateDetector.sort_by_strategy fs keep_strategy group = Raise e ->
  ~ valid_strategy keep_strategy
  \/ exists p, In p group /\ lookup fs p = None.
Proof.
  intros Hsort.
  destruct (in_dec string_dec keep_strategy
              ["newest"; "oldest"; "largest"; "smallest"]) as [Hvalid | Hnot];
    [|now left].
  right.
  assert (Hsome : ~ (forall p, In p group -> exists_file fs p = true)).
  { intros Hall.
    destruct (@sort_by_strategy_spec fs keep_strategy group Hvalid Hall)
      as (sorted_files & Hok & _). congruence. }
  clear Hsort. induction group as [|a group IH].
  - exfalso. apply Hsome. intros p [].
  - destruct (lookup fs a) as [f|] eqn:Ha.
    + destruct IH as (p & Hp & Hnone).
      * intros Hall. apply Hsome. intros p [<- | Hp]; [|now apply Hall].
        unfold exists_file. now rewrite Ha.
      * exists p. split; [now right | exact Hnone].
    + exists a. split; [now left | exact Ha].
Qed.

Lemma candidates_short fs keep_strategy group :
  (List.length group < 2)%nat -> candidates fs keep_strategy group = [].
Proof.
  intros Hlen. unfold candidates.
  destruct (Nat.leb_spec (List.length group) 1); [reflexivity | lia].
Qed.

Lemma all_candidates_same fs fs' keep_strategy duplicates :
  (forall h g, In (h, g) duplicates -> (2 <= List.length g)%nat ->
               forall p, In p g -> lookup fs' p = lookup fs p) ->
  all_candidates fs' keep_strategy duplicates
  = all_candidates fs keep_strategy duplicates.
Proof.
  unfold all_candidates.
  induction duplicates as [|[h g] duplicates IH]; intros Hsame; simpl; auto.
  rewrite IH by (intros h' g' Hin; apply (Hsame h' g'); now right).
  f_equal.
  destruct (Nat.lt_ge_cases (List.length g) 2) as [Hshort | Hlong].
  - now rewrite !candidates_short.
  - apply candidates_ext. apply (Hsame h g); [now left | exact Hlong].
Qed.

(** One group, whatever its paths: either sorting raises, and nothing has
    happened, or the members after the head of the sorted group are tried
    one by one, each attempt is logged, and the list grows by the paths
    whose removal went through. *)
Lemma remove_group_general keep_strategy removed_files file_hash group w :
  (exists w' new,
     DuplicateDetector.remove_group keep_strategy removed_files (file_hash, group) w
     = Returns (removed_files ++ map source_path (filter is_success new)) w'
     /\ operations (w_db w') = operations (w_db w) ++ new
     /\ map source_path new = candidates (w_fs w) keep_strategy group
     /\ Forall removal_entry new
     /\ (forall q f, lookup (w_fs w') q = Some f -> lookup (w_fs w) q = Some f)
     /\ (forall q, ~ In q (candidates (w_fs w) keep_strategy group) ->
                   lookup (w_fs w') q = lookup (w_fs w) q)
     /\ (forall q, In q (map source_path (filter is_success new)) ->
                   lookup (w_fs w') q = None)
     /\ ((2 <= List.length group)%nat ->
         exists sorted_files,
           DuplicateDetector.sort_by_strategy (w_fs w) keep_strategy group
           = Ok sorted_files)
     /\ (forall q, In q (map source_path (filter is_success new))
                   <-> In q (candidates (w_fs w) keep_strategy group)
                       /\ deletable (w_fs w) q = true))
  \/ (exists e,
        DuplicateDetector.remove_group keep_strategy removed_files
          (file_hash, group) w = Raises e w
        /\ (2 <= List.length group)%nat
        /\ DuplicateDetector.sort_by_strategy (w_fs w) keep_strategy group
           = Raise e).
Proof.
  unfold DuplicateDetector.remove_group, candidates. cbn [snd].
  destruct (List.length group <=? 1)%nat eqn:Hlen.
  - apply Nat.leb_le in Hlen. left. exists w, []. unfold ret. simpl.
    rewrite !app_nil_r. repeat split; auto; try tauto. intros; lia.
  - apply Nat.leb_gt in Hlen. unfold bind, lift.
    destruct (DuplicateDetector.sort_by_strategy (w_fs w) keep_strategy group)
      as [[|keep_file rest]|e] eqn:Hsort.
    + apply sort_by_strategy_perm, Permutation_nil in Hsort. subst.
      simpl in Hlen. lia.
    + left.
      destruct (remove_loop_general keep_file rest removed_files w)
        as (removed' & w' & new & Hloop & Hops & Hsrc & Hent & Hrem & Hout
            & _ & Hgone & Hiff).
      exists w', new. rewrite Hloop, Hrem.
      split; [reflexivity|]. split; [exact Hops|]. split; [exact Hsrc|].
      split; [exact Hent|]. split.
      { eapply remove_loop_keeps. exact Hloop. }
      split; [exact Hout|]. split; [exact Hgone|].
      split; [|exact Hiff].
      intros _. eexists. reflexivity.
    + right. exists e. repeat split; auto.
Qed.

(** The whole run, on any mapping: the groups are processed in order until
    the sorting of one of them raises. *)
Lemma remove_run_general keep_strategy :
  forall duplicates removed_files w,
    exists processed remaining w' new,
      duplicates = processed ++ remaining
      /\ operations (w_db w') = operations (w_db w) ++ new
      /\ map source_path new = all_candidates (w_fs w) keep_strategy processed
      /\ Forall removal_entry new
      /\ (forall q f, lookup (w_fs w') q = Some f -> lookup (w_fs w) q = Some f)
      /\ (forall q, ~ In q (all_candidates (w_fs w) keep_strategy processed) ->
                    lookup (w_fs w') q = lookup (w_fs w) q)
      /\ (forall q, In q (map source_path (filter is_success new)) ->
                    lookup (w_fs w') q = None)
      /\ (forall h g, In (h, g) processed -> (2 <= List.length g)%nat ->
                      exists sorted_files,
                        DuplicateDetector.sort_by_strategy (w_fs w) keep_strategy g
                        = Ok sorted_files)
      /\ (forall q, In q (map source_path (filter is_success new))
                    <-> In q (all_candidates (w_fs w) keep_strategy processed)
                        /\ deletable (w_fs w) q = true)
      /\ ((remaining = []
           /\ for_each duplicates (DuplicateDetector.remove_group keep_strategy)
                removed_files w
              = Returns (removed_files ++ map source_path (filter is_success new))
                        w')
          \/ (exists e file_hash group rest,
                remaining = (file_hash, group) :: rest
                /\ for_each duplicates
                     (DuplicateDetector.remove_group keep_strategy)
                     removed_files w = Raises e w'
                /\ (2 <= List.length group)%nat
                /\ DuplicateDetector.sort_by_strategy (w_fs w') keep_strategy group
                   = Raise e)).
Proof.
  induction duplicates as [|[h g] ds IH]; intros removed_files w.
  - exists [], [], w, []. simpl. unfold ret. rewrite !app_nil_r.
    repeat split; auto; try tauto.
  - cbn [for_each]. unfold bind.
    destruct (remove_group_general keep_strategy removed_files h g w)
      as [(w1 & new1 & Hrun1 & Hops1 & Hsrc1 & Hent1 & Hkeep1 & Hout1 & Hgone1
           & Hsort1 & Hiff1)
         | (e & Hrun1 & Hlen & Hsort)].
    + rewrite Hrun1.
      destruct (IH (removed_files ++ map source_path (filter is_success new1)) w1)
        as (processed & remaining & w' & new & Hsplit & Hops & Hsrc & Hent
            & Hkeep & Hout & Hgone & Hsorted & Hiff & Hend).
      assert (Hsame : forall h' g', In (h', g') processed ->
                (2 <= List.length g')%nat ->
                forall p, In p g' -> lookup (w_fs w1) p = lookup (w_fs w) p).
      { intros h' g' Hin Hlong p Hp.
        destruct (Hsorted h' g' Hin Hlong) as [sorted_files Hok].
        destruct (sort_ok_members _ _ _ Hok p Hp) as [f Hf].
        rewrite Hf. symmetry. now apply Hkeep1. }
      assert (Hcand : all_candidates (w_fs w1) keep_strategy processed
                      = all_candidates (w_fs w) keep_strategy processed)
        by now apply all_candidates_same.
      rewrite Hcand in *.
      exists ((h, g) :: processed), remaining, w', (new1 ++ new).
      split; [simpl; now rewrite Hsplit|].
      split; [rewrite Hops, Hops1; now rewrite app_assoc|].
      split; [rewrite all_candidates_cons, map_app; congruence|].
      split; [apply Forall_app; now split|].
      split; [intros q f Hq; apply Hkeep1, Hkeep, Hq|].
      split.
      { intros q Hq. rewrite all_candidates_cons in Hq.
        rewrite Hout by (intros H; apply Hq, in_or_app; now right).
        apply Hout1. intros H. apply Hq, in_or_app. now left. }
      split.
      { intros q Hq. rewrite filter_app, map_app in Hq.
        apply in_app_or in Hq. destruct Hq as [Hq | Hq]; [|now apply Hgone].
        destruct (lookup (w_fs w') q) as [f|] eqn:Hf; [|reflexivity].
        apply Hkeep in Hf. rewrite (Hgone1 q Hq) in Hf. discriminate. }
      split.
      { intros h' g' [Heq | Hin] Hlong.
        - injection Heq as <- <-. now apply Hsort1.
        - destruct (Hsorted h' g' Hin Hlong) as [sorted_files Hok].
          exists sorted_files. rewrite <- Hok. symmetry.
          apply sort_by_strategy_ext. now apply (Hsame h' g'). }
      split.
      { intros q. rewrite filter_app, map_app, in_app_iff, all_candidates_cons,
          in_app_iff, Hiff1, Hiff. unfold deletable. split.
        - intros [[Hc Hd] | [Hc Hd]]; [tauto|]. split; [now right|].
          destruct (lookup (w_fs w1) q) as [f|] eqn:Hf; [|discriminate].
          now rewrite (Hkeep1 q f Hf).
        - intros [[Hc | Hc] Hd]; [tauto|].
          destruct (in_dec string_dec q (candidates (w_fs w) keep_strategy g))
            as [Hown | Hown]; [tauto|].
          right. split; [exact Hc|]. now rewrite (Hout1 q Hown). }
      destruct Hend as [[-> Hret] | (e & h' & g' & rest & -> & Hraise & Hlen & Hsort)].
      * left. split; [reflexivity|]. rewrite Hret.
        now rewrite filter_app, map_app, app_assoc.
      * right. exists e, h', g', rest. auto.
    + rewrite Hrun1. exists [], ((h, g) :: ds), w, []. simpl.
      rewrite app_nil_r. repeat split; auto; try tauto.
      right. exists e, h, g, ds. auto.
Qed.

(** C6, as stated, fails: the strategy is valid and the call does not
    return a list.  The member d/gone of the first group is no longer
    there; [sorted] asks for its modification time outside any [try], the
    call raises, nothing has been removed and the second group has not been
    looked at. *)
Lemma remove_duplicates_missing_member_counterexample :
  ~ (exists removed w',
       DuplicateDetector.remove_duplicates
         [("h1", ["d/a"; "d/gone"]); ("h2", ["e/x"; "e/y"])] "newest"
         locked_copy_world
       = Returns removed w').
Proof. intros (removed & w' & Hrun). vm_compute in Hrun. discriminate Hrun. Qed.

(** C6, amended.  The removal is best effort as far as deletions go.
    First, whatever the files and the list so far, the loop over the
    members to remove never raises: it writes one row of type
    duplicate_removal per member, in order, a success or a failure, goes on
    after a failure, and extends the list by exactly the paths of the
    successes; these are the members that could be deleted when the loop
    began, and they are gone afterwards.  Second, on every mapping and for
    every strategy, the groups are processed in order, and the call stops
    only where the sorting of a group of two or more raises, because the
    strategy is not one the code knows or because a member of that group
    does not exist at that time: it then raises, before any member of that
    group is tried, and the groups after it are left alone.  Up to there,
    and to the end when no sorting raises, each candidate of each group has
    been tried and logged once, the successes are the candidates that could
    be deleted when the call began, and when the call returns, the list
    returned holds exactly the paths of the successes, which are gone. *)
Theorem remove_duplicates_best_effort :
  (forall keep_file rest removed_files w,
   exists removed' w' new,
     for_each rest (DuplicateDetector.remove_one keep_file) removed_files w
     = Returns removed' w'
     /\ operations (w_db w') = operations (w_db w) ++ new
     /\ map source_path new = rest
     /\ Forall removal_entry new
     /\ removed' = removed_files ++ map source_path (filter is_success new)
     /\ (forall q, In q (map source_path (filter is_success new))
                   <-> In q rest /\ deletable (w_fs w) q = true)
     /\ (forall q, In q (map source_path (filter is_success new)) ->
                   lookup (w_fs w') q = None))
  /\ (forall keep_strategy duplicates w,
      exists processed remaining w' new,
        duplicates = processed ++ remaining
        /\ operations (w_db w') = operations (w_db w) ++ new
        /\ map source_path new
           = all_candidates (w_fs w) keep_strategy processed
        /\ Forall removal_entry new
        /\ (forall q, In q (map source_path (filter is_success new))
                      <-> In q (all_candidates (w_fs w) keep_strategy processed)
                          /\ deletable (w_fs w) q = true)
        /\ (forall q, In q (map source_path (filter is_success new)) ->
                      lookup (w_fs w') q = None)
        /\ ((remaining = []
             /\ DuplicateDetector.remove_duplicates duplicates keep_strategy w
                = Returns (map source_path (filter is_success new)) w')
            \/ (exists e file_hash group rest,
                  remaining = (file_hash, group) :: rest
                  /\ DuplicateDetector.remove_duplicates duplicates
                       keep_strategy w = Raises e w'
                  /\ (2 <= List.length group)%nat
                  /\ DuplicateDetector.sort_by_strategy (w_fs w') keep_strategy
                       group = Raise e
                  /\ (~ valid_strategy keep_strategy
                      \/ exists p, In p group
                                   /\ lookup (w_fs w') p = None)))).
Proof.
  split.
  - intros keep_file rest removed_files w.
    destruct (remove_loop_general keep_file rest removed_files w)
      as (removed' & w' & new & H1 & H2 & H3 & H4 & H5 & _ & _ & H8 & H9).
    exists removed', w', new.
    split; [exact H1|]. split; [exact H2|]. split; [exact H3|].
    split; [exact H4|]. split; [exact H5|]. split; [exact H9 | exact H8].
  - intros keep_strategy duplicates w.
    unfold DuplicateDetector.remove_duplicates, PyDict.items.
    destruct (remove_run_general keep_strategy duplicates [] w)
      as (processed & remaining & w' & new & Hsplit & Hops & Hsrc & Hent & _
          & _ & Hgone & _ & Hiff & Hend).
    exists processed, remaining, w', new.
    split; [exact Hsplit|]. split; [exact Hops|]. split; [exact Hsrc|].
    split; [exact Hent|]. split; [exact Hiff|]. split; [exact Hgone|].
    destruct Hend as [[-> Hret] | (e & h & g & rest & -> & Hraise & Hlen & Hsort)].
    + left. split; [reflexivity | exact Hret].
    + right. exists e, h, g, rest.
      split; [reflexivity|]. split; [exact Hraise|]. split; [exact Hlen|].
      split; [exact Hsort|]. eapply sort_raise_cause. exact Hsort.
Qed.

(** C6 on two groups of which one member cannot be deleted: the failure is
    logged, the members after it and the second group are still processed,
    and the list holds the two paths that were removed. *)
Lemma remove_duplicates_best_effort_witness :
  exists w',
    DuplicateDetector.remove_duplicates locked_copy_groups "newest"
      locked_copy_world = Returns ["d/b"; "e/x"] w'
    /\ map logged (operations (w_db w'))
       = [("d/b", "success"); ("d/a", "failure"); ("e/x", "success")].
Proof.
  destruct remove_duplicates_best_effort as [_ Hrun].
  destruct (Hrun "newest" locked_copy_groups locked_copy_world)
    as (processed & remaining & w' & new & _ & _ & _ & _ & _ & _
        & [[_ Hret] | (e & h & g & rest & _ & Hraise & _)]).
  - remember (Returns (map source_path (filter is_success new)) w') as run
      eqn:Hrun'.
    vm_compute in Hret. rewrite Hrun' in Hret. injection Hret as _ Hw.
    exists w'. rewrite <- Hw. split; reflexivity.
  - vm_compute in Hraise. discriminate Hraise.
Defined.

Lemma NoDup_app_disjoint {A} (a b : list A) (x : A) :
  NoDup (a ++ b) -> In x a -> In x b -> False.
Proof.
  induction a as [|y a IH]; simpl; [tauto|].
  intros Hnd [-> | Hx] Hb; inversion Hnd as [|? ? Hnotin Hnd']; subst.
  - apply Hnotin. apply in_or_app. now right.
  - eauto.
Qed.



(** C10 (the code departs from it).  The code means to keep the first file
    of the sorted group and to remove the rest, and it writes the path it
    keeps into the row of every removal.  It never looks whether a path it
    is about to remove is the one it keeps.  When the one file d/a is listed
    twice in its group, the sorted order is d/a, d/a: the file kept is d/a,
    the rest is d/a, and the call deletes d/a, returns it in the list and
    logs the removal of d/a as a success with the details "Kept file: d/a".
    No file is left, so every copy of the content is lost. *)
Theorem remove_duplicates_deletes_retained_member :
  DuplicateDetector.sort_by_strategy (w_fs single_file_world) "newest"
    ["d/a"; "d/a"] = Ok ["d/a"; "d/a"]
  /\ exists w',
       DuplicateDetector.remove_duplicates [("h", ["d/a"; "d/a"])] "newest"
         single_file_world = Returns ["d/a"] w'
       /\ lookup (w_fs single_file_world) "d/a"
          = Some (mkFile "hello" 1 1 "text/plain" true true)
       /\ lookup (w_fs w') "d/a" = None
       /\ w_fs w' = []
       /\ map (fun o => (source_path o, status o, details o))
              (operations (w_db w'))
          = [("d/a", "success", "Kept file: d/a")].
Proof.
  split; [reflexivity|].
  eexists. split; [vm_compute; reflexivity|]. repeat split.
Qed.

(* ================================================================== *)
(** ** duplicate_detector.py: pairwise comparison *)

Lemma rmap_ok {A B} (f : A -> result B) (g : A -> B) (l : list A) :
  (forall x, In x l -> f x = Ok (g x)) -> rmap f l = Ok (map g l).
Proof.
  induction l as [|a l IH]; intros H; simpl; auto.
  rewrite (H a) by now left. simpl.
  rewrite IH by (intros; apply H; now right). reflexivity.
Qed.

Section ComparisonFacts.

Variable ndarray : Type.
Variable cosine_similarity : ndarray -> ndarray -> Q.
Variable compute : string -> result (option (ContentDetector.embedding ndarray)).
Variable similarity_threshold : Q.

Lemma matchesb_matches e1 e2 :
  matchesb cosine_similarity similarity_threshold e1 e2 = true
  <-> matches cosine_similarity similarity_threshold e1 e2.
Proof.
  destruct e1, e2; simpl.
  - apply String.eqb_eq.
  - split; [discriminate | tauto].
  - split; [discriminate | tauto].
  - apply Qle_bool_iff.
Qed.

(** The first loop: the dictionary holds exactly the paths of the list
    that have a signature, each with its signature. *)
Lemma collect_spec file_paths :
  (forall p, In p file_paths -> exists r, compute p = Ok r) ->
  forall acc,
    NoDup (PyDict.keys acc) ->
    exists file_embeddings,
      ContentDetector.collect compute file_paths acc = Ok file_embeddings
      /\ NoDup (PyDict.keys file_embeddings)
      /\ (forall p e, In p file_paths -> compute p = Ok (Some e) ->
                      PyDict.get file_embeddings p = Some e)
      /\ (forall p, ~ In p file_paths \/ compute p = Ok None ->
                    PyDict.get file_embeddings p = PyDict.get acc p).
Proof.
  induction file_paths as [|a l IH]; intros Hok acc Hnd.
  - exists acc. simpl. repeat split; auto. tauto.
  - cbn [ContentDetector.collect].
    destruct (Hok a (or_introl eq_refl)) as [[e|] Ha]; rewrite Ha; cbn [rbind].
    + destruct (IH (fun p Hp => Hok p (or_intror Hp)) (PyDict.set acc a e))
        as (fe & Hrun & Hnd' & Hin & Hout).
      { now apply dict_keys_set_NoDup. }
      exists fe. split; [exact Hrun|]. split; [exact Hnd'|]. split.
      * intros p e' [<- | Hp] Hc.
        -- destruct (in_dec string_dec a l) as [Hal | Hal]; [now apply Hin|].
           rewrite Hout by now left. rewrite dict_get_set_eq. congruence.
        -- now apply Hin.
      * intros p Hp.
        assert (Hne : a <> p).
        { intros <-. destruct Hp as [Hp | Hp]; [|congruence].
          apply Hp. now left. }
        rewrite Hout, dict_get_set_ne; auto.
        destruct Hp as [Hp | Hp]; [left | now right].
        intros H. apply Hp. now right.
    + destruct (IH (fun p Hp => Hok p (or_intror Hp)) acc Hnd)
        as (fe & Hrun & Hnd' & Hin & Hout).
      exists fe. split; [exact Hrun|]. split; [exact Hnd'|]. split.
      * intros p e' [<- | Hp] Hc; [congruence | now apply Hin].
      * intros p Hp. apply Hout.
        destruct Hp as [Hp | Hp]; [left | now right].
        intros H. apply Hp. now right.
Qed.

Lemma compare_spec file_embeddings file_list i j :
  file_list = PyDict.keys file_embeddings ->
  (i < List.length file_list)%nat ->
  (j < List.length file_list)%nat ->
  ContentDetector.compare cosine_similarity similarity_threshold
    file_embeddings file_list i j
  = Ok (pairs_at cosine_similarity similarity_threshold file_embeddings
                 file_list i j).
Proof.
  intros Hkeys Hi Hj.
  assert (Hget : forall k, (k < List.length file_list)%nat ->
             exists e, PyDict.get file_embeddings (nth k file_list "") = Some e).
  { intros k Hk.
    destruct (PyDict.get file_embeddings (nth k file_list "")) eqn:G; eauto.
    apply dict_get_None in G. exfalso. apply G. rewrite <- Hkeys.
    now apply nth_In. }
  destruct (Hget i Hi) as [e1 H1]. destruct (Hget j Hj) as [e2 H2].
  unfold ContentDetector.compare, pairs_at, Logger.getitem.
  rewrite H1, H2. cbn [rbind].
  destruct e1, e2; simpl; try reflexivity.
  - now destruct (String.eqb h h0).
  - now destruct (Qle_bool similarity_threshold (cosine_similarity v v0)).
Qed.

Lemma in_range a b k : In k (ContentDetector.range a b) <-> (a <= k < b)%nat.
Proof. unfold ContentDetector.range. rewrite in_seq. lia. Qed.

(** The two nested loops return, and their result is the list of what each
    turn [i] < [j] appends. *)
Lemma scan_spec file_embeddings :
  let file_list := PyDict.keys file_embeddings in
  let n := List.length file_list in
  rmap (fun i =>
          rbind (rmap (ContentDetector.compare cosine_similarity
                         similarity_threshold file_embeddings file_list i)
                      (ContentDetector.range (i + 1) n))
                (fun found => Ok (List.concat found)))
       (ContentDetector.range 0 n)
  = Ok (map (fun i =>
               List.concat
                 (map (pairs_at cosine_similarity similarity_threshold
                                file_embeddings file_list i)
                      (ContentDetector.range (i + 1) n)))
            (ContentDetector.range 0 n)).
Proof.
  intros file_list n. apply rmap_ok. intros i Hi. apply in_range in Hi.
  rewrite (rmap_ok _ (pairs_at cosine_similarity similarity_threshold
                               file_embeddings file_list i)).
  - reflexivity.
  - intros j Hj. apply in_range in Hj. apply compare_spec; auto; subst n; lia.
Qed.

Lemma in_pairs_at file_embeddings file_list i j f1 f2 :
  In (f1, f2) (pairs_at cosine_similarity similarity_threshold file_embeddings
                        file_list i j)
  <-> exists e1 e2,
        nth i file_list "" = f1 /\ nth j file_list "" = f2
        /\ PyDict.get file_embeddings f1 = Some e1
        /\ PyDict.get file_embeddings f2 = Some e2
        /\ matches cosine_similarity similarity_threshold e1 e2.
Proof.
  unfold pairs_at. split.
  - destruct (PyDict.get file_embeddings (nth i file_list "")) as [e1|] eqn:G1;
      [|contradiction].
    destruct (PyDict.get file_embeddings (nth j file_list "")) as [e2|] eqn:G2;
      [|contradiction].
    destruct (matchesb cosine_similarity similarity_threshold e1 e2) eqn:Hm;
      [|contradiction].
    intros [[= <- <-] | []]. exists e1, e2. apply matchesb_matches in Hm. auto.
  - intros (e1 & e2 & <- & <- & -> & -> & Hm).
    apply matchesb_matches in Hm. rewrite Hm. now left.
Qed.


End ComparisonFacts.

Lemma NoDup_concat_map {A B} (f : A -> list B) (l : list A) :
  NoDup l ->
  (forall x, In x l -> NoDup (f x)) ->
  (forall x y b, In x l -> In y l -> In b (f x) -> In b (f y) -> x = y) ->
  NoDup (List.concat (map f l)).
Proof.
  induction l as [|a l IH]; simpl; intros Hnd Heach Hdisj; [constructor|].
  inversion Hnd as [|? ? Hnotin Hnd']; subst.
  apply NoDup_app.
  - apply Heach. now left.
  - apply IH; auto. intros x y b Hx Hy. apply Hdisj; now right.
  - intros b Hb Hb'. apply in_concat in Hb'.
    destruct Hb' as (bs & Hbs & Hb'). apply in_map_iff in Hbs.
    destruct Hbs as (y & <- & Hy).
    assert (a = y) by (apply (Hdisj a y b); auto; now left).
    subst. contradiction.
Qed.

Section PairFacts.

Variable ndarray : Type.

Section Collected.

Variable compute : string -> result (option (ContentDetector.embedding ndarray)).

Lemma collect_ok_inv file_paths :
  forall acc file_embeddings,
    ContentDetector.collect compute file_paths acc = Ok file_embeddings ->
    forall p, In p file_paths -> exists r, compute p = Ok r.
Proof.
  induction file_paths as [|q rest IH]; simpl; intros acc fe Hrun p Hp;
    [contradiction|].
  destruct (compute q) as [[e|]|ex] eqn:Hq; cbn [rbind] in Hrun;
    try discriminate;
    (destruct Hp as [<- | Hp]; [eexists; exact Hq | eapply IH; eauto]).
Qed.

Lemma collect_raises file_paths :
  forall acc p e,
    In p file_paths -> compute p = Raise e ->
    exists e', ContentDetector.collect compute file_paths acc = Raise e'.
Proof.
  intros acc p e Hp Hraise.
  destruct (ContentDetector.collect compute file_paths acc) as [fe | e'] eqn:Hrun;
    [|eexists; reflexivity].
  destruct (@collect_ok_inv file_paths acc fe Hrun p Hp) as [r Hr]. congruence.
Qed.

(** What the dictionary of signatures holds when the first loop is over. *)
Lemma collect_ok file_paths file_embeddings :
  ContentDetector.collect compute file_paths [] = Ok file_embeddings ->
  NoDup (PyDict.keys file_embeddings)
  /\ (forall p e,
        PyDict.get file_embeddings p = Some e
        <-> In p file_paths /\ compute p = Ok (Some e)).
Proof.
  intros Hrun.
  pose proof (@collect_ok_inv file_paths [] file_embeddings Hrun) as Hok.
  destruct (@collect_spec ndarray compute file_paths Hok [])
    as (fe & Hrun' & Hnd & Hin & Hout).
  { constructor. }
  rewrite Hrun in Hrun'. injection Hrun' as <-.
  split; [exact Hnd|]. intros p e. split.
  - intros G. destruct (in_dec string_dec p file_paths) as [Hp | Hp].
    + split; [exact Hp|]. destruct (Hok p Hp) as [[e'|] Hc].
      * rewrite (Hin p e' Hp Hc) in G. congruence.
      * rewrite Hout in G by now right. discriminate.
    + rewrite Hout in G by now left. discriminate.
  - intros [Hp Hc]. now apply Hin.
Qed.

End Collected.

Section Scanned.

Variable cosine_similarity : ndarray -> ndarray -> Q.
Variable similarity_threshold : Q.

(** The run of [find_duplicates], for any way of computing signatures. *)
Lemma find_duplicates_with_ok compute file_paths pairs :
  ContentDetector.find_duplicates_with cosine_similarity compute file_paths
    similarity_threshold = Ok pairs ->
  exists file_embeddings,
    ContentDetector.collect compute file_paths [] = Ok file_embeddings
    /\ pairs = scanned cosine_similarity similarity_threshold file_embeddings.
Proof.
  unfold ContentDetector.find_duplicates_with.
  destruct (ContentDetector.collect compute file_paths []) as [fe | e];
    cbn [rbind]; [|discriminate].
  rewrite scan_spec. cbn [rbind]. intros [= <-].
  exists fe. split; reflexivity.
Qed.

Lemma find_duplicates_with_returns compute file_paths file_embeddings :
  ContentDetector.collect compute file_paths [] = Ok file_embeddings ->
  ContentDetector.find_duplicates_with cosine_similarity compute file_paths
    similarity_threshold
  = Ok (scanned cosine_similarity similarity_threshold file_embeddings).
Proof.
  intros Hrun. unfold ContentDetector.find_duplicates_with.
  rewrite Hrun. cbn [rbind]. rewrite scan_spec. reflexivity.
Qed.

Lemma pair_at file_embeddings file_list i j f1 f2 :
  In (f1, f2) (pairs_at cosine_similarity similarity_threshold file_embeddings
                        file_list i j)
  <-> exists e1 e2,
        nth i file_list "" = f1 /\ nth j file_list "" = f2
        /\ PyDict.get file_embeddings f1 = Some e1
        /\ PyDict.get file_embeddings f2 = Some e2
        /\ matches cosine_similarity similarity_threshold e1 e2.
Proof.
  exact (@in_pairs_at ndarray cosine_similarity (fun _ => Ok None)
           similarity_threshold file_embeddings file_list i j f1 f2).
Qed.

Lemma in_scanned file_embeddings f1 f2 :
  In (f1, f2) (scanned cosine_similarity similarity_threshold file_embeddings)
  <-> exists i j e1 e2,
        (i < j < List.length (PyDict.keys file_embeddings))%nat
        /\ nth i (PyDict.keys file_embeddings) "" = f1
        /\ nth j (PyDict.keys file_embeddings) "" = f2
        /\ PyDict.get file_embeddings f1 = Some e1
        /\ PyDict.get file_embeddings f2 = Some e2
        /\ matches cosine_similarity similarity_threshold e1 e2.
Proof.
  unfold scanned. rewrite in_concat. split.
  - intros (found & Hfound & Hpair).
    apply in_map_iff in Hfound. destruct Hfound as (i & <- & Hi).
    apply in_concat in Hpair. destruct Hpair as (at_ij & Hat & Hpair).
    apply in_map_iff in Hat. destruct Hat as (j & <- & Hj).
    apply in_range in Hi, Hj. apply pair_at in Hpair.
    destruct Hpair as (e1 & e2 & N1 & N2 & G1 & G2 & Hm).
    exists i, j, e1, e2. repeat split; try tauto; lia.
  - intros (i & j & e1 & e2 & Hij & N1 & N2 & G1 & G2 & Hm).
    eexists. split.
    + apply in_map_iff. exists i. split; [reflexivity|]. apply in_range. lia.
    + apply in_concat. eexists. split.
      * apply in_map_iff. exists j. split; [reflexivity|]. apply in_range. lia.
      * apply pair_at. exists e1, e2. repeat split; auto.
Qed.

Lemma pairs_at_NoDup file_embeddings file_list i j :
  NoDup (pairs_at cosine_similarity similarity_threshold file_embeddings
                  file_list i j).
Proof.
  unfold pairs_at.
  destruct (PyDict.get file_embeddings (nth i file_list ""));
    [|constructor].
  destruct (PyDict.get file_embeddings (nth j file_list ""));
    [|constructor].
  destruct (matchesb _ _ _ _); repeat constructor. simpl. tauto.
Qed.

Lemma scanned_NoDup file_embeddings :
  NoDup (PyDict.keys file_embeddings) ->
  NoDup (scanned cosine_similarity similarity_threshold file_embeddings).
Proof.
  intros Hnd. unfold scanned.
  set (file_list := PyDict.keys file_embeddings) in *.
  set (n := List.length file_list).
  pose proof (proj1 (NoDup_nth file_list "") Hnd) as Hinj.
  apply NoDup_concat_map.
  - apply seq_NoDup.
  - intros i Hi. apply in_range in Hi. apply NoDup_concat_map.
    + apply seq_NoDup.
    + intros j _. apply pairs_at_NoDup.
    + intros j j' [f1 f2] Hj Hj' Hb Hb'. apply in_range in Hj, Hj'.
      apply pair_at in Hb, Hb'.
      destruct Hb as (_ & _ & _ & N2 & _).
      destruct Hb' as (_ & _ & _ & N2' & _).
      apply Hinj; [lia | lia | congruence].
  - intros i i' [f1 f2] Hi Hi' Hb Hb'. apply in_range in Hi, Hi'.
    apply in_concat in Hb, Hb'.
    destruct Hb as (l & Hl & Hb). destruct Hb' as (l' & Hl' & Hb').
    apply in_map_iff in Hl, Hl'.
    destruct Hl as (j & <- & Hj). destruct Hl' as (j' & <- & Hj').
    apply pair_at in Hb, Hb'.
    destruct Hb as (_ & _ & N1 & _). destruct Hb' as (_ & _ & N1' & _).
    apply Hinj; [lia | lia | congruence].
Qed.

End Scanned.

End PairFacts.





(* ================================================================== *)
(** * Further properties of the code *)

(** ** find_duplicates: the groups, the log and the snapshots *)

Section HashingRun.

Variable hashlib : FileUtils.hashlib_t.
Variable hash_type : string.

Lemma hash_ok_inv fs p h :
  FileUtils.calculate_file_hash hashlib fs p hash_type = Ok h ->
  exists hash_func f,
    hashlib hash_type = Some hash_func
    /\ lookup fs p = Some f /\ f_readable f = true
    /\ h = hash_func (f_content f)
    /\ FileUtils.get_file_metadata fs p
       = Ok (FileUtils.mkMeta (Os.st_size f) (f_ctime f) (f_mtime f) (f_mime f)).
Proof.
  unfold FileUtils.calculate_file_hash, Os.read_bytes,
    FileUtils.get_file_metadata, FileUtils.get_file_type, Os.stat.
  destruct (hashlib hash_type) as [hash_func|]; [|discriminate].
  destruct (lookup fs p) as [f|]; [|discriminate].
  destruct (f_readable f) eqn:Hr; [|discriminate].
  simpl. intros [= <-]. exists hash_func, f. now rewrite Hr.
Qed.

Lemma hash_one_world hash_map file_path w :
  DuplicateDetector.hash_one hashlib hash_type hash_map file_path w
  = Returns (group_step hashlib (w_fs w) hash_type hash_map file_path)
      (mkWorld (w_fs w) (hash_db_step hashlib hash_type (w_fs w) (w_db w) file_path)).
Proof.
  unfold DuplicateDetector.hash_one, group_step, hash_db_step.
  destruct (FileUtils.calculate_file_hash hashlib (w_fs w) file_path hash_type)
    as [h | e].
  - unfold try_except, bind, lift.
    now destruct (FileUtils.get_file_metadata (w_fs w) file_path) as [m | e].
  - reflexivity.
Qed.

Lemma hash_loop_world files :
  forall hash_map w,
    for_each files (DuplicateDetector.hash_one hashlib hash_type) hash_map w
    = Returns (fold_left (group_step hashlib (w_fs w) hash_type) files hash_map)
        (mkWorld (w_fs w)
           (fold_left (hash_db_step hashlib hash_type (w_fs w)) files (w_db w))).
Proof.
  induction files as [|p files IH]; intros hash_map w; simpl.
  - unfold ret. now destruct w.
  - unfold bind. rewrite hash_one_world, IH. reflexivity.
Qed.

(** The run of [find_duplicates], in one equation. *)
Lemma find_duplicates_run directory w :
  DuplicateDetector.find_duplicates hashlib directory hash_type w
  = Returns
      (filter (fun kv => (1 <? List.length (snd kv))%nat)
         (fold_left (group_step hashlib (w_fs w) hash_type)
                    (FileUtils.list_files (w_fs w) directory) []))
      (mkWorld (w_fs w)
         (fold_left (hash_db_step hashlib hash_type (w_fs w))
                    (FileUtils.list_files (w_fs w) directory) (w_db w))).
Proof.
  unfold DuplicateDetector.find_duplicates, bind.
  now rewrite hash_loop_world.
Qed.

Lemma groups_of_listing fs files :
  groups_of hashlib fs hash_type files
    (fold_left (group_step hashlib fs hash_type) files []).
Proof.
  apply (@fold_group_step_groups hashlib hash_type fs files [] []).
  split; [constructor | reflexivity].
Qed.

(** Membership in the result of [find_duplicates]. *)
Lemma in_groups fs files k paths :
  In (k, paths)
     (filter (fun kv => (1 <? List.length (snd kv))%nat)
        (fold_left (group_step hashlib fs hash_type) files []))
  <-> paths = filter (has_hash hashlib fs hash_type k) files
      /\ (2 <= List.length paths)%nat.
Proof.
  destruct (groups_of_listing fs files) as [Hnd Hget].
  rewrite filter_In. simpl. rewrite Nat.ltb_lt. split.
  - intros [Hin Hlen]. apply dict_In_get in Hin; [|exact Hnd].
    rewrite Hget in Hin.
    destruct (filter (has_hash hashlib fs hash_type k) files) eqn:Hf;
      [discriminate|].
    injection Hin as <-. split; [reflexivity | lia].
  - intros [-> Hlen]. split; [|lia]. apply dict_get_In. rewrite Hget.
    destruct (filter (has_hash hashlib fs hash_type k) files);
      [simpl in Hlen; lia | reflexivity].
Qed.

Lemma has_hash_unique fs k k' p :
  has_hash hashlib fs hash_type k p = true ->
  has_hash hashlib fs hash_type k' p = true -> k = k'.
Proof.
  unfold has_hash.
  destruct (FileUtils.calculate_file_hash hashlib fs p hash_type); [|discriminate].
  intros H1 H2. apply String.eqb_eq in H1, H2. congruence.
Qed.

Lemma two_distinct_members {A} (l : list A) (x y : A) :
  In x l -> In y l -> x <> y -> (2 <= List.length l)%nat.
Proof.
  destruct l as [|a [|b l]]; simpl; try tauto; try lia.
  intros [<- | []] [<- | []] H. contradiction.
Qed.

Lemma listing_NoDup fs directory :
  NoDup (map fst fs) -> NoDup (FileUtils.list_files fs directory).
Proof. intros H. unfold FileUtils.list_files. now apply NoDup_filter. Qed.

Lemma groups_members_NoDup fs files (groups : PyDict.dict (list string)) :
  NoDup files ->
  NoDup (PyDict.keys groups) ->
  (forall k paths, In (k, paths) groups ->
                   paths = filter (has_hash hashlib fs hash_type k) files) ->
  NoDup (members groups).
Proof.
  intros Hfiles. unfold members, PyDict.values, PyDict.keys.
  induction groups as [|[k v] groups IH]; intros Hkeys Hall; simpl.
  - constructor.
  - inversion Hkeys as [|? ? Hnotin Hkeys']; subst.
    apply NoDup_app.
    + rewrite (Hall k v) by now left. now apply NoDup_filter.
    + apply IH; auto. intros k' paths Hin. apply Hall. now right.
    + intros x Hx Hrest. apply in_concat in Hrest.
      destruct Hrest as (v' & Hv' & Hx').
      apply in_map_iff in Hv'. destruct Hv' as ([k' v''] & <- & Hin).
      simpl in Hx'.
      rewrite (Hall k v) in Hx by now left.
      rewrite (Hall k' v'') in Hx' by now right.
      apply filter_In in Hx, Hx'.
      assert (k = k') by (eapply has_hash_unique; [apply Hx | apply Hx']).
      subst k'. apply Hnotin. change k with (fst (k, v'')). now apply in_map.
Qed.

(** X1.  Two different listed files that can be read and hold the same
    bytes end in one group of the result, under the digest of these
    bytes. *)
Theorem identical_files_share_a_group :
  forall directory w hash_func p1 p2 f1 f2,
    hashlib hash_type = Some hash_func ->
    In p1 (FileUtils.list_files (w_fs w) directory) ->
    In p2 (FileUtils.list_files (w_fs w) directory) ->
    p1 <> p2 ->
    lookup (w_fs w) p1 = Some f1 ->
    lookup (w_fs w) p2 = Some f2 ->
    f_readable f1 = true ->
    f_readable f2 = true ->
    f_content f1 = f_content f2 ->
    exists groups w' paths,
      DuplicateDetector.find_duplicates hashlib directory hash_type w
      = Returns groups w'
      /\ In (hash_func (f_content f1), paths) groups
      /\ In p1 paths /\ In p2 paths.
Proof.
  intros directory w hash_func p1 p2 f1 f2 Hh In1 In2 Hne L1 L2 R1 R2 Hc.
  rewrite find_duplicates_run. eexists. eexists.
  exists (filter (has_hash hashlib (w_fs w) hash_type (hash_func (f_content f1)))
                 (FileUtils.list_files (w_fs w) directory)).
  split; [reflexivity|].
  assert (H1 : In p1 (filter (has_hash hashlib (w_fs w) hash_type
                                (hash_func (f_content f1)))
                             (FileUtils.list_files (w_fs w) directory))).
  { apply filter_In. split; [exact In1|].
    unfold has_hash, FileUtils.calculate_file_hash, Os.read_bytes.
    rewrite Hh, L1, R1. simpl. apply String.eqb_refl. }
  assert (H2 : In p2 (filter (has_hash hashlib (w_fs w) hash_type
                                (hash_func (f_content f1)))
                             (FileUtils.list_files (w_fs w) directory))).
  { apply filter_In. split; [exact In2|].
    unfold has_hash, FileUtils.calculate_file_hash, Os.read_bytes.
    rewrite Hh, L2, R2, Hc. simpl. apply String.eqb_refl. }
  split; [|split; assumption].
  apply in_groups. split; [reflexivity|].
  exact (@two_distinct_members _ _ p1 p2 H1 H2 Hne).
Qed.

(** X2.  When the paths of the file system are distinct, no path is in two
    groups of the result or twice in one, and every path of a group is a
    listed file that exists and can be read. *)
Theorem groups_hold_distinct_existing_paths :
  forall directory w,
    NoDup (map fst (w_fs w)) ->
    exists groups w',
      DuplicateDetector.find_duplicates hashlib directory hash_type w
      = Returns groups w'
      /\ NoDup (members groups)
      /\ (forall p, In p (members groups) ->
            In p (FileUtils.list_files (w_fs w) directory)
            /\ exists f, lookup (w_fs w') p = Some f /\ f_readable f = true).
Proof.
  intros directory w Hnd. rewrite find_duplicates_run.
  eexists. eexists. split; [reflexivity|]. cbn [w_fs].
  set (files := FileUtils.list_files (w_fs w) directory).
  assert (Hchar : forall k paths,
             In (k, paths)
                (filter (fun kv => (1 <? List.length (snd kv))%nat)
                   (fold_left (group_step hashlib (w_fs w) hash_type) files []))
             -> paths = filter (has_hash hashlib (w_fs w) hash_type k) files).
  { intros k paths Hin. now apply in_groups in Hin. }
  split.
  - apply (@groups_members_NoDup (w_fs w) files).
    + now apply listing_NoDup.
    + unfold PyDict.keys. apply NoDup_map_fst_filter.
      apply (groups_of_listing (w_fs w) files).
    + exact Hchar.
  - intros p Hp. unfold members, PyDict.values in Hp.
    apply in_concat in Hp. destruct Hp as (v & Hv & Hp).
    apply in_map_iff in Hv. destruct Hv as ([k paths] & <- & Hin).
    simpl in Hp. rewrite (Hchar k paths Hin) in Hp.
    apply filter_In in Hp. destruct Hp as [Hfile Hhash].
    split; [exact Hfile|].
    unfold has_hash in Hhash.
    destruct (FileUtils.calculate_file_hash hashlib (w_fs w) p hash_type)
      as [h|e] eqn:Hcalc; [|discriminate].
    apply hash_ok_inv in Hcalc.
    destruct Hcalc as (hash_func & f & _ & Hf & Hr & _). eauto.
Qed.

End HashingRun.

(** X1 on the two "hello" files of a directory of three. *)
Lemma identical_files_share_a_group_witness :
  exists groups w' paths,
    DuplicateDetector.find_duplicates hashlib_md5 "d" "md5"
      (mkWorld [("d/a", mkFile "hello" 1 1 "text/plain" true true);
                ("d/b", mkFile "hello" 2 2 "text/plain" true true);
                ("d/c", mkFile "world" 3 3 "text/plain" true true)]
               (Logger.init_db 0))
    = Returns groups w'
    /\ In (MD5.hexdigest "hello", paths) groups
    /\ In "d/a" paths /\ In "d/b" paths.
Proof.
  apply (@identical_files_share_a_group hashlib_md5 "md5" "d"
           (mkWorld [("d/a", mkFile "hello" 1 1 "text/plain" true true);
                     ("d/b", mkFile "hello" 2 2 "text/plain" true true);
                     ("d/c", mkFile "world" 3 3 "text/plain" true true)]
                    (Logger.init_db 0))
           MD5.hexdigest "d/a" "d/b"
           (mkFile "hello" 1 1 "text/plain" true true)
           (mkFile "hello" 2 2 "text/plain" true true));
    try reflexivity.
  - simpl. auto.
  - simpl. auto.
  - discriminate.
Defined.

(** X2 on the directory of the locked copy. *)
Lemma groups_hold_distinct_existing_paths_witness :
  exists groups w',
    DuplicateDetector.find_duplicates hashlib_md5 "d" "md5" locked_copy_world
    = Returns groups w'
    /\ NoDup (members groups).
Proof.
  destruct (@groups_hold_distinct_existing_paths hashlib_md5 "md5" "d"
              locked_copy_world)
    as (groups & w' & Hrun & Hnd & _).
  - simpl. repeat constructor; simpl; intuition discriminate.
  - exists groups, w'. split; assumption.
Defined.

Section HashingLog.

Variable hashlib : FileUtils.hashlib_t.
Variable hash_type : string.
Variable fs : filesystem.

Lemma hash_db_step_ok db p h :
  FileUtils.calculate_file_hash hashlib fs p hash_type = Ok h ->
  exists f,
    lookup fs p = Some f
    /\ hash_db_step hashlib hash_type fs db p
       = Logger.insert_or_replace_metadata db p h (f_mime f) (Os.st_size f)
           (f_mtime f) (f_ctime f).
Proof.
  intros Hcalc. unfold hash_db_step. rewrite Hcalc.
  apply hash_ok_inv in Hcalc.
  destruct Hcalc as (hash_func & f & _ & Hf & _ & _ & ->).
  exists f. split; [exact Hf | reflexivity].
Qed.

Lemma hash_db_fold_operations files :
  forall db,
  exists new,
    operations (fold_left (hash_db_step hashlib hash_type fs) files db)
    = operations db ++ new
    /\ map (fun o => (logged_as o, details o)) new
       = flat_map
           (fun p =>
              match FileUtils.calculate_file_hash hashlib fs p hash_type with
              | Raise e => [("hash_calculation", p, "failure", exn_str e)]
              | Ok _ => []
              end) files.
Proof.
  induction files as [|p files IH]; intros db; simpl.
  - exists []. now rewrite app_nil_r.
  - destruct (IH (hash_db_step hashlib hash_type fs db p)) as (new & Hops & Hlog).
    destruct (FileUtils.calculate_file_hash hashlib fs p hash_type)
      as [h|e] eqn:Hcalc.
    + destruct (@hash_db_step_ok db p h Hcalc) as (f & _ & Hstep).
      exists new. split; [|exact Hlog]. rewrite Hops, Hstep. reflexivity.
    + eexists (_ :: new). split.
      * rewrite Hops. unfold hash_db_step. rewrite Hcalc. simpl.
        rewrite <- app_assoc. reflexivity.
      * simpl. now rewrite Hlog.
Qed.

Lemma select_insert_operation db t p d s x q :
  Logger.select_metadata (Logger.insert_operation db t p d s x) q
  = Logger.select_metadata db q.
Proof. reflexivity. Qed.

Lemma select_replace_same db p h ty sz m c :
  map snapshot
      (Logger.select_metadata
         (Logger.insert_or_replace_metadata db p h ty sz m c) p)
  = [(p, h, ty, sz, m, c)].
Proof.
  unfold Logger.select_metadata, Logger.insert_or_replace_metadata. simpl.
  rewrite filter_app, filter_eqb_negb_eqb. simpl.
  now rewrite String.eqb_refl.
Qed.

Lemma select_replace_other db p h ty sz m c q :
  q <> p ->
  Logger.select_metadata (Logger.insert_or_replace_metadata db p h ty sz m c) q
  = Logger.select_metadata db q.
Proof.
  intros Hne.
  unfold Logger.select_metadata, Logger.insert_or_replace_metadata. simpl.
  rewrite filter_app, filter_eqb_negb_other by assumption. simpl.
  destruct (String.eqb_spec p q); [congruence | apply app_nil_r].
Qed.

Lemma hash_db_fold_select files q :
  forall db,
    map snapshot
        (Logger.select_metadata
           (fold_left (hash_db_step hashlib hash_type fs) files db) q)
    = if existsb (String.eqb q) files
         && negb (hash_fails hashlib hash_type fs q)
      then match FileUtils.calculate_file_hash hashlib fs q hash_type,
                 lookup fs q with
           | Ok h, Some f =>
               [(q, h, f_mime f, Os.st_size f, f_mtime f, f_ctime f)]
           | _, _ => []
           end
      else map snapshot (Logger.select_metadata db q).
Proof.
  induction files as [|p files IH]; intros db; simpl; auto.
  rewrite IH. rewrite (String.eqb_sym q p).
  destruct (existsb (String.eqb q) files
            && negb (hash_fails hashlib hash_type fs q)) eqn:Hlater.
  - apply andb_true_iff in Hlater. destruct Hlater as [Hex Hok].
    now rewrite Hex, Hok, orb_true_r.
  - destruct (String.eqb_spec p q) as [-> | Hne]; simpl.
    + unfold hash_fails.
      destruct (FileUtils.calculate_file_hash hashlib fs q hash_type)
        as [h|e] eqn:Hcalc; simpl.
      * destruct (@hash_db_step_ok db q h Hcalc) as (f & Hf & ->).
        rewrite Hf. apply select_replace_same.
      * unfold hash_db_step. rewrite Hcalc.
        now rewrite select_insert_operation.
    + rewrite Hlater. f_equal. unfold hash_db_step.
      destruct (FileUtils.calculate_file_hash hashlib fs p hash_type)
        as [h|e] eqn:Hcalc.
      * apply hash_ok_inv in Hcalc.
        destruct Hcalc as (hash_func & f & _ & _ & _ & _ & ->).
        apply select_replace_other. congruence.
      * apply select_insert_operation.
Qed.

End HashingLog.

Lemma failures_as_filter hashlib hash_type fs files :
  map fst
      (flat_map
         (fun p =>
            match FileUtils.calculate_file_hash hashlib fs p hash_type with
            | Raise e => [("hash_calculation", p, "failure", exn_str e)]
            | Ok _ => []
            end) files)
  = map (fun p => ("hash_calculation", p, "failure"))
        (filter (hash_fails hashlib hash_type fs) files).
Proof.
  unfold hash_fails. induction files as [|p files IH]; simpl; auto.
  destruct (FileUtils.calculate_file_hash hashlib fs p hash_type); simpl;
    now rewrite IH.
Qed.

(** X3.  [find_duplicates] writes to the log one row per listed file whose
    hashing raised, in the order of the listing, of type hash_calculation
    and status failure, and no other row; such a file is in no group. *)
Theorem hashing_failures_are_logged :
  forall (hashlib : FileUtils.hashlib_t) (directory hash_type : string) (w : world),
  exists groups w' new,
    DuplicateDetector.find_duplicates hashlib directory hash_type w
    = Returns groups w'
    /\ operations (w_db w') = operations (w_db w) ++ new
    /\ map logged_as new
       = map (fun p => ("hash_calculation", p, "failure"))
             (filter (hash_fails hashlib hash_type (w_fs w))
                     (FileUtils.list_files (w_fs w) directory))
    /\ (forall p, hash_fails hashlib hash_type (w_fs w) p = true ->
                  ~ In p (members groups)).
Proof.
  intros hashlib directory hash_type w. rewrite find_duplicates_run.
  destruct (hash_db_fold_operations hashlib hash_type (w_fs w)
              (FileUtils.list_files (w_fs w) directory) (w_db w))
    as (new & Hops & Hlog).
  eexists. eexists. exists new. split; [reflexivity|]. split; [exact Hops|].
  split.
  - rewrite <- failures_as_filter, <- Hlog, map_map. reflexivity.
  - intros p Hfail Hp. unfold members, PyDict.values in Hp.
    apply in_concat in Hp. destruct Hp as (v & Hv & Hp).
    apply in_map_iff in Hv. destruct Hv as ([k paths] & <- & Hin).
    apply in_groups in Hin. destruct Hin as [-> _]. simpl in Hp.
    apply filter_In in Hp. destruct Hp as [_ Hhash].
    unfold hash_fails in Hfail. unfold has_hash in Hhash.
    destruct (FileUtils.calculate_file_hash hashlib (w_fs w) p hash_type);
      discriminate.
Qed.

(** X4.  With a [hash_type] that hashlib does not have, [find_duplicates]
    does not raise: it returns the empty mapping and logs one failure per
    listed file, whose details name the missing attribute. *)
Theorem unknown_hash_type_finds_nothing :
  forall (hashlib : FileUtils.hashlib_t) (directory hash_type : string) (w : world),
    hashlib hash_type = None ->
    exists w' new,
      DuplicateDetector.find_duplicates hashlib directory hash_type w
      = Returns [] w'
      /\ operations (w_db w') = operations (w_db w) ++ new
      /\ map (fun o => (logged_as o, details o)) new
         = map (fun p => ("hash_calculation", p, "failure",
                          exn_str (AttributeError hash_type)))
               (FileUtils.list_files (w_fs w) directory).
Proof.
  intros hashlib directory hash_type w Hnone. rewrite find_duplicates_run.
  destruct (hash_db_fold_operations hashlib hash_type (w_fs w)
              (FileUtils.list_files (w_fs w) directory) (w_db w))
    as (new & Hops & Hlog).
  assert (Hcalc : forall p,
             FileUtils.calculate_file_hash hashlib (w_fs w) p hash_type
             = Raise (AttributeError hash_type)).
  { intros p. unfold FileUtils.calculate_file_hash. now rewrite Hnone. }
  assert (Hfold : forall files hash_map,
             fold_left (group_step hashlib (w_fs w) hash_type) files hash_map
             = hash_map).
  { induction files as [|p files IH]; intros hash_map; simpl; auto.
    unfold group_step at 2. rewrite Hcalc. apply IH. }
  rewrite Hfold. cbn [filter].
  eexists. exists new. split; [reflexivity|]. split; [exact Hops|].
  rewrite Hlog. clear Hops Hlog.
  generalize (FileUtils.list_files (w_fs w) directory).
  induction l as [|p files IH]; [reflexivity|].
  cbn [flat_map map]. rewrite Hcalc, IH. reflexivity.
Qed.

(** X4 on a directory of two files and the name sha999. *)
Lemma unknown_hash_type_finds_nothing_witness :
  exists w',
    DuplicateDetector.find_duplicates hashlib_md5 "d" "sha999"
      (mkWorld [("d/a", mkFile "hello" 1 1 "text/plain" true true);
                ("d/b", mkFile "hello" 2 2 "text/plain" true true)]
               (Logger.init_db 0))
    = Returns [] w'
    /\ map source_path (operations (w_db w')) = ["d/a"; "d/b"].
Proof.
  destruct (@unknown_hash_type_finds_nothing hashlib_md5 "d" "sha999"
              (mkWorld [("d/a", mkFile "hello" 1 1 "text/plain" true true);
                        ("d/b", mkFile "hello" 2 2 "text/plain" true true)]
                       (Logger.init_db 0)) eq_refl)
    as (w' & new & Hrun & Hops & Hlog).
  exists w'. split; [exact Hrun|]. rewrite Hops. simpl.
  apply (f_equal (map (fun x => snd (fst (fst x))))) in Hlog.
  rewrite !map_map in Hlog. exact Hlog.
Defined.

(** X5.  After [find_duplicates], every listed file that was hashed has
    exactly one metadata snapshot, holding its digest, detected type, size
    and times, whatever the table held for it before and however often the
    path was listed; the snapshots of all other paths are as before. *)
Theorem hashed_files_have_one_snapshot :
  forall (hashlib : FileUtils.hashlib_t) (directory hash_type : string) (w : world),
  exists groups w',
    DuplicateDetector.find_duplicates hashlib directory hash_type w
    = Returns groups w'
    /\ (forall p f hash_func,
          In p (FileUtils.list_files (w_fs w) directory) ->
          hashlib hash_type = Some hash_func ->
          lookup (w_fs w) p = Some f ->
          f_readable f = true ->
          map snapshot (Logger.select_metadata (w_db w') p)
          = [(p, hash_func (f_content f), f_mime f, Os.st_size f, f_mtime f,
              f_ctime f)])
    /\ (forall p,
          ~ In p (FileUtils.list_files (w_fs w) directory)
          \/ hash_fails hashlib hash_type (w_fs w) p = true ->
          map snapshot (Logger.select_metadata (w_db w') p)
          = map snapshot (Logger.select_metadata (w_db w) p)).
Proof.
  intros hashlib directory hash_type w. rewrite find_duplicates_run.
  eexists. eexists. split; [reflexivity|]. cbn [w_db]. split.
  - intros p f hash_func Hin Hh Hf Hr. rewrite hash_db_fold_select.
    apply existsb_eqb_In in Hin. rewrite Hin.
    unfold hash_fails, FileUtils.calculate_file_hash, Os.read_bytes.
    rewrite Hh, Hf, Hr. reflexivity.
  - intros p Hp. rewrite hash_db_fold_select.
    destruct Hp as [Hp | Hp].
    + apply existsb_eqb_not_In in Hp. now rewrite Hp.
    + rewrite Hp. now rewrite andb_false_r.
Qed.

(* ================================================================== *)
(** ** remove_duplicates: what is deleted and what is left *)

(** The run on a mapping of distinct existing paths, with a strategy the
    code knows. *)
Lemma remove_duplicates_returns keep_strategy duplicates w :
  valid_strategy keep_strategy ->
  NoDup (members duplicates) ->
  (forall p, In p (members duplicates) -> exists_file (w_fs w) p = true) ->
  exists w' new,
    DuplicateDetector.remove_duplicates duplicates keep_strategy w
    = Returns (filter (deletable (w_fs w))
                      (all_candidates (w_fs w) keep_strategy duplicates)) w'
    /\ operations (w_db w') = operations (w_db w) ++ new
    /\ map logged new
       = map (fun p => (p, removal_status (w_fs w) p))
             (all_candidates (w_fs w) keep_strategy duplicates)
    /\ Forall removal_entry new
    /\ (forall q, lookup (w_fs w') q
                  = if removed_by (w_fs w)
                         (all_candidates (w_fs w) keep_strategy duplicates) q
                    then None else lookup (w_fs w) q).
Proof.
  intros Hvalid Hnd Hexists.
  unfold DuplicateDetector.remove_duplicates, PyDict.items.
  destruct (remove_run_spec keep_strategy duplicates [] w Hnd)
    as (processed & remaining & w' & new & Hsplit & Hops & Hlog & Hent & Hfs
        & [[-> Hret] | (e & h & g & rest & -> & _ & _ & Hsort)]).
  - rewrite app_nil_r in Hsplit. subst processed.
    exists w', new. repeat split; assumption.
  - exfalso.
    destruct (@sort_by_strategy_spec (w_fs w) keep_strategy g Hvalid)
      as (sorted_files & Hok & _).
    + intros p Hp. apply Hexists. rewrite Hsplit.
      eapply in_members; [|exact Hp].
      apply in_or_app. right. now left.
    + congruence.
Qed.


(** The candidates of a group of two or more existing paths: the sorted
    group without its head. *)
Lemma candidates_of_group fs keep_strategy group :
  valid_strategy keep_strategy ->
  (forall p, In p group -> exists_file fs p = true) ->
  (2 <= List.length group)%nat ->
  exists keep_file,
    DuplicateDetector.sort_by_strategy fs keep_strategy group
    = Ok (keep_file :: candidates fs keep_strategy group)
    /\ Permutation (keep_file :: candidates fs keep_strategy group) group.
Proof.
  intros Hvalid Hexists Hlen.
  destruct (sort_by_strategy_spec fs group Hvalid Hexists)
    as (sorted_files & Hsort & Hperm & _).
  unfold candidates. rewrite Hsort.
  destruct (Nat.leb_spec (List.length group) 1); [lia|].
  destruct sorted_files as [|keep_file rest].
  - apply Permutation_nil in Hperm. subst. simpl in Hlen. lia.
  - exists keep_file. split; [reflexivity | exact Hperm].
Qed.

Lemma in_all_candidates fs keep_strategy duplicates p :
  In p (all_candidates fs keep_strategy duplicates)
  <-> exists file_hash group,
        In (file_hash, group) duplicates
        /\ In p (candidates fs keep_strategy group).
Proof.
  unfold all_candidates. rewrite in_flat_map. split.
  - intros ([h g] & Hin & Hp). exists h, g. auto.
  - intros (h & g & Hin & Hp). exists (h, g). auto.
Qed.







(** X7.  With a strategy the code does not know, [remove_duplicates] deletes
    nothing and logs nothing: it returns the empty list when no group has
    two members, and otherwise raises ValueError with the name of the
    strategy, leaving the world as it was. *)
Theorem unknown_strategy_deletes_nothing :
  forall keep_strategy duplicates w,
    ~ valid_strategy keep_strategy ->
    (Forall (fun group => (List.length group <= 1)%nat) (PyDict.values duplicates) ->
     DuplicateDetector.remove_duplicates duplicates keep_strategy w
     = Returns [] w)
    /\ (Exists (fun group => (2 <= List.length group)%nat) (PyDict.values duplicates) ->
        DuplicateDetector.remove_duplicates duplicates keep_strategy w
        = Raises (ValueError ("Unknown keep strategy: " ++ keep_strategy)%string) w).
Proof.
  intros keep_strategy duplicates w Hinvalid.
  assert (Hsort : forall fs group,
             DuplicateDetector.sort_by_strategy fs keep_strategy group
             = Raise (ValueError ("Unknown keep strategy: " ++ keep_strategy)%string)).
  { intros fs group. unfold DuplicateDetector.sort_by_strategy.
    unfold valid_strategy in Hinvalid. simpl in Hinvalid.
    repeat match goal with
           | |- context [String.eqb keep_strategy ?s] =>
               destruct (String.eqb_spec keep_strategy s);
               [exfalso; apply Hinvalid; subst; tauto|]
           end.
    reflexivity. }
  unfold DuplicateDetector.remove_duplicates, PyDict.items, PyDict.values.
  generalize (@nil string) as removed_files.
  induction duplicates as [|[h g] ds IH]; intros removed_files.
  - split; [reflexivity|]. intros H. inversion H.
  - cbn [for_each map]. unfold bind.
    unfold DuplicateDetector.remove_group at 1 3. cbn [snd].
    destruct (Nat.leb_spec (List.length g) 1) as [Hlen | Hlen].
    + unfold ret. destruct (IH removed_files) as [IHsmall IHbig]. split.
      * intros H. inversion H; subst. auto.
      * intros H. inversion H; subst; [lia | auto].
    + unfold bind, lift. rewrite Hsort. split.
      * intros H. inversion H; subst. lia.
      * reflexivity.
Qed.

(** X7 on the groups of the locked copy and the strategy "random". *)
Lemma unknown_strategy_deletes_nothing_witness :
  DuplicateDetector.remove_duplicates locked_copy_groups "random"
    locked_copy_world
  = Raises (ValueError "Unknown keep strategy: random") locked_copy_world.
Proof.
  apply (@unknown_strategy_deletes_nothing "random" locked_copy_groups
           locked_copy_world).
  - unfold valid_strategy. simpl. intuition discriminate.
  - left. simpl. lia.
Defined.

Lemma remove_group_raises keep_strategy removed_files file_hash group w e :
  (2 <= List.length group)%nat ->
  DuplicateDetector.sort_by_strategy (w_fs w) keep_strategy group = Raise e ->
  DuplicateDetector.remove_group keep_strategy removed_files (file_hash, group) w
  = Raises e w.
Proof.
  intros Hlen Hsort. unfold DuplicateDetector.remove_group. cbn [snd].
  destruct (Nat.leb_spec (List.length group) 1); [lia|].
  unfold bind, lift. now rewrite Hsort.
Qed.

(** A group whose sorting raises makes the whole run raise, and none of
    its members has been touched by then. *)
Lemma run_raises keep_strategy file_hash group e0 :
  (2 <= List.length group)%nat ->
  forall duplicates removed_files w,
    NoDup (members duplicates) ->
    In (file_hash, group) duplicates ->
    DuplicateDetector.sort_by_strategy (w_fs w) keep_strategy group = Raise e0 ->
    exists e w',
      for_each duplicates (DuplicateDetector.remove_group keep_strategy)
               removed_files w = Raises e w'
      /\ forall q, In q group -> lookup (w_fs w') q = lookup (w_fs w) q.
Proof.
  intros Hlen.
  induction duplicates as [|[h g] ds IH]; intros removed_files w Hnd Hin Hsort;
    [contradiction|].
  rewrite members_cons in Hnd.
  pose proof (NoDup_app_remove_r _ _ Hnd) as Hg.
  pose proof (NoDup_app_remove_l _ _ Hnd) as Hds.
  cbn [for_each]. unfold bind.
  destruct (remove_group_spec keep_strategy removed_files h w Hg)
    as [(w1 & new1 & Hrun1 & _ & _ & _ & Hfs1) | (e & Hrun1 & _ & _)].
  - rewrite Hrun1. destruct Hin as [Heq | Hin].
    + injection Heq as -> ->.
      rewrite (@remove_group_raises keep_strategy removed_files file_hash
                 group w e0 Hlen Hsort) in Hrun1. discriminate.
    + assert (Hsame : forall q, In q group ->
                lookup (w_fs w1) q = lookup (w_fs w) q).
      { intros q Hq. rewrite Hfs1, removed_by_not_in; auto.
        intros Hc. apply candidates_incl in Hc.
        apply (NoDup_app_disjoint _ _ q Hnd Hc).
        eapply in_members; eauto. }
      destruct (IH (removed_files
                    ++ filter (deletable (w_fs w))
                              (candidates (w_fs w) keep_strategy g)) w1 Hds Hin)
        as (e & w' & Hrun & Hkeep).
      * rewrite <- Hsort. now apply sort_by_strategy_ext.
      * exists e, w'. split; [exact Hrun|].
        intros q Hq. rewrite Hkeep by assumption. now apply Hsame.
  - rewrite Hrun1. exists e, w. auto.
Qed.

(** X8.  With a strategy the code knows, a member that does not exist, in a
    group of two or more of a mapping of distinct paths, makes
    [remove_duplicates] raise instead of returning a list; when it raises,
    no member of that group has been deleted. *)
Theorem missing_member_raises :
  forall keep_strategy duplicates w file_hash group p,
    valid_strategy keep_strategy ->
    NoDup (members duplicates) ->
    In (file_hash, group) duplicates ->
    (2 <= List.length group)%nat ->
    In p group ->
    lookup (w_fs w) p = None ->
    exists e w',
      DuplicateDetector.remove_duplicates duplicates keep_strategy w
      = Raises e w'
      /\ forall q, In q group -> lookup (w_fs w') q = lookup (w_fs w) q.
Proof.
  intros keep_strategy duplicates w h g p Hvalid Hnd Hin Hlen Hp Hmissing.
  destruct (@sorted_raises string
              (fun p => rbind (Os.stat (w_fs w) p)
                              (fun f => Ok (key_of keep_strategy f)))
              (reversed keep_strategy) g p (FileNotFoundError p) Hp)
    as [e0 Hsort].
  { unfold Os.stat. now rewrite Hmissing. }
  rewrite <- sort_by_strategy_valid in Hsort by assumption.
  exact (@run_raises keep_strategy h g e0 Hlen duplicates [] w Hnd Hin Hsort).
Qed.

(** X8 on a group that names a file that is not there. *)
Lemma missing_member_raises_witness :
  exists e w',
    DuplicateDetector.remove_duplicates
      [("h", ["d/a"; "d/gone"; "d/b"])] "largest" locked_copy_world
    = Raises e w'
    /\ map fst (w_fs w') = map fst (w_fs locked_copy_world).
Proof.
  destruct (@missing_member_raises "largest"
              [("h", ["d/a"; "d/gone"; "d/b"])] locked_copy_world
              "h" ["d/a"; "d/gone"; "d/b"] "d/gone")
    as (e & w' & Hrun & _).
  - unfold valid_strategy. simpl. auto.
  - unfold members. simpl. repeat constructor; simpl; intuition discriminate.
  - now left.
  - simpl. lia.
  - simpl. auto.
  - reflexivity.
  - exists e, w'. split; [exact Hrun|].
    vm_compute in Hrun. injection Hrun as _ <-. reflexivity.
Defined.

(* ================================================================== *)
(** ** find_duplicates, then remove_duplicates or analyze_duplicates *)



Lemma all_candidates_length fs keep_strategy duplicates :
  valid_strategy keep_strategy ->
  (forall p, In p (members duplicates) -> exists_file fs p = true) ->
  Forall (fun group => group <> []) (PyDict.values duplicates) ->
  Z.of_nat (List.length (all_candidates fs keep_strategy duplicates))
  = extra_members (PyDict.values duplicates).
Proof.
  intros Hvalid. unfold extra_members, sum_Z, PyDict.values.
  induction duplicates as [|[h g] ds IH]; intros Hexists Hne; [reflexivity|].
  rewrite all_candidates_cons, length_app, Nat2Z.inj_add. cbn [map fold_right snd].
  inversion Hne as [|? ? Hg Hds]; subst.
  rewrite IH; auto.
  2:{ intros p Hp. apply Hexists. rewrite members_cons. apply in_or_app.
      now right. }
  f_equal. unfold DuplicateDetector.len.
  destruct (Nat.leb_spec (List.length g) 1) as [Hlen | Hlen].
  - unfold candidates. destruct (Nat.leb_spec (List.length g) 1); [|lia].
    destruct g as [|a [|b g]]; simpl in *; try lia. congruence.
  - destruct (@candidates_of_group fs keep_strategy g Hvalid)
      as (keep_file & _ & Hperm); auto.
    + intros p Hp. apply Hexists. rewrite members_cons. apply in_or_app.
      now left.
    + apply Permutation_length in Hperm. simpl in Hperm. lia.
Qed.

Lemma filter_all {A} (f : A -> bool) (l : list A) :
  (forall x, In x l -> f x = true) -> filter f l = l.
Proof.
  induction l as [|a l IH]; intros H; simpl; auto.
  rewrite (H a) by now left. f_equal. apply IH. intros. apply H. now right.
Qed.

(** X10.  On a mapping of distinct existing paths whose groups have a
    readable first member, the number of files [remove_duplicates] removes
    is at most the number of duplicate files [analyze_duplicates] announces,
    and equal to it when every member can be deleted. *)
Theorem removed_count_is_bounded_by_analysis :
  forall keep_strategy duplicates w,
    valid_strategy keep_strategy ->
    NoDup (members duplicates) ->
    (forall p, In p (members duplicates) -> exists_file (w_fs w) p = true) ->
    Forall (inspectable (w_fs w)) (PyDict.values duplicates) ->
    exists st removed w',
      DuplicateDetector.analyze_duplicates (w_fs w) duplicates = Ok st
      /\ DuplicateDetector.remove_duplicates duplicates keep_strategy w
         = Returns removed w'
      /\ Z.of_nat (List.length removed)
         <= DuplicateDetector.total_duplicate_files st
      /\ ((forall p, In p (members duplicates) -> deletable (w_fs w) p = true) ->
          Z.of_nat (List.length removed)
          = DuplicateDetector.total_duplicate_files st).
Proof.
  intros keep_strategy duplicates w Hvalid Hnd Hexists Hinspect.
  unfold DuplicateDetector.analyze_duplicates,
    DuplicateDetector._get_duplicate_types.
  rewrite (sum_space_spec Hinspect). cbn [rbind].
  destruct (count_types_spec Hinspect []) as (types & -> & _).
  cbn [rbind].
  destruct (@remove_duplicates_returns keep_strategy duplicates w Hvalid Hnd
              Hexists)
    as (w' & new & Hrun & _).
  eexists. eexists. exists w'. split; [reflexivity|]. split; [exact Hrun|].
  cbn [DuplicateDetector.total_duplicate_files].
  assert (Hne : Forall (fun group => group <> []) (PyDict.values duplicates)).
  { eapply Forall_impl; [|exact Hinspect].
    intros g (f & rest & x & -> & _). discriminate. }
  pose proof (@all_candidates_length (w_fs w) keep_strategy duplicates Hvalid
                Hexists Hne) as Hlen.
  unfold extra_members, sum_Z in Hlen. rewrite <- Hlen. split.
  - apply inj_le. apply filter_length_le.
  - intros Hdel. rewrite filter_all; [reflexivity|].
    intros p Hp. apply Hdel. eapply all_candidates_incl; eauto.
Qed.

(** X10 on the two groups of the locked copy: three duplicates announced,
    two removed, since d/a cannot be deleted. *)
Lemma removed_count_is_bounded_by_analysis_witness :
  exists st removed w',
    DuplicateDetector.analyze_duplicates (w_fs locked_copy_world)
      locked_copy_groups = Ok st
    /\ DuplicateDetector.remove_duplicates locked_copy_groups "newest"
         locked_copy_world = Returns removed w'
    /\ DuplicateDetector.total_duplicate_files st = 3
    /\ List.length removed = 2%nat.
Proof.
  destruct (@removed_count_is_bounded_by_analysis "newest" locked_copy_groups
              locked_copy_world)
    as (st & removed & w' & Han & Hrun & _).
  - unfold valid_strategy. simpl. auto.
  - unfold members, locked_copy_groups. simpl.
    repeat constructor; simpl; intuition discriminate.
  - intros p Hp. unfold members, locked_copy_groups in Hp. simpl in Hp.
    repeat (destruct Hp as [<- | Hp]; [reflexivity|]). destruct Hp.
  - repeat constructor; repeat eexists; reflexivity.
  - exists st, removed, w'. split; [exact Han|]. split; [exact Hrun|].
    vm_compute in Han. injection Han as <-.
    vm_compute in Hrun. injection Hrun as <- _. split; reflexivity.
Defined.

(* ================================================================== *)
(** ** classify_file *)

Section ClassifyRun.

Variable utf8_decode : string -> option string.
Variable self : FileClassifier.classifier.

(** What a call of [classify_file] on a file whose type is detected does. *)
Lemma classify_file_run file_path w file_type :
  FileUtils.get_file_type (w_fs w) file_path = Ok file_type ->
  FileClassifier.classify_file utf8_decode self file_path w
  = Returns
      (FileClassifier.mkClassification file_path file_type
         (fst (fst (classify_outcome utf8_decode self (w_fs w) file_path file_type)))
         (snd (fst (classify_outcome utf8_decode self (w_fs w) file_path file_type))))
      (after_logging w file_path
         (snd (classify_outcome utf8_decode self (w_fs w) file_path file_type))).
Proof.
  intros Hty.
  unfold FileClassifier.classify_file, classify_outcome, bind, lift, try_except.
  rewrite Hty.
  destruct (PyStr.startswith file_type "text/").
  - unfold FileClassifier._classify_text_file, try_except, bind, lift.
    destruct (FileClassifier.read_text utf8_decode (w_fs w) file_path);
      reflexivity.
  - destruct (PyStr.startswith file_type "image/").
    + unfold FileClassifier._classify_image_file.
      destruct (FileClassifier.image_extractor self) as [extractor|];
        [|reflexivity].
      destruct (FileClassifier.image_model self) as [model|]; [|reflexivity].
      unfold try_except, bind, lift.
      destruct (FileClassifier.run_image_model extractor model (w_fs w) file_path);
        reflexivity.
    + reflexivity.
Qed.

Lemma after_logging_fs w file_path failure :
  w_fs (after_logging w file_path failure) = w_fs w.
Proof. destruct failure as [[t d]|]; reflexivity. Qed.

Lemma category_in_categories extension :
  In (FileClassifier._get_category_from_extension extension) categories.
Proof.
  unfold FileClassifier._get_category_from_extension, categories.
  repeat match goal with
         | |- context [if ?b then _ else _] => destruct b
         end; simpl; tauto.
Qed.

Lemma classify_outcome_range fs file_path file_type :
  In (fst (fst (classify_outcome utf8_decode self fs file_path file_type)))
     categories
  /\ In (snd (fst (classify_outcome utf8_decode self fs file_path file_type)))
        [0; 5 # 10; 8 # 10; 9 # 10; 1]%Q.
Proof.
  unfold classify_outcome.
  destruct (PyStr.startswith file_type "text/").
  - destruct (FileClassifier.read_text utf8_decode fs file_path); simpl; tauto.
  - destruct (PyStr.startswith file_type "image/").
    + destruct (FileClassifier.image_extractor self) as [extractor|];
        [|simpl; tauto].
      destruct (FileClassifier.image_model self) as [model|]; [|simpl; tauto].
      destruct (FileClassifier.run_image_model extractor model fs file_path);
        simpl; tauto.
    + cbn [fst snd]. split; [apply category_in_categories | simpl; tauto].
Qed.

(** X11.  On a file whose type can be detected, [classify_file] returns: the
    category is one of the eight of the code, the confidence one of 0, 0.5,
    0.8, 0.9 and 1, hence between 0 and 1, the path and the detected type
    are handed back, and no file has been touched. *)
Theorem classification_is_in_range :
  forall file_path w file_type,
    FileUtils.get_file_type (w_fs w) file_path = Ok file_type ->
    exists cl w',
      FileClassifier.classify_file utf8_decode self file_path w = Returns cl w'
      /\ FileClassifier.cl_file_path cl = file_path
      /\ FileClassifier.cl_file_type cl = file_type
      /\ In (FileClassifier.category cl) categories
      /\ In (FileClassifier.confidence cl) [0; 5 # 10; 8 # 10; 9 # 10; 1]%Q
      /\ (0 <= FileClassifier.confidence cl <= 1)%Q
      /\ w_fs w' = w_fs w.
Proof.
  intros file_path w file_type Hty.
  rewrite (classify_file_run file_path w Hty).
  destruct (classify_outcome_range (w_fs w) file_path file_type) as [Hcat Hconf].
  eexists. eexists. split; [reflexivity|]. cbn.
  repeat split; auto using after_logging_fs.
  - simpl in Hconf.
    destruct Hconf as [<- | [<- | [<- | [<- | [<- | []]]]]]; discriminate.
  - simpl in Hconf.
    destruct Hconf as [<- | [<- | [<- | [<- | [<- | []]]]]]; discriminate.
Qed.

(** X12.  [classify_file] raises exactly when the type of the file cannot be
    detected, that is when the file is missing or cannot be read; it then
    raises the exception of the detection and has logged nothing. *)
Theorem classification_raises_on_undetectable :
  forall file_path w,
    (forall e,
        FileUtils.get_file_type (w_fs w) file_path = Raise e ->
        FileClassifier.classify_file utf8_decode self file_path w = Raises e w)
    /\ (lookup (w_fs w) file_path = None ->
        FileClassifier.classify_file utf8_decode self file_path w
        = Raises (FileNotFoundError file_path) w)
    /\ (forall f, lookup (w_fs w) file_path = Some f -> f_readable f = false ->
        FileClassifier.classify_file utf8_decode self file_path w
        = Raises (PermissionError file_path) w)
    /\ (forall e w',
        FileClassifier.classify_file utf8_decode self file_path w = Raises e w' ->
        FileUtils.get_file_type (w_fs w) file_path = Raise e /\ w' = w).
Proof.
  intros file_path w.
  assert (Hraise : forall e,
             FileUtils.get_file_type (w_fs w) file_path = Raise e ->
             FileClassifier.classify_file utf8_decode self file_path w
             = Raises e w).
  { intros e He. unfold FileClassifier.classify_file, bind, lift.
    now rewrite He. }
  split; [exact Hraise|]. split; [|split].
  - intros Hnone. apply Hraise. unfold FileUtils.get_file_type.
    now rewrite Hnone.
  - intros f Hf Hr. apply Hraise. unfold FileUtils.get_file_type.
    now rewrite Hf, Hr.
  - intros e w' Hrun.
    destruct (FileUtils.get_file_type (w_fs w) file_path) as [ty|e0] eqn:Hty.
    + rewrite (classify_file_run file_path w Hty) in Hrun. discriminate.
    + rewrite (Hraise e0 eq_refl) in Hrun. injection Hrun as <- <-. auto.
Qed.

(** X13.  Classifying a file again gives the same category and confidence:
    the result depends on the files only, which the first call has not
    touched, and not on what has been logged in between. *)
Theorem classification_is_repeatable :
  forall file_path w cl w1,
    FileClassifier.classify_file utf8_decode self file_path w = Returns cl w1 ->
    exists w2,
      FileClassifier.classify_file utf8_decode self file_path w1 = Returns cl w2.
Proof.
  intros file_path w cl w1 Hrun.
  destruct (FileUtils.get_file_type (w_fs w) file_path) as [ty|e] eqn:Hty.
  - rewrite (classify_file_run file_path w Hty) in Hrun.
    injection Hrun as <- <-.
    rewrite (@classify_file_run file_path
               (after_logging w file_path
                  (snd (classify_outcome utf8_decode self (w_fs w) file_path ty)))
               ty)
      by (rewrite after_logging_fs; exact Hty).
    rewrite after_logging_fs. eexists. reflexivity.
  - unfold FileClassifier.classify_file, bind, lift in Hrun.
    rewrite Hty in Hrun. discriminate.
Qed.

(** X14.  A file detected as text/... is classified on its content path
    whatever its name: as a document with confidence 0.8 when its bytes are
    UTF-8, with nothing logged, and as unknown with confidence 0 otherwise,
    with one failure of type text_classification logged. *)
Theorem text_files_are_documents :
  forall file_path w f,
    lookup (w_fs w) file_path = Some f ->
    f_readable f = true ->
    PyStr.startswith (f_mime f) "text/" = true ->
    (forall content,
        utf8_decode (f_content f) = Some content ->
        FileClassifier.classify_file utf8_decode self file_path w
        = Returns (FileClassifier.mkClassification file_path (f_mime f)
                     "document" (8 # 10)) w)
    /\ (utf8_decode (f_content f) = None ->
        FileClassifier.classify_file utf8_decode self file_path w
        = Returns (FileClassifier.mkClassification file_path (f_mime f)
                     "unknown" 0)
            (mkWorld (w_fs w)
               (Logger.insert_operation (w_db w) "text_classification"
                  file_path None "failure" (exn_str UnicodeDecodeError)))).
Proof.
  intros file_path w f Hf Hr Htext.
  assert (Hty : FileUtils.get_file_type (w_fs w) file_path = Ok (f_mime f)).
  { unfold FileUtils.get_file_type. now rewrite Hf, Hr. }
  rewrite (classify_file_run file_path w Hty).
  unfold classify_outcome, FileClassifier.read_text, Os.read_bytes.
  rewrite Htext, Hf, Hr. cbn [rbind]. split.
  - intros content ->. reflexivity.
  - intros ->. reflexivity.
Qed.

End ClassifyRun.

(** X11 on an image, with no model loaded. *)
Lemma classification_is_in_range_witness :
  exists cl w',
    FileClassifier.classify_file (fun s => Some s)
      (FileClassifier.mkClassifier None None) "pic.dat"
      (mkWorld [("pic.dat", mkFile "GIF89a" 1 1 "image/gif" true true)]
               (Logger.init_db 0))
    = Returns cl w'
    /\ FileClassifier.category cl = "image"
    /\ (0 <= FileClassifier.confidence cl <= 1)%Q.
Proof.
  destruct (@classification_is_in_range (fun s => Some s)
              (FileClassifier.mkClassifier None None) "pic.dat"
              (mkWorld [("pic.dat", mkFile "GIF89a" 1 1 "image/gif" true true)]
                       (Logger.init_db 0))
              "image/gif" eq_refl)
    as (cl & w' & Hrun & _ & _ & _ & _ & Hrange & _).
  exists cl, w'. split; [exact Hrun|]. split; [|exact Hrange].
  vm_compute in Hrun. now injection Hrun as <- _.
Defined.

(** X13 on the Python source of C3. *)
Lemma classification_is_repeatable_witness :
  exists cl w1 w2,
    FileClassifier.classify_file ascii_only
      (FileClassifier.mkClassifier None None) "src/main.py" python_source_world
    = Returns cl w1
    /\ FileClassifier.classify_file ascii_only
         (FileClassifier.mkClassifier None None) "src/main.py" w1
       = Returns cl w2.
Proof.
  destruct (@classification_is_repeatable ascii_only
              (FileClassifier.mkClassifier None None) "src/main.py"
              python_source_world
              (FileClassifier.mkClassification "src/main.py" "text/x-python"
                 "document" (8 # 10))
              python_source_world eq_refl)
    as (w2 & Hagain).
  exists (FileClassifier.mkClassification "src/main.py" "text/x-python"
            "document" (8 # 10)), python_source_world, w2.
  split; [reflexivity | exact Hagain].
Defined.

(** X14 on the Python source of C3: a document, not code. *)
Lemma text_files_are_documents_witness :
  FileClassifier.classify_file ascii_only
    (FileClassifier.mkClassifier None None) "src/main.py" python_source_world
  = Returns (FileClassifier.mkClassification "src/main.py" "text/x-python"
               "document" (8 # 10)) python_source_world.
Proof.
  apply (proj1 (@text_files_are_documents ascii_only
                  (FileClassifier.mkClassifier None None) "src/main.py"
                  python_source_world
                  (mkFile "print(1)" 10 10 "text/x-python" true true)
                  eq_refl eq_refl eq_refl)
               "print(1)").
  reflexivity.
Defined.

(** X15.  [_get_category_from_extension] answers "other" exactly for the
    extensions that, lower-cased, are not in the table; for the others it
    answers the category of the table. *)
Theorem other_is_for_unknown_extensions :
  forall extension,
    (FileClassifier._get_category_from_extension extension = "other"
     <-> ~ In (PyStr.lower extension) (map fst extension_table))
    /\ (forall cat,
          In (PyStr.lower extension, cat) extension_table ->
          FileClassifier._get_category_from_extension extension = cat).
Proof.
  intros extension. split; [|intros cat; apply category_of_table].
  unfold FileClassifier._get_category_from_extension, FileClassifier.mem.
  set (e := PyStr.lower extension).
  split.
  - repeat match goal with
           | |- context [if existsb (String.eqb e) ?l then _ else _] =>
               destruct (existsb (String.eqb e) l) eqn:?H; [discriminate|]
           end.
    intros _ Hin.
    repeat match goal with
           | H : existsb (String.eqb e) _ = false |- _ =>
               apply existsb_eqb_not_In in H
           end.
    unfold extension_table in Hin. rewrite !map_app, !map_map in Hin.
    cbn [fst] in Hin. rewrite !map_id in Hin.
    repeat (apply in_app_or in Hin; destruct Hin as [Hin | Hin];
            [contradiction|]).
    contradiction.
  - intros Hnot.
    repeat match goal with
           | |- context [if existsb (String.eqb e) ?l then _ else _] =>
               let E := fresh "E" in
               destruct (existsb (String.eqb e) l) eqn:E;
               [exfalso; apply Hnot; apply existsb_eqb_In in E;
                unfold extension_table; rewrite !map_app, !map_map;
                cbn [fst]; rewrite !map_id;
                repeat (apply in_or_app; first [left; exact E | right]);
                exact E
               | clear E]
           end.
    reflexivity.
Qed.

(* ================================================================== *)
(** ** utils/logger.py: history *)

Section SortIsSorted.

Variable A : Type.
Variable reverse : bool.

Let ordered (x y : Z * A) : Prop := PySorted.before reverse (fst x) (fst y) = true.

Lemma before_total k1 k2 :
  PySorted.before reverse k1 k2 = false -> PySorted.before reverse k2 k1 = true.
Proof.
  unfold PySorted.before. destruct reverse; rewrite Z.leb_gt, Z.leb_le; lia.
Qed.

Lemma before_trans k1 k2 k3 :
  PySorted.before reverse k1 k2 = true -> PySorted.before reverse k2 k3 = true ->
  PySorted.before reverse k1 k3 = true.
Proof.
  unfold PySorted.before. destruct reverse; rewrite !Z.leb_le; lia.
Qed.

Lemma insert_sorted (x : Z * A) (l : list (Z * A)) :
  StronglySorted ordered l -> StronglySorted ordered (PySorted.insert reverse x l).
Proof.
  induction 1 as [|y l Hl IH Hy]; simpl.
  - repeat constructor.
  - destruct (PySorted.before reverse (fst x) (fst y)) eqn:Hcmp.
    + constructor; [constructor; assumption|].
      constructor; [exact Hcmp|].
      eapply Forall_impl; [|exact Hy]. intros z Hz.
      unfold ordered in *. eapply before_trans; eauto.
    + constructor; [exact IH|].
      apply before_total in Hcmp.
      assert (Hperm := insert_perm reverse x l).
      rewrite Forall_forall in *. intros z Hz.
      eapply Permutation_in in Hz; [|exact Hperm].
      destruct Hz as [<- | Hz]; [exact Hcmp | now apply Hy].
Qed.

Lemma sort_sorted (l : list (Z * A)) :
  StronglySorted ordered (PySorted.sort reverse l).
Proof.
  induction l as [|x l IH]; simpl; [constructor | now apply insert_sorted].
Qed.

End SortIsSorted.

Lemma firstn_skipn_sorted {A} (R : A -> A -> Prop) (n : nat) (l : list A) :
  StronglySorted R l ->
  StronglySorted R (firstn n l)
  /\ forall x y, In x (firstn n l) -> In y (skipn n l) -> R x y.
Proof.
  intros Hl. revert n. induction Hl as [|a l Hl IH Ha]; intros n.
  - rewrite firstn_nil, skipn_nil. split; [constructor | contradiction].
  - destruct n as [|n]; simpl.
    + split; [constructor | contradiction].
    + destruct (IH n) as [Hs Hcross]. split.
      * constructor; [exact Hs|].
        rewrite Forall_forall in *. intros z Hz. apply Ha.
        rewrite <- (firstn_skipn n l). apply in_or_app. now left.
      * intros x y [<- | Hx] Hy; [|now apply Hcross].
        rewrite Forall_forall in Ha. apply Ha.
        rewrite <- (firstn_skipn n l). apply in_or_app. now right.
Qed.

(** X16.  [get_operation_history] returns rows of the table, most recent
    first; with a limit of at least 0 it returns as many rows as the limit
    allows and the table holds, and no row left out is more recent than a
    row returned; with a negative limit it returns the whole table. *)
Theorem history_is_the_most_recent_rows :
  forall (db : database) (limit : Z),
    let history := Logger.get_operation_history db limit in
    (forall o, In o history -> In o (operations db))
    /\ StronglySorted (fun o1 o2 => op_timestamp o2 <= op_timestamp o1) history
    /\ (0 <= limit ->
        List.length history
        = Nat.min (Z.to_nat limit) (List.length (operations db)))
    /\ (limit < 0 -> Permutation history (operations db))
    /\ exists left_out,
         Permutation (history ++ left_out) (operations db)
         /\ forall o1 o2, In o1 history -> In o2 left_out ->
                          op_timestamp o2 <= op_timestamp o1.
Proof.
  intros db limit history. subst history. unfold Logger.get_operation_history.
  set (decorated := map (fun o => (op_timestamp o, o)) (operations db)).
  set (rows := map snd (PySorted.sort true decorated)).
  assert (Hperm : Permutation rows (operations db)).
  { subst rows decorated. rewrite (sort_perm true). rewrite map_map. simpl.
    now rewrite map_id. }
  assert (Hsorted : StronglySorted
                      (fun o1 o2 => op_timestamp o2 <= op_timestamp o1) rows).
  { clear Hperm. subst rows.
    assert (Hkeys : Forall (fun x => fst x = op_timestamp (snd x))
                           (PySorted.sort true decorated)).
    { rewrite Forall_forall. intros x Hx.
      eapply Permutation_in in Hx; [|apply sort_perm].
      subst decorated. apply in_map_iff in Hx. destruct Hx as (o & <- & _).
      reflexivity. }
    pose proof (sort_sorted true decorated) as Hs.
    induction Hs as [|x l Hl IH Hx]; simpl; [constructor|].
    inversion Hkeys as [|? ? Hkx Hkl]; subst.
    constructor; [now apply IH|].
    rewrite Forall_forall in *. intros o Ho.
    apply in_map_iff in Ho. destruct Ho as (y & <- & Hy).
    specialize (Hx y Hy). unfold PySorted.before in Hx.
    apply Z.leb_le in Hx. rewrite Hkx, (Hkl y Hy) in Hx. exact Hx. }
  destruct (Z.ltb_spec limit 0) as [Hneg | Hpos].
  - split; [intros o Ho; eapply Permutation_in; eauto|].
    split; [exact Hsorted|]. split; [lia|]. split; [auto|].
    exists []. rewrite app_nil_r. split; [exact Hperm | contradiction].
  - destruct (firstn_skipn_sorted (Z.to_nat limit) Hsorted) as [Hfirst Hcross].
    split.
    { intros o Ho. eapply Permutation_in; [exact Hperm|].
      rewrite <- (firstn_skipn (Z.to_nat limit) rows). apply in_or_app.
      now left. }
    split; [exact Hfirst|]. split.
    { intros _. rewrite length_firstn.
      now rewrite (Permutation_length Hperm). }
    split; [lia|].
    exists (skipn (Z.to_nat limit) rows). split.
    + now rewrite firstn_skipn.
    + intros o1 o2 H1 H2. now apply Hcross.
Qed.

(* ================================================================== *)
(** ** utils/logger.py: the report, by type and status *)

Lemma find_row_count_group t s groups t' s' :
  find_row (Logger.count_group t s groups) t' s'
  = if String.eqb t t' && String.eqb s s'
    then Some (match find_row groups t s with Some c => c + 1 | None => 1 end)
    else find_row groups t' s'.
Proof.
  induction groups as [|[[t0 s0] c0] groups IH]; simpl.
  - reflexivity.
  - destruct (String.eqb_spec t0 t) as [E1 | E1];
      destruct (String.eqb_spec s0 s) as [E2 | E2]; simpl;
      try rewrite IH;
      destruct (String.eqb_spec t t') as [E3 | E3];
      destruct (String.eqb_spec s s') as [E4 | E4];
      destruct (String.eqb_spec t0 t') as [E5 | E5];
      destruct (String.eqb_spec s0 s') as [E6 | E6];
      simpl; try reflexivity; try congruence.
Qed.

Lemma find_row_fold ops t s :
  forall groups,
    find_row (fold_left (fun g o => Logger.count_group (operation_type o) (status o) g)
                        ops groups) t s
    = match find_row groups t s with
      | Some c => Some (c + count_matching ops t s)
      | None => if count_matching ops t s =? 0 then None
                else Some (count_matching ops t s)
      end.
Proof.
  unfold count_matching.
  induction ops as [|o ops IH]; intros groups; simpl.
  - destruct (find_row groups t s); [f_equal; lia | reflexivity].
  - rewrite IH, find_row_count_group.
    change (String.eqb (operation_type o) t && String.eqb (status o) s)
      with (matching t s o).
    destruct (matching t s o) eqn:Hm.
    + unfold matching in Hm. apply andb_true_iff in Hm. destruct Hm as [Ht Hs].
      apply String.eqb_eq in Ht, Hs. rewrite Ht, Hs.
      cbn [List.length]. rewrite Nat2Z.inj_succ.
      destruct (find_row groups t s).
      * f_equal. lia.
      * destruct (Z.eqb_spec (Z.succ (Z.of_nat (List.length
                    (filter (matching t s) ops)))) 0);
          [lia|]. f_equal. lia.
    + reflexivity.
Qed.

Lemma has_type_row_count_group t s groups t' :
  has_type_row (Logger.count_group t s groups) t'
  = has_type_row groups t' || String.eqb t t'.
Proof.
  unfold has_type_row.
  induction groups as [|[[t0 s0] c0] groups IH]; simpl.
  - now rewrite orb_false_r.
  - destruct (String.eqb t0 t && String.eqb s0 s) eqn:E; simpl.
    + apply andb_true_iff in E. destruct E as [Et _].
      apply String.eqb_eq in Et. subst t0.
      destruct (String.eqb t t'), (existsb _ groups); reflexivity.
    + rewrite IH.
      destruct (String.eqb t0 t'), (String.eqb t t'), (existsb _ groups);
        reflexivity.
Qed.

Lemma has_type_row_fold ops t :
  forall groups,
    has_type_row (fold_left (fun g o => Logger.count_group (operation_type o) (status o) g)
                            ops groups) t
    = has_type_row groups t || existsb (of_type t) ops.
Proof.
  induction ops as [|o ops IH]; intros groups; simpl.
  - now rewrite orb_false_r.
  - rewrite IH, has_type_row_count_group. unfold of_type at 2.
    now rewrite orb_assoc.
Qed.

(** One row of the query, seen through [breakdown]. *)
Lemma report_row_breakdown d t0 s0 c0 :
  exists d',
    Logger.report_row d (t0, s0, c0) = Ok d'
    /\ (forall t, PyDict.contains d' t = PyDict.contains d t || String.eqb t0 t)
    /\ (forall t s,
          breakdown d' t s
          = if String.eqb t0 t then
              if String.eqb s0 s then Some c0
              else if PyDict.contains d t then breakdown d t s
                   else PyDict.get initial_counts s
            else breakdown d t s).
Proof.
  unfold Logger.report_row.
  set (d1 := if PyDict.contains d t0 then d
             else PyDict.set d t0 [("success", 0); ("failure", 0)]
        : PyDict.dict (PyDict.dict Z)).
  assert (Hget1 : exists counts,
             PyDict.get d1 t0 = Some counts
             /\ forall s, PyDict.get counts s
                          = if PyDict.contains d t0 then breakdown d t0 s
                            else PyDict.get initial_counts s).
  { subst d1. unfold PyDict.contains, breakdown.
    destruct (PyDict.get d t0) as [counts|] eqn:G.
    - exists counts. rewrite G. auto.
    - rewrite dict_get_set_eq. eexists. split; [reflexivity|]. reflexivity. }
  assert (Hother : forall t, t0 <> t -> PyDict.get d1 t = PyDict.get d t).
  { intros t Hne. subst d1. destruct (PyDict.contains d t0); auto.
    now rewrite dict_get_set_ne. }
  destruct Hget1 as (counts & Hget1 & Hcounts).
  unfold Logger.getitem. rewrite Hget1. cbn [rbind].
  eexists. split; [reflexivity|]. split.
  - intros t. unfold PyDict.contains.
    destruct (String.eqb_spec t0 t) as [<- | Hne].
    + rewrite dict_get_set_eq. now rewrite orb_true_r.
    + rewrite dict_get_set_ne, Hother by assumption. now rewrite orb_false_r.
  - intros t s. unfold breakdown at 1.
    destruct (String.eqb_spec t0 t) as [<- | Hne].
    + rewrite dict_get_set_eq.
      destruct (String.eqb_spec s0 s) as [<- | Hs].
      * apply dict_get_set_eq.
      * rewrite dict_get_set_ne by assumption. apply Hcounts.
    + rewrite dict_get_set_ne, Hother by assumption. reflexivity.
Qed.

Lemma find_row_not_in rows t s :
  ~ In (t, s) (map fst rows) -> find_row rows t s = None.
Proof.
  induction rows as [|[[t0 s0] c0] rows IH]; simpl; auto.
  intros Hnot.
  destruct (String.eqb_spec t0 t) as [-> | Ht]; simpl.
  - destruct (String.eqb_spec s0 s) as [-> | Hs]; [exfalso; auto | auto].
  - auto.
Qed.

(** All the rows of the query, seen through [breakdown]. *)
Lemma report_rows_breakdown rows :
  NoDup (map fst rows) ->
  forall d,
  exists d',
    Logger.report_rows d rows = Ok d'
    /\ (forall t, PyDict.contains d' t = PyDict.contains d t || has_type_row rows t)
    /\ (forall t s,
          breakdown d' t s
          = match find_row rows t s with
            | Some c => Some c
            | None =>
                if PyDict.contains d t then breakdown d t s
                else if has_type_row rows t then PyDict.get initial_counts s
                     else None
            end).
Proof.
  induction rows as [|[[t0 s0] c0] rows IH]; intros Hnd d.
  - exists d. simpl. split; [reflexivity|]. split.
    + intros t. now rewrite orb_false_r.
    + intros t s. unfold breakdown, PyDict.contains.
      now destruct (PyDict.get d t).
  - inversion Hnd as [|? ? Hnotin Hnd']; subst.
    destruct (report_row_breakdown d t0 s0 c0) as (d1 & Hrow & Hkeys1 & Hbd1).
    destruct (IH Hnd' d1) as (d' & Hrows & Hkeys & Hbd).
    exists d'. cbn [Logger.report_rows]. rewrite Hrow. cbn [rbind].
    split; [exact Hrows|]. split.
    + intros t. rewrite Hkeys, Hkeys1. unfold has_type_row. simpl.
      now rewrite orb_assoc.
    + intros t s. rewrite Hbd, Hkeys1, Hbd1. cbn [find_row].
      unfold has_type_row. cbn [existsb fst].
      destruct (String.eqb_spec t0 t) as [<- | Ht]; simpl.
      * destruct (String.eqb_spec s0 s) as [<- | Hs]; simpl.
        -- rewrite (@find_row_not_in rows t0 s0 Hnotin). now rewrite orb_true_r.
        -- rewrite orb_true_r. destruct (find_row rows t0 s); auto.
      * rewrite orb_false_r. reflexivity.
Qed.

(** The run of [generate_report], in one equation. *)
Lemma generate_report_run db start_date end_date :
  let ops := filter (Logger.in_window start_date end_date) (operations db) in
  let total := Z.of_nat (List.length ops) in
  let successes := Z.of_nat (List.length (filter is_success ops)) in
  exists by_type,
    Logger.report_rows [] (Logger.select_counts db start_date end_date)
    = Ok by_type
    /\ Logger.generate_report db start_date end_date
       = Ok (Logger.mkReport total by_type
               (if 0 <? total
                then (inject_Z successes / inject_Z total * 100)%Q
                else 0%Q)).
Proof.
  intros ops total successes.
  unfold Logger.generate_report.
  set (results := Logger.select_counts db start_date end_date).
  assert (Htotal : fold_right Z.add 0 (map snd results) = total).
  { rewrite sum_counts_wsum. subst results. unfold Logger.select_counts.
    rewrite wsum_fold_count. unfold wsum. simpl.
    fold ops. subst total. f_equal. f_equal.
    clear. induction ops as [|o ops IH]; simpl; congruence. }
  destruct (@report_rows_spec results [])
    as (by_type & Hrows & Hwf & Hsucc).
  { constructor. }
  { apply select_counts_NoDup. }
  { intros t c _. reflexivity. }
  exists by_type. split; [exact Hrows|].
  rewrite Hrows. cbn [rbind]. rewrite (sum_success_ok Hwf). cbn [rbind].
  assert (Hsuccesses : total_succ by_type = successes).
  { rewrite Hsucc. subst results. unfold Logger.select_counts.
    rewrite wsum_fold_count. unfold total_succ, wsum. simpl.
    fold ops. reflexivity. }
  rewrite Htotal, Hsuccesses.
  destruct (0 <? total) eqn:Hpos; [|reflexivity].
  apply Z.ltb_lt in Hpos. unfold Logger.truediv.
  destruct (total =? 0) eqn:Hz; [apply Z.eqb_eq in Hz; lia|].
  reflexivity.
Qed.

(** X17.  The breakdown of the report is exact.  Its keys are the types of
    the operations of the window; under a type, a status that occurs holds
    the number of operations of the window of that type and status, "success"
    and "failure" hold 0 when they do not occur, and any other status that
    does not occur is absent. *)
Theorem report_breakdown_is_exact :
  forall (db : database) (start_date end_date : option Z),
    let ops := filter (Logger.in_window start_date end_date) (operations db) in
    exists r,
      Logger.generate_report db start_date end_date = Ok r
      /\ (forall t, PyDict.contains (Logger.operations_by_type r) t
                    = existsb (of_type t) ops)
      /\ (forall t s,
            breakdown (Logger.operations_by_type r) t s
            = if count_matching ops t s =? 0
              then if existsb (of_type t) ops
                   then PyDict.get initial_counts s else None
              else Some (count_matching ops t s)).
Proof.
  intros db start_date end_date ops.
  destruct (generate_report_run db start_date end_date)
    as (by_type & Hrows & Hrun).
  rewrite Hrun. eexists. split; [reflexivity|]. cbn [Logger.operations_by_type].
  destruct (@report_rows_breakdown (Logger.select_counts db start_date end_date)
              (select_counts_NoDup db start_date end_date) [])
    as (d' & Hrows' & Hkeys & Hbd).
  rewrite Hrows in Hrows'. injection Hrows' as <-.
  unfold Logger.select_counts in Hkeys, Hbd. fold ops in Hkeys, Hbd.
  split.
  - intros t. rewrite Hkeys, has_type_row_fold. reflexivity.
  - intros t s. rewrite Hbd, find_row_fold, has_type_row_fold. simpl.
    destruct (count_matching ops t s =? 0); reflexivity.
Qed.

Lemma percentage_bounds (successes total : Z) :
  0 <= successes <= total -> 0 < total ->
  (0 <= inject_Z successes / inject_Z total * 100
   /\ inject_Z successes / inject_Z total * 100 <= 100)%Q.
Proof.
  intros Hs Ht. destruct total as [|p|p]; try lia.
  unfold Qle, Qdiv, Qmult, Qinv, inject_Z. simpl.
  split; nia.
Qed.

(** X18.  The success rate of the report is a percentage: it lies between 0
    and 100, is 0 when no operation of the window succeeded and 100 when the
    window is not empty and all of its operations succeeded. *)
Theorem success_rate_is_a_percentage :
  forall (db : database) (start_date end_date : option Z),
    let ops := filter (Logger.in_window start_date end_date) (operations db) in
    exists r,
      Logger.generate_report db start_date end_date = Ok r
      /\ (0 <= Logger.success_rate r <= 100)%Q
      /\ (filter is_success ops = [] -> (Logger.success_rate r == 0)%Q)
      /\ (ops <> [] -> filter is_success ops = ops ->
          (Logger.success_rate r == 100)%Q).
Proof.
  intros db start_date end_date ops.
  destruct (generate_report_run db start_date end_date)
    as (by_type & _ & Hrun).
  rewrite Hrun. eexists. split; [reflexivity|]. cbn [Logger.success_rate].
  fold ops.
  set (total := Z.of_nat (List.length ops)).
  set (successes := Z.of_nat (List.length (filter is_success ops))).
  assert (Hle : 0 <= successes <= total).
  { subst successes total. split; [lia|]. apply inj_le, filter_length_le. }
  destruct (Z.ltb_spec 0 total) as [Hpos | Hzero].
  - split; [now apply percentage_bounds|]. split.
    + intros Hnone. subst successes. rewrite Hnone. simpl.
      unfold Qeq, Qdiv, Qmult. simpl. lia.
    + intros _ Hall. subst successes. rewrite Hall. fold total.
      destruct total as [|p|p]; try lia.
      unfold Qeq, Qdiv, Qmult, Qinv, inject_Z. simpl. nia.
  - split; [split; discriminate|]. split; [reflexivity|].
    intros Hne _. exfalso. subst total. destruct ops; [congruence | simpl in *; lia].
Qed.

(* ================================================================== *)
(** ** The content detector: [compute_similarity] and [find_duplicates] *)

Lemma rmap_ext {A B} (f g : A -> result B) (l : list A) :
  (forall x, In x l -> f x = g x) -> rmap f l = rmap g l.
Proof.
  induction l as [|a l IH]; simpl; intros H; [reflexivity|].
  rewrite (H a) by now left. rewrite IH by (intros; apply H; now right).
  reflexivity.
Qed.

Section PairOrder.

Variable ndarray : Type.

(** X19.  Whatever the signatures, the pairs [find_duplicates] returns are
    pairs of two different listed files; no pair is returned twice, and no
    pair is returned in both orders. *)
Theorem pairs_are_distinct_and_unique :
  forall (cosine_similarity : ndarray -> ndarray -> Q)
         (compute : string -> result (option (ContentDetector.embedding ndarray)))
         (threshold : Q) (file_paths : list string)
         (pairs : list (string * string)),
    ContentDetector.find_duplicates_with cosine_similarity compute file_paths
      threshold = Ok pairs ->
    NoDup pairs
    /\ forall f1 f2,
         In (f1, f2) pairs ->
         f1 <> f2 /\ ~ In (f2, f1) pairs
         /\ In f1 file_paths /\ In f2 file_paths.
Proof.
  intros cosine_similarity compute threshold file_paths pairs Hrun.
  apply find_duplicates_with_ok in Hrun. destruct Hrun as (fe & Hrun & ->).
  destruct (@collect_ok _ _ _ _ Hrun) as [Hnd Hget].
  pose proof (proj1 (NoDup_nth (PyDict.keys fe) "") Hnd) as Hinj.
  split; [now apply scanned_NoDup|].
  intros f1 f2 Hpair. apply in_scanned in Hpair.
  destruct Hpair as (i & j & e1 & e2 & Hij & N1 & N2 & G1 & G2 & _).
  split; [|split; [|split]].
  - intros ->. rewrite <- N2 in N1. apply Hinj in N1; lia.
  - intros Hrev. apply in_scanned in Hrev.
    destruct Hrev as (i' & j' & _ & _ & Hij' & N1' & N2' & _).
    rewrite <- N2 in N1'. rewrite <- N1 in N2'.
    apply Hinj in N1', N2'; lia.
  - now apply Hget in G1.
  - now apply Hget in G2.
Qed.

End PairOrder.

Lemma key_position {V} (d : PyDict.dict V) k v :
  PyDict.get d k = Some v ->
  exists i, (i < List.length (PyDict.keys d))%nat /\ nth i (PyDict.keys d) "" = k.
Proof.
  intros G. apply In_nth.
  destruct (in_dec string_dec k (PyDict.keys d)) as [H | H]; [exact H|].
  apply dict_get_None in H. congruence.
Qed.

Section ContentFacts.

Variable ndarray : Type.
Variable sha256 : string -> string.
Variable guess_type : string -> option string.
Variable utf8_decode_ignore : string -> string.

Local Abbreviation compute_embeddings :=
  (@ContentDetector.compute_embeddings ndarray sha256 guess_type
     utf8_decode_ignore) (only parsing).
Local Abbreviation is_text_file :=
  (ContentDetector.is_text_file guess_type) (only parsing).
Local Abbreviation content_find_duplicates cosine_similarity :=
  (@ContentDetector.find_duplicates ndarray cosine_similarity sha256 guess_type
     utf8_decode_ignore) (only parsing).

(** The signature of a file that is not text-like is the digest of its
    bytes. *)
Lemma binary_signature depth fs file_path e :
  is_text_file file_path = false ->
  compute_embeddings (S depth) fs file_path = Ok (Some e) ->
  exists bytes,
    Os.read_bytes fs file_path = Ok bytes
    /\ e = ContentDetector.Str (sha256 bytes).
Proof.
  intros Htext. cbn [ContentDetector.compute_embeddings]. rewrite Htext.
  unfold ContentDetector.compute_hash.
  destruct (Os.read_bytes fs file_path) as [bytes | ex]; cbn [rbind];
    [|discriminate].
  intros [= <-]. exists bytes. split; reflexivity.
Qed.

(** X20.  [compute_similarity] returns 0.0 on every pair of files: a file
    that cannot be read or decoded, a text that names no file, and a
    signature that is [None] or a [str] (which has no [reshape]) all end in
    the handler, and no signature is ever an array. *)
Theorem compute_similarity_is_always_zero :
  forall (cosine_similarity : ndarray -> ndarray -> Q)
         (utf8_decode : string -> option string)
         (depth : nat) (fs : filesystem) (file1 file2 : string),
    @ContentDetector.compute_similarity ndarray cosine_similarity sha256
      guess_type utf8_decode_ignore utf8_decode depth fs file1 file2
    = 0%Q.
Proof.
  intros cosine_similarity utf8_decode depth fs file1 file2.
  unfold ContentDetector.compute_similarity.
  destruct (ContentDetector.read_text utf8_decode fs file1) as [text1 | e1];
    cbn [rbind]; [|reflexivity].
  destruct (ContentDetector.read_text utf8_decode fs file2) as [text2 | e2];
    cbn [rbind]; [|reflexivity].
  destruct (compute_embeddings depth fs text1) as [[[h1 | v1]|] | e1] eqn:E1;
    cbn [rbind ContentDetector.reshape];
    try (destruct (compute_embeddings depth fs text2) as [[[h2 | v2]|] | e2];
         reflexivity).
  exfalso.
  exact (@compute_embeddings_never_array ndarray sha256 guess_type
           utf8_decode_ignore depth fs text1 v1 E1).
Qed.

(** X21.  The result of [find_duplicates] does not depend on the similarity
    threshold nor on the cosine similarity: no signature is an array, so the
    branch that compares embeddings is never taken. *)
Theorem find_duplicates_ignores_the_threshold :
  forall (cosine1 cosine2 : ndarray -> ndarray -> Q) (threshold1 threshold2 : Q)
         (depth : nat) (fs : filesystem) (file_paths : list string),
    content_find_duplicates cosine1 depth fs file_paths threshold1
    = content_find_duplicates cosine2 depth fs file_paths threshold2.
Proof.
  intros cosine1 cosine2 threshold1 threshold2 depth fs file_paths.
  unfold ContentDetector.find_duplicates, ContentDetector.find_duplicates_with.
  destruct (ContentDetector.collect (compute_embeddings depth fs) file_paths [])
    as [fe | e] eqn:Hrun; cbn [rbind]; [|reflexivity].
  destruct (@collect_ok _ _ _ _ Hrun) as [_ Hget].
  assert (Hstr : forall p e, PyDict.get fe p = Some e ->
                             exists h, e = ContentDetector.Str h).
  { intros p [h | v] G; [now exists h|]. apply Hget in G. destruct G as [_ G].
    exfalso.
    exact (@compute_embeddings_never_array ndarray sha256 guess_type
             utf8_decode_ignore depth fs p v G). }
  f_equal. apply rmap_ext. intros i _. f_equal. apply rmap_ext. intros j _.
  unfold ContentDetector.compare, Logger.getitem.
  destruct (PyDict.get fe (nth i (PyDict.keys fe) "")) as [e1|] eqn:G1;
    cbn [rbind]; [|reflexivity].
  destruct (PyDict.get fe (nth j (PyDict.keys fe) "")) as [e2|] eqn:G2;
    cbn [rbind]; [|reflexivity].
  destruct (Hstr _ _ G1) as [h1 ->]. destruct (Hstr _ _ G2) as [h2 ->].
  reflexivity.
Qed.

(** X22.  [find_duplicates] returns exactly when every listed file that is
    not text-like can be read: [compute_hash] is called outside any [try],
    so one unreadable binary file makes the whole call raise, while an
    unreadable text-like file is only left out. *)
Theorem find_duplicates_returns_iff_binaries_readable :
  forall (cosine_similarity : ndarray -> ndarray -> Q) (threshold : Q)
         (depth : nat) (fs : filesystem) (file_paths : list string),
    (exists pairs,
        content_find_duplicates cosine_similarity (S depth) fs file_paths
          threshold = Ok pairs)
    <-> (forall p, In p file_paths -> is_text_file p = false ->
                   exists bytes, Os.read_bytes fs p = Ok bytes).
Proof.
  intros cosine_similarity threshold depth fs file_paths.
  unfold ContentDetector.find_duplicates. split.
  - intros [pairs Hrun] p Hp.
    apply find_duplicates_with_ok in Hrun. destruct Hrun as (fe & Hrun & _).
    apply (proj1 (@compute_embeddings_returns ndarray sha256 guess_type utf8_decode_ignore depth fs p)).
    exact (@collect_ok_inv _ (compute_embeddings (S depth) fs) file_paths [] fe
             Hrun p Hp).
  - intros Hreadable.
    destruct (@collect_spec ndarray (compute_embeddings (S depth) fs) file_paths)
      with (acc := @nil (string * ContentDetector.embedding ndarray))
      as (fe & Hrun & _).
    { intros p Hp. apply (proj2 (@compute_embeddings_returns ndarray sha256 guess_type utf8_decode_ignore depth fs p)).
      now apply Hreadable. }
    { constructor. }
    eexists. apply find_duplicates_with_returns. exact Hrun.
Qed.

(** X23.  Two files that are not text-like are returned as a pair, in one
    order or the other, exactly when they are two different listed files
    that can be read and whose bytes have the same SHA-256 digest. *)
Theorem binary_files_are_paired_by_digest :
  forall (cosine_similarity : ndarray -> ndarray -> Q) (threshold : Q)
         (depth : nat) (fs : filesystem) (file_paths : list string)
         (pairs : list (string * string)) (p1 p2 : string),
    content_find_duplicates cosine_similarity (S depth) fs file_paths threshold
    = Ok pairs ->
    is_text_file p1 = false ->
    is_text_file p2 = false ->
    (In (p1, p2) pairs \/ In (p2, p1) pairs
     <-> p1 <> p2 /\ In p1 file_paths /\ In p2 file_paths
         /\ exists bytes1 bytes2,
              Os.read_bytes fs p1 = Ok bytes1
              /\ Os.read_bytes fs p2 = Ok bytes2
              /\ sha256 bytes1 = sha256 bytes2).
Proof.
  intros cosine_similarity threshold depth fs file_paths pairs p1 p2
         Hrun Ht1 Ht2.
  unfold ContentDetector.find_duplicates in Hrun.
  apply find_duplicates_with_ok in Hrun. destruct Hrun as (fe & Hrun & ->).
  destruct (@collect_ok _ _ _ _ Hrun) as [Hnd Hget].
  pose proof (proj1 (NoDup_nth (PyDict.keys fe) "") Hnd) as Hinj.
  assert (Hone : forall f1 f2,
            is_text_file f1 = false -> is_text_file f2 = false ->
            In (f1, f2) (scanned cosine_similarity threshold fe) ->
            f1 <> f2 /\ In f1 file_paths /\ In f2 file_paths
            /\ exists bytes1 bytes2,
                 Os.read_bytes fs f1 = Ok bytes1
                 /\ Os.read_bytes fs f2 = Ok bytes2
                 /\ sha256 bytes1 = sha256 bytes2).
  { intros f1 f2 T1 T2 Hpair. apply in_scanned in Hpair.
    destruct Hpair as (i & j & e1 & e2 & Hij & N1 & N2 & G1 & G2 & Hm).
    apply Hget in G1, G2. destruct G1 as [L1 C1]. destruct G2 as [L2 C2].
    destruct (@binary_signature depth fs f1 e1 T1 C1) as (b1 & R1 & ->).
    destruct (@binary_signature depth fs f2 e2 T2 C2) as (b2 & R2 & ->).
    split; [|split; [exact L1 | split; [exact L2|]]].
    - intros ->. rewrite <- N2 in N1. apply Hinj in N1; lia.
    - exists b1, b2. repeat split; auto. }
  split.
  - intros [Hpair | Hpair].
    + now apply Hone.
    + destruct (Hone p2 p1 Ht2 Ht1 Hpair) as (Hne & L2 & L1 & b2 & b1 & R2 & R1 & E).
      split; [congruence|]. split; [exact L1|]. split; [exact L2|].
      exists b1, b2. repeat split; auto.
  - intros (Hne & L1 & L2 & b1 & b2 & R1 & R2 & E).
    assert (G1 : PyDict.get fe p1 = Some (ContentDetector.Str (sha256 b1))).
    { apply Hget. split; [exact L1|].
      exact (@compute_embeddings_binary ndarray sha256 guess_type
               utf8_decode_ignore depth fs p1 b1 Ht1 R1). }
    assert (G2 : PyDict.get fe p2 = Some (ContentDetector.Str (sha256 b2))).
    { apply Hget. split; [exact L2|].
      exact (@compute_embeddings_binary ndarray sha256 guess_type
               utf8_decode_ignore depth fs p2 b2 Ht2 R2). }
    destruct (@key_position _ fe p1 _ G1) as (i & Hi & N1).
    destruct (@key_position _ fe p2 _ G2) as (j & Hj & N2).
    destruct (Nat.lt_total i j) as [Hlt | [Heq | Hgt]].
    + left. apply in_scanned.
      exists i, j, (ContentDetector.Str (sha256 b1)),
             (ContentDetector.Str (sha256 b2)).
      repeat split; auto; lia.
    + subst j. congruence.
    + right. apply in_scanned.
      exists j, i, (ContentDetector.Str (sha256 b2)),
             (ContentDetector.Str (sha256 b1)).
      repeat split; auto; try lia. simpl. congruence.
Qed.

End ContentFacts.

(** X19 on three binary files and two texts, one of them listed twice. *)
Lemma pairs_are_distinct_and_unique_witness :
  NoDup [("a.bin", "b.bin"); ("d.txt", "e.txt")]
  /\ ~ In ("b.bin", "a.bin") [("a.bin", "b.bin"); ("d.txt", "e.txt")].
Proof.
  destruct (@pairs_are_distinct_and_unique (list Z) toy_similarity toy_signature
              (95 # 100)
              ["a.bin"; "d.txt"; "b.bin"; "a.bin"; "c.bin"; "e.txt"]
              [("a.bin", "b.bin"); ("d.txt", "e.txt")])
    as [Hnd Hpairs].
  - reflexivity.
  - split; [exact Hnd|].
    apply (Hpairs "a.bin" "b.bin"). simpl. now left.
Defined.

(** X23 on the two copies of a photo; MD5 stands in for SHA-256. *)
Lemma binary_files_are_paired_by_digest_witness :
  In ("a.jpg", "b.jpg") [("a.jpg", "b.jpg")]
  \/ In ("b.jpg", "a.jpg") [("a.jpg", "b.jpg")].
Proof.
  apply (@binary_files_are_paired_by_digest (list Z) MD5.hexdigest
           guess_by_suffix (fun s => s) toy_similarity (95 # 100) 10 photos_fs
           ["a.jpg"; "notes.txt"; "b.jpg"; "c.bin"] [("a.jpg", "b.jpg")]
           "a.jpg" "b.jpg").
  - vm_compute. reflexivity.
  - reflexivity.
  - reflexivity.
  - split; [discriminate|]. split; [simpl; tauto|]. split; [simpl; tauto|].
    exists "photo", "photo". repeat split; reflexivity.
Defined.

(* ================================================================== *)
(** ** What the calls with effects may do to the files and to the tables *)

Lemma sorted_snoc (l : list Z) (y : Z) :
  StronglySorted Z.lt l -> Forall (fun x => x < y) l ->
  StronglySorted Z.lt (l ++ [y]).
Proof.
  induction 1 as [|x l Hs IH Hx]; simpl; intros Hy.
  - repeat constructor.
  - inversion Hy as [|? ? Hxy Hly]; subst. constructor; [now apply IH|].
    apply Forall_app. split; [exact Hx | repeat constructor; exact Hxy].
Qed.

Lemma sorted_map_filter {A} (f : A -> Z) (p : A -> bool) (l : list A) :
  StronglySorted Z.lt (map f l) -> StronglySorted Z.lt (map f (filter p l)).
Proof.
  induction l as [|a l IH]; simpl; intros Hs; [constructor|].
  inversion Hs as [|? ? Hl Ha]; subst.
  destruct (p a); simpl; [|now apply IH].
  constructor; [now apply IH|].
  rewrite Forall_forall in *. intros x Hx. apply Ha.
  apply in_map_iff in Hx. destruct Hx as (b & <- & Hb).
  apply filter_In in Hb. apply in_map. tauto.
Qed.

(** Rows whose keys are distinct keep distinct keys when some are taken
    out. *)
Lemma distinct_keys_filter {V K} (key : V -> K) (keep : V -> bool) :
  forall rows : list V,
    NoDup (map key rows) -> NoDup (map key (filter keep rows)).
Proof.
  intros rows. induction rows as [|row rows IH]; cbn [filter map].
  - intros _. constructor.
  - rewrite NoDup_cons_iff. intros [Hfresh Hrest].
    destruct (keep row); cbn [map]; [|now apply IH].
    apply NoDup_cons; [|now apply IH].
    contradict Hfresh. apply in_map_iff in Hfresh.
    destruct Hfresh as (other & Hkey & Hother).
    apply filter_In in Hother. rewrite <- Hkey. apply in_map. tauto.
Qed.

Lemma grows_refl db : grows db db.
Proof. split; [exists []; now rewrite app_nil_r | tauto]. Qed.

Lemma grows_trans db1 db2 db3 : grows db1 db2 -> grows db2 db3 -> grows db1 db3.
Proof.
  intros [[n1 H1] K1] [[n2 H2] K2]. split; [|tauto].
  exists (n1 ++ n2). rewrite H2, H1. now rewrite app_assoc.
Qed.

Lemma shrinks_refl fs : shrinks fs fs.
Proof. repeat split; auto. Qed.

Lemma shrinks_trans fs1 fs2 fs3 :
  shrinks fs1 fs2 -> shrinks fs2 fs3 -> shrinks fs1 fs3.
Proof. intros (A1 & B1 & C1) (A2 & B2 & C2). repeat split; auto. Qed.

Lemma evolves_refl w : evolves w w.
Proof. split; [apply shrinks_refl | apply grows_refl]. Qed.

Lemma evolves_trans w1 w2 w3 : evolves w1 w2 -> evolves w2 w3 -> evolves w1 w3.
Proof.
  intros [S1 G1] [S2 G2].
  split; [eapply shrinks_trans | eapply grows_trans]; eauto.
Qed.

Lemma insert_operation_grows db t p d s x :
  grows db (Logger.insert_operation db t p d s x).
Proof.
  split; [eexists; reflexivity|].
  intros (Hs & Hb & Hms & Hmb & Hu). unfold keyed, Logger.insert_operation.
  cbn [operations file_metadata operations_seq file_metadata_seq].
  repeat split; auto.
  - rewrite map_app. apply sorted_snoc; [exact Hs|].
    rewrite Forall_forall in *. intros y Hy. apply in_map_iff in Hy.
    destruct Hy as (o & <- & Ho). specialize (Hb o Ho). simpl. lia.
  - apply Forall_app. split.
    + rewrite Forall_forall in *. intros o Ho. specialize (Hb o Ho). lia.
    + repeat constructor. simpl. lia.
Qed.

Lemma insert_or_replace_metadata_grows db p h t sz m c :
  grows db (Logger.insert_or_replace_metadata db p h t sz m c).
Proof.
  split; [exists []; simpl; now rewrite app_nil_r|].
  intros (Hs & Hb & Hms & Hmb & Hu).
  unfold keyed, Logger.insert_or_replace_metadata.
  cbn [operations file_metadata operations_seq file_metadata_seq].
  repeat split; auto.
  - rewrite map_app. apply sorted_snoc; [now apply sorted_map_filter|].
    rewrite Forall_forall in *. intros y Hy. apply in_map_iff in Hy.
    destruct Hy as (r & <- & Hr). apply filter_In in Hr.
    specialize (Hmb r (proj1 Hr)). simpl. lia.
  - apply Forall_app. split.
    + rewrite Forall_forall in *. intros r Hr. apply filter_In in Hr.
      specialize (Hmb r (proj1 Hr)). lia.
    + repeat constructor. simpl. lia.
  - rewrite map_app. simpl. apply NoDup_app.
    + now apply distinct_keys_filter.
    + repeat constructor. simpl. tauto.
    + intros q Hq [<- | []]. apply in_map_iff in Hq.
      destruct Hq as (r & E & Hr). apply filter_In in Hr.
      destruct Hr as [_ Hr]. rewrite E, String.eqb_refl in Hr. discriminate.
Qed.

Lemma unlink_shrinks fs p : shrinks fs (Os.unlink fs p).
Proof.
  split; [|split].
  - intros q f. rewrite lookup_unlink. destruct (String.eqb p q); congruence.
  - intros q Hq. unfold Os.unlink in Hq. apply in_map_iff in Hq.
    destruct Hq as (e & <- & He). apply filter_In in He. apply in_map. tauto.
  - intros Hnd. unfold Os.unlink. now apply distinct_keys_filter.
Qed.

(** A reflexive and transitive relation that the three calls touching the
    world keep is kept by everything built from them. *)
Section Preserved.

Variable R : world -> world -> Prop.
Hypothesis R_refl : forall w, R w w.
Hypothesis R_trans : forall w1 w2 w3, R w1 w2 -> R w2 w3 -> R w1 w3.
Hypothesis R_log_operation :
  forall t p d s x, preserves R (Logger.log_operation t p d s x).
Hypothesis R_log_file_metadata :
  forall p h t sz m c, preserves R (Logger.log_file_metadata p h t sz m c).
Hypothesis R_remove : forall p, preserves R (Os.remove p).

Lemma preserved_ret {A} (a : A) : preserves R (ret a).
Proof. intros w. apply R_refl. Qed.

Lemma preserved_raise {A} (e : exn) : preserves R (@raise A e).
Proof. intros w. apply R_refl. Qed.

Lemma preserved_lift {A} (r : filesystem -> result A) : preserves R (lift r).
Proof. intros w. unfold lift. destruct (r (w_fs w)); apply R_refl. Qed.

Lemma preserved_bind {A B} (m : M A) (k : A -> M B) :
  preserves R m -> (forall a, preserves R (k a)) -> preserves R (bind m k).
Proof.
  intros Hm Hk w. unfold bind. specialize (Hm w).
  destruct (m w) as [a w' | e w']; simpl in Hm; [|exact Hm].
  eapply R_trans; [exact Hm | apply Hk].
Qed.

Lemma preserved_try_except {A} (body : M A) (handler : exn -> M A) :
  preserves R body -> (forall e, preserves R (handler e)) ->
  preserves R (try_except body handler).
Proof.
  intros Hm Hk w. unfold try_except. specialize (Hm w).
  destruct (body w) as [a w' | e w']; simpl in Hm; [exact Hm|].
  eapply R_trans; [exact Hm | apply Hk].
Qed.

Lemma preserved_for_each {A S} (l : list A) (body : S -> A -> M S) :
  (forall s x, preserves R (body s x)) ->
  forall s, preserves R (for_each l body s).
Proof.
  intros Hbody. induction l as [|x l IH]; intros s; simpl.
  - apply preserved_ret.
  - apply preserved_bind; [apply Hbody | exact IH].
Qed.

Ltac preserved_step :=
  first [ apply preserved_bind; [|intros ?]
        | apply preserved_try_except; [|intros ?]
        | apply preserved_ret
        | apply preserved_raise
        | apply preserved_lift
        | apply R_log_operation
        | apply R_log_file_metadata
        | apply R_remove ].

Lemma preserved_hash_one hashlib hash_type hash_map file_path :
  preserves R (DuplicateDetector.hash_one hashlib hash_type hash_map file_path).
Proof.
  intros w. unfold DuplicateDetector.hash_one.
  destruct (FileUtils.calculate_file_hash hashlib (w_fs w) file_path hash_type)
    as [file_hash | e].
  - revert w. change (preserves R
      (try_except
         (bind (lift (fun fs => FileUtils.get_file_metadata fs file_path))
            (fun metadata =>
               bind (Logger.log_file_metadata file_path file_hash
                       (FileUtils.type metadata) (FileUtils.size metadata)
                       (FileUtils.modified metadata) (FileUtils.created metadata))
                    (fun _ =>
                       ret (DuplicateDetector.append_to hash_map file_hash
                              file_path))))
         (fun e =>
            bind (DuplicateDetector.log_hash_failure file_path e)
                 (fun _ =>
                    ret (DuplicateDetector.append_to hash_map file_hash
                           file_path))))).
    unfold DuplicateDetector.log_hash_failure. repeat preserved_step.
  - revert w. change (preserves R
      (bind (DuplicateDetector.log_hash_failure file_path e)
            (fun _ => ret hash_map))).
    unfold DuplicateDetector.log_hash_failure. repeat preserved_step.
Qed.

Lemma preserved_find_duplicates hashlib directory hash_type :
  preserves R (DuplicateDetector.find_duplicates hashlib directory hash_type).
Proof.
  intros w. unfold DuplicateDetector.find_duplicates.
  generalize (FileUtils.list_files (w_fs w) directory). intros files.
  revert w. change (preserves R
    (bind (for_each files (DuplicateDetector.hash_one hashlib hash_type) [])
          (fun hash_map =>
             ret (filter (fun kv => (1 <? List.length (snd kv))%nat)
                         (PyDict.items hash_map))))).
  apply preserved_bind; [|intros ?; apply preserved_ret].
  apply preserved_for_each. intros s x. apply preserved_hash_one.
Qed.

Lemma preserved_remove_duplicates duplicates keep_strategy :
  preserves R (DuplicateDetector.remove_duplicates duplicates keep_strategy).
Proof.
  unfold DuplicateDetector.remove_duplicates.
  apply preserved_for_each. intros removed_files item.
  unfold DuplicateDetector.remove_group.
  destruct (List.length (snd item) <=? 1)%nat; [apply preserved_ret|].
  apply preserved_bind; [apply preserved_lift|]. intros [|keep_file rest].
  - apply preserved_raise.
  - apply preserved_for_each. intros s x.
    unfold DuplicateDetector.remove_one. repeat preserved_step.
Qed.

Lemma preserved_classify_file utf8_decode self file_path :
  preserves R (FileClassifier.classify_file utf8_decode self file_path).
Proof.
  unfold FileClassifier.classify_file.
  apply preserved_bind; [apply preserved_lift|]. intros file_type.
  apply preserved_try_except; [|intros e; repeat preserved_step].
  destruct (PyStr.startswith file_type "text/").
  - unfold FileClassifier._classify_text_file. repeat preserved_step.
  - destruct (PyStr.startswith file_type "image/"); [|apply preserved_ret].
    unfold FileClassifier._classify_image_file.
    destruct (FileClassifier.image_extractor self);
      [destruct (FileClassifier.image_model self)|]; repeat preserved_step.
Qed.

End Preserved.

Lemma log_operation_evolves t p d s x :
  preserves evolves (Logger.log_operation t p d s x).
Proof.
  intros w. split; [apply shrinks_refl | apply insert_operation_grows].
Qed.

Lemma log_file_metadata_evolves p h t sz m c :
  preserves evolves (Logger.log_file_metadata p h t sz m c).
Proof.
  intros w. split; [apply shrinks_refl | apply insert_or_replace_metadata_grows].
Qed.

Lemma remove_evolves p : preserves evolves (Os.remove p).
Proof.
  intros w. unfold Os.remove. destruct (lookup (w_fs w) p) as [f|];
    [destruct (f_deletable f)|]; try apply evolves_refl.
  split; [apply unlink_shrinks | apply grows_refl].
Qed.

Lemma remove_duplicates_evolves duplicates keep_strategy :
  preserves evolves (DuplicateDetector.remove_duplicates duplicates keep_strategy).
Proof.
  apply (@preserved_remove_duplicates evolves evolves_refl evolves_trans
           log_operation_evolves remove_evolves).
Qed.

(** X24.  The database of a new directory satisfies the constraints of its
    schema, and every call that writes (the detector's [find_duplicates] and
    [remove_duplicates], the classifier's [classify_file]) keeps them,
    however the call ends, returning or raising: the keys of both tables stay
    increasing and below their counters, [file_path] stays unique in
    [file_metadata], the rows of the log are never changed or deleted, only
    followed by new ones, and no file is created or modified: a file found
    afterwards is a file that was there, unchanged. *)
Theorem calls_only_delete_files_and_append_rows :
  (forall now, keyed (Logger.init_db now))
  /\ forall (w : world),
       (forall hashlib directory hash_type,
           evolves w
             (final_world
                (DuplicateDetector.find_duplicates hashlib directory
                   hash_type w)))
       /\ (forall duplicates keep_strategy,
              evolves w
                (final_world
                   (DuplicateDetector.remove_duplicates duplicates
                      keep_strategy w)))
       /\ (forall utf8_decode self file_path,
              evolves w
                (final_world
                   (FileClassifier.classify_file utf8_decode self
                      file_path w))).
Proof.
  split.
  - intros now. unfold keyed, Logger.init_db. simpl.
    repeat split; constructor.
  - intros w. split; [|split].
    + intros hashlib directory hash_type.
      apply (@preserved_find_duplicates evolves evolves_refl evolves_trans
               log_operation_evolves log_file_metadata_evolves).
    + intros duplicates keep_strategy. apply remove_duplicates_evolves.
    + intros utf8_decode self file_path.
      apply (@preserved_classify_file evolves evolves_refl evolves_trans
               log_operation_evolves).
Qed.

(* ================================================================== *)
(** ** utils/file_utils.py: the extension of a path *)

Lemma append_empty_r s : (s ++ "")%string = s.
Proof. induction s as [|a s IH]; simpl; congruence. Qed.

Lemma substring_all s : substring 0 (String.length s) s = s.
Proof. induction s as [|a s IH]; simpl; congruence. Qed.

Lemma drop_0 s : drop 0 s = s.
Proof. unfold drop. rewrite Nat.sub_0_r. apply substring_all. Qed.

Lemma drop_S a s n : drop (S n) (String a s) = drop n s.
Proof. reflexivity. Qed.

Lemma drop_empty n : drop n "" = "".
Proof. destruct n; reflexivity. Qed.

Lemma take_drop s : forall n, (n <= String.length s)%nat ->
  (substring 0 n s ++ drop n s)%string = s.
Proof.
  induction s as [|a s IH]; intros [|n] Hn; simpl in *; try reflexivity;
    try lia.
  - now rewrite drop_0.
  - rewrite drop_S, IH by lia. reflexivity.
Qed.

Lemma occurs_drop c s : forall n, occurs c s = false -> occurs c (drop n s) = false.
Proof.
  induction s as [|a s IH]; intros n H.
  - now rewrite drop_empty.
  - destruct n; [now rewrite drop_0|]. rewrite drop_S. apply IH.
    simpl in H. now apply orb_false_iff in H.
Qed.

Lemma drop_tail s : forall n x r k,
  drop n s = String x r -> drop (n + S k) s = drop k r.
Proof.
  induction s as [|a s IH]; intros n x r k H.
  - rewrite drop_empty in H. discriminate.
  - destruct n; simpl Nat.add.
    + rewrite drop_0 in H. injection H as -> ->. apply drop_S.
    + rewrite drop_S in *. now apply (IH n x r k).
Qed.

(** [s.rfind(c)] is -1 when [c] is not in [s], and otherwise the position
    of a [c] after which there is no other. *)
Lemma rfind_from_spec c s : forall i, 0 <= i ->
  (Os.rfind_from c s i = -1 /\ occurs c s = false)
  \/ (exists n rest,
        Os.rfind_from c s i = i + Z.of_nat n
        /\ (n < String.length s)%nat
        /\ drop n s = String c rest
        /\ occurs c rest = false).
Proof.
  induction s as [|a s IH]; intros i Hi; cbn [Os.rfind_from occurs].
  - left. split; reflexivity.
  - destruct (IH (i + 1)) as [[Hr Hnone] | (n & rest & Hr & Hn & Hd & Hrest)];
      [lia | |].
    + rewrite Hr. cbn [Z.leb Z.compare]. rewrite Hnone, orb_false_r.
      destruct (Ascii.eqb_spec a c) as [-> | Hne].
      * right. exists O, s. rewrite drop_0. simpl. repeat split; auto; lia.
      * left. split; reflexivity.
    + rewrite Hr. destruct (Z.leb_spec 0 (i + 1 + Z.of_nat n)); [|lia].
      right. exists (S n), rest. rewrite drop_S. simpl String.length.
      repeat split; auto; lia.
Qed.

Lemma rfind_spec c s :
  (Os.rfind c s = -1 /\ occurs c s = false)
  \/ (exists n rest,
        Os.rfind c s = Z.of_nat n
        /\ (n < String.length s)%nat
        /\ drop n s = String c rest
        /\ occurs c rest = false).
Proof.
  unfold Os.rfind. destruct (@rfind_from_spec c s 0) as [H | H]; auto.
  lia.
Qed.

Lemma lower_char_dot a :
  Ascii.eqb (PyStr.lower_char a) "."%char = Ascii.eqb a "."%char.
Proof. destruct a as [[] [] [] [] [] [] [] []]; reflexivity. Qed.

Lemma lower_char_sep a :
  Ascii.eqb (PyStr.lower_char a) "/"%char = Ascii.eqb a "/"%char.
Proof. destruct a as [[] [] [] [] [] [] [] []]; reflexivity. Qed.

Lemma occurs_lower_dot s : occurs "."%char (PyStr.lower s) = occurs "."%char s.
Proof.
  induction s as [|a s IH]; cbn [PyStr.lower occurs]; [reflexivity|].
  now rewrite lower_char_dot, IH.
Qed.

Lemma occurs_lower_sep s : occurs "/"%char (PyStr.lower s) = occurs "/"%char s.
Proof.
  induction s as [|a s IH]; cbn [PyStr.lower occurs]; [reflexivity|].
  now rewrite lower_char_sep, IH.
Qed.

Lemma lower_append s t :
  PyStr.lower (s ++ t) = (PyStr.lower s ++ PyStr.lower t)%string.
Proof. induction s as [|a s IH]; simpl; congruence. Qed.

(** What [os.path.splitext] returns: the two halves of the path, the second
    one empty or cut at the last dot of the file name. *)
Lemma splitext_spec p :
  (fst (Os.splitext p) ++ snd (Os.splitext p))%string = p
  /\ (snd (Os.splitext p) = ""
      \/ exists rest,
           snd (Os.splitext p) = String "."%char rest
           /\ occurs "."%char rest = false
           /\ occurs "/"%char rest = false)
  /\ (occurs "."%char p = false -> snd (Os.splitext p) = "").
Proof.
  assert (Hwhole : (p ++ "")%string = p
                   /\ ("" = ""
                       \/ exists rest,
                            "" = String "."%char rest
                            /\ occurs "."%char rest = false
                            /\ occurs "/"%char rest = false)
                   /\ (occurs "."%char p = false -> "" = "")).
  { split; [apply append_empty_r|]. split; [now left | reflexivity]. }
  unfold Os.splitext.
  destruct (Os.rfind "/"%char p <? Os.rfind "."%char p) eqn:Hlt;
    [|exact Hwhole].
  destruct (Os.has_non_dot _); [|exact Hwhole].
  cbn [fst snd]. apply Z.ltb_lt in Hlt.
  destruct (rfind_spec "."%char p)
    as [[Hdot Hnodot] | (nd & rest & Hdot & Hnd & Hd & Hrest)].
  { exfalso. rewrite Hdot in Hlt.
    destruct (rfind_spec "/"%char p) as [[Hs _] | (n & _ & Hs & _)];
      rewrite Hs in Hlt; lia. }
  rewrite Hdot, Nat2Z.id in *.
  change (substring nd (String.length p - nd) p) with (drop nd p).
  split; [apply take_drop; lia|]. split.
  - right. exists rest. split; [exact Hd|]. split; [exact Hrest|].
    assert (Hsuffix : occurs "/"%char (drop nd p) = false).
    { destruct (rfind_spec "/"%char p)
        as [[_ Hnone] | (ns & rest_s & Hs & Hns & Hds & Hrest_s)].
      - now apply occurs_drop.
      - rewrite Hs in Hlt.
        replace nd with (ns + S (nd - ns - 1))%nat by lia.
        rewrite (@drop_tail p ns "/"%char rest_s (nd - ns - 1) Hds).
        now apply occurs_drop. }
    rewrite Hd in Hsuffix. simpl in Hsuffix. exact Hsuffix.
  - intros Hnone. apply (@occurs_drop "."%char p nd) in Hnone.
    rewrite Hd in Hnone. simpl in Hnone. discriminate.
Qed.

(** X25.  For a path of ASCII characters, the extension
    [get_file_extension] returns is in lower case and is a suffix of the
    lower-cased path; it is empty (always so for a path without a dot) or a
    dot followed by characters that are neither a dot nor a path
    separator. *)
Theorem extension_is_a_lowercase_dotted_suffix :
  forall file_path : string,
    is_ascii file_path = true ->
    let ext := FileUtils.get_file_extension file_path in
    PyStr.lower ext = ext
    /\ (exists root, PyStr.lower file_path = (root ++ ext)%string)
    /\ (ext = ""
        \/ exists rest,
             ext = String "."%char rest
             /\ occurs "."%char rest = false
             /\ occurs "/"%char rest = false)
    /\ (occurs "."%char file_path = false -> ext = "").
Proof.
  intros file_path _ ext. subst ext. unfold FileUtils.get_file_extension.
  destruct (splitext_spec file_path) as (Hsplit & Hshape & Hnodot).
  split; [apply lower_idempotent|]. split; [|split].
  - exists (PyStr.lower (fst (Os.splitext file_path))).
    rewrite <- lower_append. now rewrite Hsplit.
  - destruct Hshape as [-> | (rest & -> & Hdot & Hsep)]; [now left|].
    right. exists (PyStr.lower rest). split; [reflexivity|].
    now rewrite occurs_lower_dot, occurs_lower_sep.
  - intros H. now rewrite (Hnodot H).
Qed.

(** X25 on a report with two dots and capital letters in its name. *)
Lemma extension_is_a_lowercase_dotted_suffix_witness :
  FileUtils.get_file_extension "archive/Report.Final.PDF" = ".pdf"
  /\ exists root,
       PyStr.lower "archive/Report.Final.PDF"
       = (root ++ FileUtils.get_file_extension "archive/Report.Final.PDF")%string.
Proof.
  split; [reflexivity|].
  exact (proj1 (proj2 (@extension_is_a_lowercase_dotted_suffix
                         "archive/Report.Final.PDF" eq_refl))).
Defined.

(* ================================================================== *)
(** ** organized/document/duplicate_detector.py: scanning again *)

(** A file that is still there after calls that only delete is hashed as
    before. *)
Lemma has_hash_before hashlib hash_type fs fs' k p :
  shrinks fs fs' ->
  has_hash hashlib fs' hash_type k p = true ->
  has_hash hashlib fs hash_type k p = true
  /\ exists f, lookup fs' p = Some f.
Proof.
  intros (Hsame & _ & _) Hhash. unfold has_hash in *.
  destruct (FileUtils.calculate_file_hash hashlib fs' p hash_type)
    as [h|e] eqn:Hcalc; [|discriminate].
  apply hash_ok_inv in Hcalc.
  destruct Hcalc as (hash_func & f & Hlib & Hf & Hread & -> & _).
  split; [|now exists f].
  unfold FileUtils.calculate_file_hash, Os.read_bytes.
  now rewrite Hlib, (Hsame p f Hf), Hread.
Qed.

Lemma listing_shrinks fs fs' directory p :
  shrinks fs fs' ->
  In p (FileUtils.list_files fs' directory) ->
  In p (FileUtils.list_files fs directory).
Proof.
  intros (_ & Hin & _). unfold FileUtils.list_files.
  rewrite !filter_In. intros [Hp Hroot]. split; [now apply Hin | exact Hroot].
Qed.

(** X26.  Deduplication is complete: on a file system of distinct paths
    whose listed files can all be deleted, after [find_duplicates] and
    [remove_duplicates] with a strategy the code knows, a second
    [find_duplicates] on the same directory returns no group at all. *)
Theorem second_scan_finds_no_duplicates :
  forall (hashlib : FileUtils.hashlib_t) (directory hash_type keep_strategy : string)
         (w : world),
    NoDup (map fst (w_fs w)) ->
    valid_strategy keep_strategy ->
    (forall p, In p (FileUtils.list_files (w_fs w) directory) ->
               deletable (w_fs w) p = true) ->
    exists groups w1 removed w2 w3,
      DuplicateDetector.find_duplicates hashlib directory hash_type w
      = Returns groups w1
      /\ DuplicateDetector.remove_duplicates groups keep_strategy w1
         = Returns removed w2
      /\ DuplicateDetector.find_duplicates hashlib directory hash_type w2
         = Returns [] w3.
Proof.
  intros hashlib directory hash_type keep_strategy w Hpaths Hvalid Hdel.
  rewrite find_duplicates_run.
  set (files := FileUtils.list_files (w_fs w) directory) in *.
  set (groups := filter (fun kv => (1 <? List.length (snd kv))%nat)
                   (fold_left (group_step hashlib (w_fs w) hash_type) files [])).
  set (w1 := mkWorld (w_fs w)
               (fold_left (hash_db_step hashlib hash_type (w_fs w)) files (w_db w))).
  assert (Hchar : forall k paths,
             In (k, paths) groups ->
             paths = filter (has_hash hashlib (w_fs w) hash_type k) files
             /\ (2 <= List.length paths)%nat).
  { intros k paths Hin. now apply in_groups in Hin. }
  assert (Hnd : NoDup (members groups)).
  { apply (@groups_members_NoDup hashlib hash_type (w_fs w) files).
    - now apply listing_NoDup.
    - unfold PyDict.keys. apply NoDup_map_fst_filter.
      apply (groups_of_listing hashlib hash_type (w_fs w) files).
    - intros k paths Hin. now apply Hchar. }
  assert (Hexists : forall p, In p (members groups) ->
                              exists_file (w_fs w1) p = true).
  { intros p Hp. unfold members, PyDict.values in Hp.
    apply in_concat in Hp. destruct Hp as (v & Hv & Hp).
    apply in_map_iff in Hv. destruct Hv as ([k paths] & <- & Hin).
    destruct (Hchar k paths Hin) as [-> _].
    apply filter_In in Hp. destruct Hp as [Hp _].
    specialize (Hdel p Hp). unfold deletable in Hdel.
    unfold exists_file. simpl. destruct (lookup (w_fs w) p); congruence. }
  destruct (@remove_duplicates_returns keep_strategy groups w1 Hvalid Hnd
              Hexists)
    as (w2 & new & Hrun & _ & _ & _ & Hfs).
  pose proof (remove_duplicates_evolves groups keep_strategy w1) as [Hshrinks _].
  rewrite Hrun in Hshrinks. cbn [final_world] in Hshrinks.
  change (w_fs w1) with (w_fs w) in *.
  exists groups, w1. eexists. exists w2. eexists.
  split; [reflexivity|]. split; [exact Hrun|].
  rewrite find_duplicates_run. f_equal.
  set (files2 := FileUtils.list_files (w_fs w2) directory).
  destruct (filter (fun kv => (1 <? List.length (snd kv))%nat)
              (fold_left (group_step hashlib (w_fs w2) hash_type) files2 []))
    as [|[k paths2] others] eqn:Hgroups2; [reflexivity|].
  exfalso.
  assert (Hin2 : In (k, paths2)
                    (filter (fun kv => (1 <? List.length (snd kv))%nat)
                       (fold_left (group_step hashlib (w_fs w2) hash_type)
                                  files2 [])))
    by (rewrite Hgroups2; now left).
  apply in_groups in Hin2. destruct Hin2 as [Hpaths2 Hlen2].
  assert (Hnd2 : NoDup paths2).
  { rewrite Hpaths2. apply NoDup_filter. apply listing_NoDup.
    destruct Hshrinks as (_ & _ & Hkeep). now apply Hkeep. }
  (* a member of the second group was in the first scan, under the same
     hash, and was not among the files to remove *)
  assert (Hmember : forall z, In z paths2 ->
             In z (filter (has_hash hashlib (w_fs w) hash_type k) files)
             /\ ~ In z (all_candidates (w_fs w) keep_strategy groups)).
  { intros z Hz. rewrite Hpaths2 in Hz. apply filter_In in Hz.
    destruct Hz as [Hlisted Hhash].
    destruct (@has_hash_before hashlib hash_type (w_fs w) (w_fs w2) k z
                Hshrinks Hhash) as [Hbefore [f Hf]].
    pose proof (@listing_shrinks (w_fs w) (w_fs w2) directory z Hshrinks
                  Hlisted) as Hz.
    split; [apply filter_In; split; assumption|].
    intros Hcand. rewrite Hfs in Hf. unfold removed_by in Hf.
    apply existsb_eqb_In in Hcand. rewrite Hcand, (Hdel z Hz) in Hf.
    discriminate. }
  destruct paths2 as [|x [|y rest]]; simpl in Hlen2; try lia.
  assert (Hxy : x <> y).
  { intros ->. inversion Hnd2 as [|? ? Hnotin _]; subst.
    apply Hnotin. now left. }
  destruct (Hmember x) as [Hx Hxc]; [now left|].
  destruct (Hmember y) as [Hy Hyc]; [right; now left|].
  set (group := filter (has_hash hashlib (w_fs w) hash_type k) files) in *.
  pose proof (@two_distinct_members _ group x y Hx Hy Hxy) as Hlen.
  assert (Hgroup : In (k, group) groups).
  { apply in_groups. split; [reflexivity | exact Hlen]. }
  destruct (@candidates_of_group (w_fs w) keep_strategy group Hvalid)
    as (keep_file & _ & Hperm); auto.
  { intros q Hq. apply Hexists. eapply in_members; eauto. }
  assert (Hkept : forall z, In z group ->
             ~ In z (all_candidates (w_fs w) keep_strategy groups) ->
             z = keep_file).
  { intros z Hz Hzc.
    apply (Permutation_in _ (Permutation_sym Hperm)) in Hz.
    destruct Hz as [<- | Hz]; [reflexivity|].
    exfalso. apply Hzc. apply in_all_candidates. exists k, group. tauto. }
  apply Hxy. rewrite (Hkept x Hx Hxc), (Hkept y Hy Hyc). reflexivity.
Qed.

(** X26 on the directory of three: once the older "hello" is removed, the
    second scan finds nothing. *)
Lemma second_scan_finds_no_duplicates_witness :
  exists groups w1 removed w2 w3,
    DuplicateDetector.find_duplicates hashlib_md5 "d" "md5"
      (mkWorld [("d/a", mkFile "hello" 1 1 "text/plain" true true);
                ("d/b", mkFile "hello" 2 2 "text/plain" true true);
                ("d/c", mkFile "world" 3 3 "text/plain" true true)]
               (Logger.init_db 0))
    = Returns groups w1
    /\ DuplicateDetector.remove_duplicates groups "newest" w1
       = Returns removed w2
    /\ DuplicateDetector.find_duplicates hashlib_md5 "d" "md5" w2
       = Returns [] w3.
Proof.
  apply (@second_scan_finds_no_duplicates hashlib_md5 "d" "md5" "newest"
           (mkWorld [("d/a", mkFile "hello" 1 1 "text/plain" true true);
                     ("d/b", mkFile "hello" 2 2 "text/plain" true true);
                     ("d/c", mkFile "world" 3 3 "text/plain" true true)]
                    (Logger.init_db 0))).
  - simpl. repeat constructor; simpl; intuition discriminate.
  - unfold valid_strategy. simpl. auto.
  - intros p Hp. vm_compute in Hp.
    destruct Hp as [<- | [<- | [<- | []]]]; reflexivity.
Defined.

(* ================================================================== *)
(** ** organized/document/duplicate_detector.py: when the analysis returns *)

Lemma count_types_ok_inv fs groups :
  forall type_counts types,
    DuplicateDetector.count_types fs groups type_counts = Ok types ->
    Forall (inspectable fs) groups.
Proof.
  induction groups as [|files groups IH]; intros type_counts types Hrun;
    [constructor|].
  cbn [DuplicateDetector.count_types] in Hrun.
  destruct files as [|f rest]; [discriminate|].
  cbn [DuplicateDetector.first rbind] in Hrun.
  unfold FileUtils.get_file_type in Hrun.
  destruct (lookup fs f) as [x|] eqn:Hf; [|discriminate].
  destruct (f_readable x) eqn:Hread; [|discriminate].
  cbn [rbind] in Hrun. constructor.
  - exists f, rest, x. repeat split; assumption.
  - eapply IH. exact Hrun.
Qed.

Lemma extra_members_lower_bound groups :
  Forall (fun files => (2 <= List.length files)%nat) groups ->
  Z.of_nat (List.length groups) <= extra_members groups.
Proof.
  unfold extra_members, sum_Z, DuplicateDetector.len.
  induction 1 as [|files groups Hfiles _ IH]; [simpl; lia|].
  cbn [map fold_right List.length]. lia.
Qed.

(** X27.  [analyze_duplicates] returns exactly when every group of the
    mapping has a first member that exists and can be read: an empty group
    ([files[0]]), a missing first member ([os.path.getsize]) and a first
    member that cannot be read (the type detection) make it raise. *)
Theorem analysis_returns_iff_groups_inspectable :
  forall (fs : filesystem) (duplicates : PyDict.dict (list string)),
    (exists st, DuplicateDetector.analyze_duplicates fs duplicates = Ok st)
    <-> Forall (inspectable fs) (PyDict.values duplicates).
Proof.
  intros fs duplicates. unfold DuplicateDetector.analyze_duplicates,
    DuplicateDetector._get_duplicate_types. split.
  - intros [st Hrun].
    destruct (DuplicateDetector.sum_space fs (PyDict.values duplicates));
      cbn [rbind] in Hrun; [|discriminate].
    destruct (DuplicateDetector.count_types fs (PyDict.values duplicates) [])
      as [types|e] eqn:Htypes; [|discriminate].
    eapply count_types_ok_inv. exact Htypes.
  - intros Hok. rewrite (@sum_space_spec fs (PyDict.values duplicates) Hok).
    cbn [rbind].
    destruct (@count_types_spec fs (PyDict.values duplicates) Hok [])
      as (types & -> & _).
    cbn [rbind]. eexists. reflexivity.
Qed.

(** X28.  The analysis of what [find_duplicates] has just returned never
    raises, and it counts at least one duplicate file per group: the first
    member of every group was hashed, so it exists and can be read, and
    every group has two members or more. *)
Theorem analysis_of_a_scan_returns :
  forall (hashlib : FileUtils.hashlib_t) (directory hash_type : string)
         (w : world),
    exists groups w1 st,
      DuplicateDetector.find_duplicates hashlib directory hash_type w
      = Returns groups w1
      /\ DuplicateDetector.analyze_duplicates (w_fs w1) groups = Ok st
      /\ DuplicateDetector.total_duplicate_groups st
         <= DuplicateDetector.total_duplicate_files st
      /\ 0 <= DuplicateDetector.potential_space_saved st.
Proof.
  intros hashlib directory hash_type w. rewrite find_duplicates_run.
  set (files := FileUtils.list_files (w_fs w) directory).
  set (groups := filter (fun kv => (1 <? List.length (snd kv))%nat)
                   (fold_left (group_step hashlib (w_fs w) hash_type) files [])).
  assert (Hchar : forall k paths,
             In (k, paths) groups ->
             paths = filter (has_hash hashlib (w_fs w) hash_type k) files
             /\ (2 <= List.length paths)%nat).
  { intros k paths Hin. now apply in_groups in Hin. }
  assert (Hlen : Forall (fun paths => (2 <= List.length paths)%nat)
                        (PyDict.values groups)).
  { rewrite Forall_forall. intros paths Hp. unfold PyDict.values in Hp.
    apply in_map_iff in Hp. destruct Hp as ([k paths'] & <- & Hin).
    now apply (Hchar k paths'). }
  assert (Hok : Forall (inspectable (w_fs w)) (PyDict.values groups)).
  { rewrite Forall_forall. intros paths Hp. unfold PyDict.values in Hp.
    apply in_map_iff in Hp. destruct Hp as ([k paths'] & <- & Hin).
    destruct (Hchar k paths' Hin) as [Hpaths Hlen']. cbn [snd].
    destruct paths' as [|f rest]; [simpl in Hlen'; lia|].
    assert (Hf : In f (filter (has_hash hashlib (w_fs w) hash_type k) files))
      by (rewrite <- Hpaths; now left).
    apply filter_In in Hf. destruct Hf as [_ Hhash]. unfold has_hash in Hhash.
    destruct (FileUtils.calculate_file_hash hashlib (w_fs w) f hash_type)
      as [h|e] eqn:Hcalc; [|discriminate].
    apply hash_ok_inv in Hcalc.
    destruct Hcalc as (hash_func & x & _ & Hx & Hread & _).
    exists f, rest, x. repeat split; assumption. }
  exists groups,
    (mkWorld (w_fs w)
       (fold_left (hash_db_step hashlib hash_type (w_fs w)) files (w_db w))).
  unfold DuplicateDetector.analyze_duplicates,
    DuplicateDetector._get_duplicate_types. cbn [w_fs].
  rewrite (@sum_space_spec (w_fs w) (PyDict.values groups) Hok). cbn [rbind].
  destruct (@count_types_spec (w_fs w) (PyDict.values groups) Hok [])
    as (types & -> & _).
  cbn [rbind]. eexists. split; [reflexivity|]. split; [reflexivity|].
  cbn [DuplicateDetector.total_duplicate_groups
         DuplicateDetector.total_duplicate_files
         DuplicateDetector.potential_space_saved].
  split.
  - pose proof (extra_members_lower_bound Hlen) as Hbound.
    unfold extra_members, sum_Z in Hbound.
    unfold DuplicateDetector.len at 1. unfold PyDict.keys.
    unfold PyDict.values in Hbound. rewrite !length_map in *. exact Hbound.
  - now apply sum_space_nonneg.
Qed.
